(** * TUAB bidsification: indexing, identity resolution and conversion

    A shallow embedding of [scripts/00_bidsify_tuab.ipynb] (and of the
    configuration cell of the TUAB processing notebook) together with the
    properties of the recording index, the session reindexer, the channel
    name normalisation and the conversion loop.

    Python values are modelled as follows: [str] as [string] (one [ascii]
    per code point), [int] as [Z], a list or a DataFrame column as a
    [list], a DataFrame as the list of its rows (or columns, for the
    descriptor table), a raised exception as [Raise e] in the [result]
    type, and the files written by the converter as an explicit store
    threaded through the conversion loop. *)

From Stdlib Require Import ZArith Ascii String.
From stdpp Require Import base tactics option list strings sorting pretty.

Local Open Scope Z_scope.

(** ** Exceptions and fallible computations *)

Inductive exn : Type :=
  | ValueError (msg : string)
  | KeyError (key : string)
  | TypeError
  | AttributeError
  | OverflowError
  | UnicodeDecodeError
  | AssertionError (msg : string)
  | NotImplementedError (msg : string)
  | OSError
  | NameError (name : string)
  | WriteError.

Inductive result (A : Type) : Type :=
  | Ok (a : A)
  | Raise (e : exn).
Arguments Ok {A} a.
Arguments Raise {A} e.

Definition bind {A B} (m : result A) (k : A -> result B) : result B :=
  match m with
  | Ok a => k a
  | Raise e => Raise e
  end.

Declare Scope result_scope.
Delimit Scope result_scope with result.
Notation "x <- m ;; k" := (bind m (fun x => k))
  (at level 100, m at next level, right associativity) : result_scope.
Local Open Scope result_scope.

Definition is_ok {A} (m : result A) : bool :=
  match m with Ok _ => true | Raise _ => false end.

(** A [for] loop whose body may raise: the first exception ends the loop. *)
Fixpoint for_each {A B} (f : A -> result B) (l : list A) : result (list B) :=
  match l with
  | [] => Ok []
  | x :: l' => y <- f x ;; ys <- for_each f l' ;; Ok (y :: ys)
  end.

(** ** Python string primitives *)

Module Py.

(** [sub in s] *)
Fixpoint contains (sub s : string) : bool :=
  String.prefix sub s ||
  match s with
  | EmptyString => false
  | String _ t => contains sub t
  end.

(** [s.replace(old, new)] for a non-empty [old]: the occurrences are
    found left to right and do not overlap; [skip] counts the characters
    of a matched occurrence that are still to be passed over. *)
Fixpoint replace_from (old new : string) (skip : nat) (s : string) : string :=
  match s with
  | EmptyString => EmptyString
  | String c t =>
      match skip with
      | S k => replace_from old new k t
      | O =>
          if String.prefix old s
          then new +:+ replace_from old new (String.length old - 1) t
          else String c (replace_from old new 0 t)
      end
  end.

(** [s.replace("", new)] puts [new] before every character and at the end. *)
Fixpoint intersperse (new s : string) : string :=
  match s with
  | EmptyString => new
  | String c t => new +:+ String c (intersperse new t)
  end.

Definition replace (s old new : string) : string :=
  match old with
  | EmptyString => intersperse new s
  | _ => replace_from old new 0 s
  end.

(** [sep.join(parts)] *)
Definition join (sep : string) (parts : list string) : string :=
  String.concat sep parts.

(** [s.split(sep)] for a one-character separator *)
Fixpoint split_go (sep : ascii) (cur : string) (s : string) : list string :=
  match s with
  | EmptyString => [String.rev cur]
  | String c t =>
      if Ascii.eqb c sep then String.rev cur :: split_go sep EmptyString t
      else split_go sep (String c cur) t
  end.
Definition split (s : string) (sep : ascii) : list string :=
  split_go sep EmptyString s.

(** ASCII [str.lower] and [str.upper] *)
Definition lower_char (c : ascii) : ascii :=
  let n := nat_of_ascii c in
  if (65 <=? n)%nat && (n <=? 90)%nat then ascii_of_nat (n + 32) else c.
Definition upper_char (c : ascii) : ascii :=
  let n := nat_of_ascii c in
  if (97 <=? n)%nat && (n <=? 122)%nat then ascii_of_nat (n - 32) else c.
Fixpoint map_chars (f : ascii -> ascii) (s : string) : string :=
  match s with
  | EmptyString => EmptyString
  | String c t => String (f c) (map_chars f t)
  end.
Definition lower : string -> string := map_chars lower_char.
Definition upper : string -> string := map_chars upper_char.

(** [s.zfill(width)]: pad with zeros on the left, after a leading sign. *)
Fixpoint zeros (n : nat) : string :=
  match n with
  | O => EmptyString
  | S k => String "0" (zeros k)
  end.
Definition zfill (s : string) (width : nat) : string :=
  let pad := zeros (width - String.length s) in
  match s with
  | String c t =>
      if Ascii.eqb c "+" || Ascii.eqb c "-" then String c (pad +:+ t)
      else pad +:+ s
  | EmptyString => pad
  end.

(** [s[n:]] *)
Fixpoint drop (n : nat) (s : string) : string :=
  match n, s with
  | S k, String _ t => drop k t
  | _, _ => s
  end.

Fixpoint take_while (p : ascii -> bool) (s : string) : string :=
  match s with
  | String c t => if p c then String c (take_while p t) else EmptyString
  | EmptyString => EmptyString
  end.

Fixpoint all_chars (p : ascii -> bool) (s : string) : bool :=
  match s with
  | String c t => p c && all_chars p t
  | EmptyString => true
  end.

Definition code (c : ascii) : nat := nat_of_ascii c.

(** [c.isspace()] on the code points below 256 *)
Definition is_space (c : ascii) : bool :=
  let n := code c in
  ((9 <=? n)%nat && (n <=? 13)%nat) || ((28 <=? n)%nat && (n <=? 32)%nat)
  || (n =? 133)%nat || (n =? 160)%nat.

(** decimal digits: only ["0"] to ["9"] below code point 256 *)
Definition is_digit (c : ascii) : bool :=
  let n := code c in (48 <=? n)%nat && (n <=? 57)%nat.

(** The white space [int] passes over around a numeral: the C white
    space and, beyond code point 127, the Unicode white space *)
Definition is_int_space (c : ascii) : bool :=
  let n := code c in
  ((9 <=? n)%nat && (n <=? 13)%nat) || (n =? 32)%nat
  || (n =? 133)%nat || (n =? 160)%nat.

Fixpoint lstrip_chars (p : ascii -> bool) (l : list ascii) : list ascii :=
  match l with
  | c :: t => if p c then lstrip_chars p t else l
  | [] => []
  end.

(** The string without the characters of the class [p] at its two ends *)
Definition strip_chars (p : ascii -> bool) (s : string) : string :=
  let chars := lstrip_chars p (String.list_ascii_of_string s) in
  String.string_of_list_ascii (rev (lstrip_chars p (rev chars))).

Definition digit_value (c : ascii) : Z := Z.of_nat (code c - 48).

(** The digits of an integer literal: single underscores may separate
    digits. [acc] is the value read so far, [prev] tells whether the
    previous character was a digit. *)
Fixpoint int_digits (acc : Z) (prev : bool) (s : string) : option Z :=
  match s with
  | EmptyString => if prev then Some acc else None
  | String c t =>
      if is_digit c then int_digits (10 * acc + digit_value c) true t
      else if Ascii.eqb c "_" && prev then
        match t with
        | String d _ => if is_digit d then int_digits acc false t else None
        | EmptyString => None
        end
      else None
  end.

Fixpoint count_digits (s : string) : nat :=
  match s with
  | EmptyString => 0
  | String c t => (if is_digit c then 1 else 0) + count_digits t
  end.

(** CPython refuses to convert more than this many digits. *)
Definition int_max_str_digits : nat := 4300.

(** [int(s)] in base 10 *)
Definition int (s : string) : result Z :=
  let s := strip_chars is_int_space s in
  let '(sign, body) :=
    match s with
    | String c t =>
        if Ascii.eqb c "-" then (-1, t)
        else if Ascii.eqb c "+" then (1, t) else (1, s)
    | EmptyString => (1, s)
    end in
  match int_digits 0 false body with
  | Some n =>
      if (int_max_str_digits <? count_digits body)%nat
      then Raise (ValueError "Exceeds the limit for integer string conversion")
      else Ok (sign * n)
  | None => Raise (ValueError "invalid literal for int() with base 10")
  end.

End Py.

(** ** Regular expressions

    [re.findall] scans the text from left to right; where the pattern
    matches it records the captured group and goes on after the match,
    elsewhere it moves one character on. A pattern is given by the function
    that tries it at the start of a text and returns the captured group
    with the length of the match (never zero for the patterns used here). *)

Module Re.

Definition pattern : Type := string -> option (string * nat).

Fixpoint findall_from (p : pattern) (skip : nat) (s : string) : list string :=
  match s with
  | EmptyString => []
  | String c t =>
      match skip with
      | S k => findall_from p k t
      | O =>
          match p s with
          | Some (group, len) => group :: findall_from p (len - 1) t
          | None => findall_from p 0 t
          end
      end
  end.

Definition findall (p : pattern) (s : string) : list string :=
  findall_from p 0 s.

(** the class [\w] on the code points below 256 *)
Definition is_word (c : ascii) : bool :=
  let n := Py.code c in
  Py.is_digit c || (n =? 95)%nat
  || ((65 <=? n)%nat && (n <=? 90)%nat) || ((97 <=? n)%nat && (n <=? 122)%nat)
  || (n =? 170)%nat || (n =? 178)%nat || (n =? 179)%nat || (n =? 181)%nat
  || (n =? 185)%nat || (n =? 186)%nat || ((188 <=? n)%nat && (n <=? 190)%nat)
  || ((192 <=? n)%nat && (n <=? 214)%nat)
  || ((216 <=? n)%nat && (n <=? 246)%nat) || (248 <=? n)%nat.

(** [Age:(\d+)] *)
Definition age_pattern : pattern := fun s =>
  if String.prefix "Age:" s then
    match Py.take_while Py.is_digit (Py.drop 4 s) with
    | EmptyString => None
    | ds => Some (ds, (4 + String.length ds)%nat)
    end
  else None.

(** [\s([...])\s]: one character of the class [cls] between two
    white-space characters *)
Definition spaced_char (cls : list ascii) : pattern := fun s =>
  match s with
  | String a (String c (String b _)) =>
      if Py.is_space a && bool_decide (c ∈ cls) && Py.is_space b
      then Some (String c EmptyString, 3%nat) else None
  | _ => None
  end.

(** [\s([F|M])\s]: the class holds the three characters F, | and M *)
Definition gender_pattern : pattern := spaced_char ["F"; "|"; "M"]%char.

(** [\_tcp\_(\w\w)] *)
Definition tcp_pattern : pattern := fun s =>
  if String.prefix "_tcp_" s then
    match Py.drop 5 s with
    | String a (String b _) =>
        if is_word a && is_word b
        then Some (String a (String b EmptyString), 7%nat) else None
    | _ => None
    end
  else None.

End Re.

(** ** The header of a raw file *)

(** The raw files, by path: the bytes of each file that can be opened. *)
Definition files : Type := string -> option (list Byte.byte).

(** [bs.decode("ascii")] *)
Definition decode_ascii (bs : list Byte.byte) : result string :=
  if forallb (fun b => (Byte.to_N b <? 128)%N) bs
  then Ok (String.string_of_list_byte bs)
  else Raise UnicodeDecodeError.

Definition _read_edf_header (fs : files) (file_path : string)
  : result (list Byte.byte) :=
  match fs file_path with
  | Some content => Ok (take 88 content)
  | None => Raise OSError
  end.

Definition _parse_age_and_gender_from_edf_header (fs : files)
    (file_path : string) : result (Z * string) :=
  header <- _read_edf_header fs file_path ;;
  patient_id <- decode_ascii (drop 8 header) ;;
  age <- (match Re.findall Re.age_pattern patient_id with
          | [a] => Py.int a
          | _ => Ok (-1)
          end) ;;
  let gender :=
    match Re.findall Re.gender_pattern patient_id with
    | [g] => g
    | _ => "X"
    end in
  Ok (age, gender).


(** ** Channel names *)

Definition exclude : list string := ["LOC"; "ROC"; "EKG1"].

Definition rewrite_rules (ch_name : string) : string :=
  let out := Py.replace (Py.replace ch_name "EEG " "") "-REF" "" in
  Py.replace (Py.replace out "FP" "Fp") "Z" "z".

Definition rename_tuh_channels (ch_name : string) : string :=
  let out :=
    if Py.contains "EEG" ch_name then rewrite_rules ch_name else ch_name in
  if bool_decide (out ∈ exclude) then ch_name else out.

(** The pattern the specification describes for the sex: an [F] or an
    [M] between white space; [Re.gender_pattern] is the pattern of the
    code. *)
Definition sex_token_pattern : Re.pattern := Re.spaced_char ["F"; "M"]%char.

(** ** Paths *)

(** [os.path.normpath] (POSIX). The components kept so far are held in
    reverse order. *)
Definition normpath_step (initial_slashes : nat) (new_comps : list string)
    (comp : string) : list string :=
  if bool_decide (comp = "") || bool_decide (comp = ".") then new_comps
  else if negb (bool_decide (comp = ".."))
          || (bool_decide (initial_slashes = 0%nat)
              && bool_decide (new_comps = []))
          || bool_decide (head new_comps = Some "..")
  then comp :: new_comps
  else tail new_comps.

Definition normpath (path : string) : string :=
  if bool_decide (path = "") then "."
  else
    let initial_slashes : nat :=
      if String.prefix "/" path then
        if String.prefix "//" path && negb (String.prefix "///" path)
        then 2%nat else 1%nat
      else 0%nat in
    let comps :=
      rev (fold_left (normpath_step initial_slashes) (Py.split path "/") []) in
    let path := Py.join "/" comps in
    let path :=
      match initial_slashes with
      | 0%nat => path
      | 1%nat => "/" +:+ path
      | _ => "//" +:+ path
      end in
    if bool_decide (path = "") then "." else path.

(** ** The descriptor of a raw file *)

(** A [datetime]: the calendar date, and the time of day in seconds *)
Record datetime : Type :=
  Datetime { dt_year : Z; dt_month : Z; dt_day : Z; dt_seconds : Z }.

Record Descriptor : Type := {
  d_path : string;
  d_version : string;
  d_year : Z;
  d_month : Z;
  d_day : Z;
  d_subject : string;
  d_session : Z;
  d_segment : Z;
}.

(** [a, b, c = parts] *)
Definition unpack3 (parts : list string) : result (string * string * string) :=
  match parts with
  | [a; b; c] => Ok (a, b, c)
  | _ :: _ :: _ :: _ :: _ =>
      Raise (ValueError "too many values to unpack (expected 3)")
  | _ => Raise (ValueError "not enough values to unpack (expected 3)")
  end.

Section descriptor.

(** The header probe of the EDF reader, [mne.io.edf.edf._get_info]: it
    raises on a file it cannot read and gives the measurement date, which
    is [None] when the header holds no valid date. *)
Variable _get_info : string -> result (option datetime).

Definition file_name (file_path : string) : string :=
  let tokens := Py.split (normpath file_path) "/" in
  Py.replace (List.last tokens "") ".edf" "".

Definition _parse_description_from_file_path (file_path : string)
  : result Descriptor :=
  let file_path := normpath file_path in
  let tokens := Py.split file_path "/" in
  let version := "V3.0" in
  info <- _get_info file_path ;;
  let fname := Py.replace (List.last tokens "") ".edf" "" in
  parts <- unpack3 (Py.split fname "_") ;;
  let '(subject_id, session, segment) := parts in
  d <- match info with Some d => Ok d | None => Raise AttributeError end ;;
  session_nb <- Py.int (Py.drop 1 session) ;;
  segment_nb <- Py.int (Py.drop 1 segment) ;;
  Ok {| d_path := file_path; d_version := version;
        d_year := dt_year d; d_month := dt_month d; d_day := dt_day d;
        d_subject := subject_id;
        d_session := session_nb; d_segment := segment_nb |}.

End descriptor.

(** ** The chronological index *)

(** Lexicographic combination of two comparisons *)
Definition lex (c1 c2 : comparison) : comparison :=
  match c1 with
  | Eq => c2
  | _ => c1
  end.

Definition sort_key : Type := string * (Z * (Z * (Z * (Z * Z)))).

(** The columns ["subject", "session", "segment", "year", "month", "day"] *)
Definition key (d : Descriptor) : sort_key :=
  (d_subject d, (d_session d, (d_segment d, (d_year d, (d_month d, d_day d))))).

Definition pair_compare {A B} (cmpA : A -> A -> comparison)
    (cmpB : B -> B -> comparison) (x y : A * B) : comparison :=
  lex (cmpA x.1 y.1) (cmpB x.2 y.2).

Definition key_compare : sort_key -> sort_key -> comparison :=
  pair_compare String.compare
    (pair_compare Z.compare
       (pair_compare Z.compare
          (pair_compare Z.compare (pair_compare Z.compare Z.compare)))).

Definition key_leb (x y : Descriptor) : bool :=
  match key_compare (key x) (key y) with
  | Gt => false
  | _ => true
  end.

(** A stable sort: an element goes before the first one that is not
    smaller, so that elements that compare equal keep their order. *)
Fixpoint insert_sorted {A} (leb : A -> A -> bool) (x : A) (l : list A) : list A :=
  match l with
  | [] => [x]
  | y :: l' => if leb x y then x :: l else y :: insert_sorted leb x l'
  end.

Fixpoint stable_sort {A} (leb : A -> A -> bool) (l : list A) : list A :=
  match l with
  | [] => []
  | x :: l' => insert_sorted leb x (stable_sort leb l')
  end.

(** [descriptions.sort_values([...], axis=1)] on the table whose columns
    are the descriptors: with several keys pandas sorts by a stable
    lexicographic sort. *)
Definition sort_values (descriptions : list Descriptor) : list Descriptor :=
  stable_sort key_leb descriptions.

Section index.

Variable _get_info : string -> result (option datetime).

Definition _create_chronological_description (file_paths : list string)
  : result (list Descriptor) :=
  descriptions <- for_each (_parse_description_from_file_path _get_info)
                           file_paths ;;
  descriptions <- match descriptions with
                  | [] => Raise (ValueError "No objects to concatenate")
                  | _ => Ok descriptions
                  end ;;
  Ok (sort_values descriptions).

End index.

(** The [recording_ids] argument: absent, one label or a list of labels *)
Inductive recording_ids : Type :=
  | AllRecordings
  | OneId (i : Z)
  | Ids (l : list Z).

(** The column with label [i] of a table whose columns are numbered from 0 *)
Definition column {A} (descriptions : list A) (i : Z) : result A :=
  if (i <? 0) then Raise (KeyError (pretty i))
  else match descriptions !! Z.to_nat i with
       | Some d => Ok d
       | None => Raise (KeyError (pretty i))
       end.

(** [descriptions[recording_ids]] for a list of labels: the columns in the
    order of the labels, each under its label *)
Definition select_columns {A} (descriptions : list A) (ids : list Z)
  : result (list (Z * A)) :=
  for_each (fun i => d <- column descriptions i ;; Ok (i, d)) ids.

Definition numbered {A} (l : list A) : list (Z * A) :=
  imap (fun i d => (Z.of_nat i, d)) l.

(** ** Calendar *)

Definition is_leap (y : Z) : bool :=
  (y mod 4 =? 0) && (negb (y mod 100 =? 0) || (y mod 400 =? 0)).

Definition days_in_month (y m : Z) : Z :=
  if m =? 2 then (if is_leap y then 29 else 28)
  else if (m =? 4) || (m =? 6) || (m =? 9) || (m =? 11) then 30 else 31.

(** The checks of the [datetime] constructor on year, month and day *)
Definition check_date (y m d : Z) : result unit :=
  if negb ((1 <=? y) && (y <=? 9999))
  then Raise (ValueError "year is out of range")
  else if negb ((1 <=? m) && (m <=? 12))
  then Raise (ValueError "month must be in 1..12")
  else if negb ((1 <=? d) && (d <=? days_in_month y m))
  then Raise (ValueError "day is out of range for month")
  else Ok tt.

(** [meas_date.replace(year, month, day)] *)
Definition datetime_replace (t : datetime) (y m d : Z) : result datetime :=
  _ <- check_date y m d ;;
  Ok (Datetime y m d (dt_seconds t)).

(** [datetime.datetime(year, month, 1) - datetime.timedelta(weeks=4)], as
    (year, month, day): 28 days before the first of a month is a day of
    the month before. *)
Definition first_of_month_minus_4_weeks (y m : Z) : result (Z * Z * Z) :=
  _ <- check_date y m 1 ;;
  let '(py, pm) := if m =? 1 then (y - 1, 12) else (y, m - 1) in
  if py <? 1 then Raise OverflowError
  else Ok (py, pm, days_in_month py pm - 27).

(** ** Datasets *)

(** A run is numbered in the file name and named ['001'] once the split
    files are taken as one. *)
Inductive Run : Type :=
  | RunInt (n : Z)
  | RunStr (s : string).

Record BIDSPath : Type := {
  bp_subject : string;
  bp_session : string;
  bp_task : string;
  bp_run : Run;
  bp_root : string;
  bp_datatype : string;
}.

Record SubjectInfo : Type := {
  participant_id : string;
  si_subject : string;
  birthday : Z * Z * Z;
  sex : Z;
  si_train : bool;
  si_pathological : bool;
  handedness : option Z;
}.

(** The part of MNE and MNE-BIDS the scripts call: the recordings, what
    can be read from them and the operations on them, each of which may
    raise. *)
Class Mne : Type := {
  Raw : Type;
  read_raw_edf : string -> result Raw;
  info_meas_date : Raw -> option datetime;
  set_meas_date : Raw -> datetime -> result Raw;
  pick_types_eeg : Raw -> result Raw;
  rename_channels : (string -> string) -> Raw -> result Raw;
  ch_names : Raw -> list string;
  montage_ch_names : list string;
  intersect1d : list string -> list string -> list string;
  pick_channels : list string -> Raw -> result Raw;
  set_montage : Raw -> result Raw;
  check_bids_path : BIDSPath -> result unit;
  write_raw_bids : Raw -> Z -> SubjectInfo -> BIDSPath -> result unit;
}.

(** A recording as [TUH] holds it: the descriptor with the age and sex
    read from the header *)
Record TUHDataset `{Mne} : Type := {
  t_raw : Raw;
  t_description : Descriptor;
  t_age : Z;
  t_gender : string;
}.

(** ... and as [TUHAbnormal] holds it, with the labels read from the path *)
Record TUHAbnormalDataset `{Mne} : Type := {
  a_dataset : TUHDataset;
  a_train : bool;
  a_pathological : bool;
}.

Section tuh.

Context `{Mne}.
Variable _get_info : string -> result (option datetime).
Variable fs : files.

Definition _create_dataset (description : Descriptor)
    (add_physician_reports : bool) : result TUHDataset :=
  let file_path := d_path description in
  header <- _parse_age_and_gender_from_edf_header fs file_path ;;
  let '(age, gender) := header in
  raw <- read_raw_edf file_path ;;
  meas_date <- match info_meas_date raw with
               | None => Raise (NameError "timezone")
               | Some t => Ok t
               end ;;
  meas_date <- datetime_replace meas_date (d_year description)
                 (d_month description) (d_day description) ;;
  raw <- set_meas_date raw meas_date ;;
  _ <- (if add_physician_reports
        then Raise (NameError "_read_physician_report") else Ok tt) ;;
  Ok {| t_raw := raw; t_description := description;
        t_age := age; t_gender := gender |}.

(** [BaseConcatDataset.__init__]: the list of the datasets may not be
    empty. *)
Definition concat_dataset {A} (datasets : list A) : result (list A) :=
  match datasets with
  | [] => Raise (AssertionError "datasets should not be an empty iterable")
  | _ => Ok datasets
  end.

(** [TUH.__init__]; [file_paths] is what [glob.glob] returns. *)
Definition TUH_init (file_paths : list string) (ids : recording_ids)
    (add_physician_reports : bool) : result (list TUHDataset) :=
  descriptions <- _create_chronological_description _get_info file_paths ;;
  columns <- match ids with
             | AllRecordings => Ok (numbered descriptions)
             | OneId i => _ <- column descriptions i ;; Raise AttributeError
             | Ids l => select_columns descriptions l
             end ;;
  base_datasets <-
    for_each (fun c : Z * Descriptor =>
                if (1 <? length (filter (fun c' => c'.1 = c.1) columns))%nat
                then Raise TypeError
                else _create_dataset c.2 add_physician_reports)
             columns ;;
  concat_dataset base_datasets.

Definition _parse_additional_description_from_file_path (file_path : string)
  : result (bool * bool) :=
  let tokens := Py.split (normpath file_path) "/" in
  let has t := bool_decide (t ∈ tokens) in
  if negb (has "abnormal" || has "normal")
  then Raise (AssertionError "No pathology labels found.")
  else if negb (has "train" || has "eval")
  then Raise (AssertionError "No train or eval set information found.")
  else Ok (has "train", has "abnormal").

Definition TUHAbnormal_init (file_paths : list string) (ids : recording_ids)
    (add_physician_reports : bool) : result (list TUHAbnormalDataset) :=
  datasets <- TUH_init file_paths ids add_physician_reports ;;
  for_each (fun ds =>
              labels <- _parse_additional_description_from_file_path
                          (d_path (t_description ds)) ;;
              Ok {| a_dataset := ds; a_train := labels.1;
                    a_pathological := labels.2 |})
           datasets.

End tuh.

(** ** Conversion *)

(** A row of the description of the datasets, as [run_tuab_bidsification]
    hands it to [convert_tuab_to_bids]: [subject] is the category code of
    the raw subject id, which is kept in [subject_orig]. *)
Record Recording : Type := {
  path : string;
  version : string;
  year : Z;
  month : Z;
  day : Z;
  subject : nat;
  subject_orig : string;
  session : Z;
  segment : Run;
  age : Z;
  gender : string;
  train : bool;
  pathological : bool;
}.

Definition set_session (s : Z) (r : Recording) : Recording :=
  {| path := path r; version := version r; year := year r; month := month r;
     day := day r; subject := subject r; subject_orig := subject_orig r;
     session := s; segment := segment r; age := age r; gender := gender r;
     train := train r; pathological := pathological r |}.

Definition set_segment (g : Run) (r : Recording) : Recording :=
  {| path := path r; version := version r; year := year r; month := month r;
     day := day r; subject := subject r; subject_orig := subject_orig r;
     session := session r; segment := g; age := age r; gender := gender r;
     train := train r; pathological := pathological r |}.

Record BaseDataset `{Mne} : Type := {
  raw : Raw;
  description : Recording;
}.

(** A row of [participants_extra.csv] *)
Record SummaryRow : Type := {
  row_info : SubjectInfo;
  row_meas_date : option datetime;
  row_session : Z;
}.

(** What the conversion leaves on disk, in the order of the writes *)
Inductive Event `{Mne} : Type :=
  | WroteRecording (bids_path : BIDSPath) (raw : Raw) (line_freq : Z)
      (subject_info : SubjectInfo)
  | WroteTable (file : string) (rows : list SummaryRow).

(** A computation that writes files and may raise: the writes made, then
    the value or the exception *)
Definition traced `{Mne} (A : Type) : Type := list Event * result A.

Definition tbind `{Mne} {A B} (m : traced A) (k : A -> traced B) : traced B :=
  match m with
  | (t1, Ok a) => let '(t2, r) := k a in (t1 ++ t2, r)
  | (t1, Raise e) => (t1, Raise e)
  end.

Definition lift `{Mne} {A} (m : result A) : traced A := ([], m).
Definition emit `{Mne} (e : Event) : traced unit := ([e], Ok tt).

Notation "x <~ m ;; k" := (tbind m (fun x => k))
  (at level 100, m at next level, right associativity) : result_scope.

Fixpoint tfor_each `{Mne} {A B} (f : A -> traced B) (l : list A)
  : traced (list B) :=
  match l with
  | [] => lift (Ok [])
  | x :: l' => y <~ f x ;; ys <~ tfor_each f l' ;; lift (Ok (y :: ys))
  end.

(** [SEX_TO_MNE[sex]] *)
Definition SEX_TO_MNE (sex : string) : result Z :=
  if bool_decide (sex = "n/a") then Ok 0
  else if bool_decide (sex = "m") then Ok 1
  else if bool_decide (sex = "f") then Ok 2
  else Raise (KeyError sex).

(** The reference named in the path *)
Definition reference_of_path (file_path : string) : result string :=
  match Re.findall Re.tcp_pattern file_path with
  | [ref] =>
      if bool_decide (ref = "ar") then Ok ""
      else if bool_decide (ref = "le") then Ok ""
      else Raise (ValueError
                    ("Unknown reference found in file name: " +:+ ref +:+ "."))
  | _ => Raise (ValueError "Expecting one directory level with tcp in it.")
  end.

Definition mrn_of (desc : Recording) : string :=
  Py.zfill (pretty (subject desc)) 4.

Definition session_nb_of (desc : Recording) : string :=
  Py.zfill (pretty (session desc)) 3.

Definition bids_path_of (bids_save_dir : string) (desc : Recording) : BIDSPath :=
  {| bp_subject := mrn_of desc; bp_session := session_nb_of desc;
     bp_task := "rest"; bp_run := segment desc;
     bp_root := bids_save_dir; bp_datatype := "eeg" |}.

(** ** The description of the corpus *)

(** The keys of the groups of [groupby], in increasing order *)
Definition group_keys {A K} `{EqDecision K} (leb : K -> K -> bool)
    (key : A -> K) (rows : list A) : list K :=
  remove_dups (stable_sort leb (key <$> rows)).

Definition subject_session_leb (k1 k2 : nat * Z) : bool :=
  (k1.1 <? k2.1)%nat || ((k1.1 =? k2.1)%nat && (k1.2 <=? k2.2)).

(** [description.groupby(['subject', 'session'])['segment']
      .apply(list).apply(len)] *)
Definition n_segments_per_session (description : list Recording) : list nat :=
  let key r := (subject r, session r) in
  (fun k => length (segment <$> filter (fun r => key r = k) description))
    <$> group_keys subject_session_leb key description.

(** [Series.unique]: the distinct values, each where it first occurs *)
Fixpoint unique_from {A} `{EqDecision A} (seen : list A) (l : list A) : list A :=
  match l with
  | [] => []
  | x :: l' =>
      if bool_decide (x ∈ seen) then unique_from seen l'
      else x :: unique_from (x :: seen) l'
  end.
Definition unique {A} `{EqDecision A} (l : list A) : list A := unique_from [] l.

(** [a != np.array([b])], element by element *)
Definition array_ne (a : list nat) (b : nat) : list bool :=
  (fun x => negb (x =? b)%nat) <$> a.

(** The truth value of an array: that of its one element. An array of
    several elements has none. An empty array counts as false, with a
    deprecation warning (NumPy 2.2 and later raise instead; every corpus
    that reaches this point has a recording). *)
Definition array_bool (a : list bool) : result bool :=
  match a with
  | [] => Ok false
  | [b] => Ok b
  | _ => Raise (ValueError
                  "The truth value of an array with more than one element is ambiguous. Use a.any() or a.all()")
  end.

Definition collapse_split_files (description : list Recording)
  : result (list Recording) :=
  cond <- array_bool (array_ne (unique (n_segments_per_session description)) 1) ;;
  if cond : bool
  then Raise (NotImplementedError
                "Concatenation of split files is not implemented yet.")
  else Ok (set_segment (RunStr "001") <$> description).

(** [np.arange(n)] *)
Definition arange (n : nat) : list Z := Z.of_nat <$> seq 0 n.

(** [lambda x: np.arange(len(x)) + 1] *)
Definition one_to_len (x : list Z) : list Z :=
  (fun i => i + 1) <$> arange (length x).

(** [description.groupby('subject')['session'].transform(f)]: [f] is
    applied to the sessions of each subject, in the order of the rows, and
    every row gets the value at its rank among the rows of its subject. *)
Definition transform_sessions (f : list Z -> list Z)
    (description : list Recording) : list Z :=
  imap (fun i r =>
          let same r' := subject r' = subject r in
          let x := session <$> filter same description in
          let rank := length (filter same (take i description)) in
          default (session r) (f x !! rank))
       description.

Definition reset_sessions (description : list Recording) : list Recording :=
  zip_with set_session (transform_sessions one_to_len description) description.

Section convert.

Context `{Mne}.

Definition _convert_tuh_recording_to_bids (ds : BaseDataset)
    (bids_save_dir : string) (desc : option Recording) : traced SummaryRow :=
  raw <~ lift (pick_types_eeg (raw ds)) ;;
  let desc := match desc with
              | None => description ds
              | Some desc => desc
              end in
  reference <~ lift (reference_of_path (path desc)) ;;
  raw <~ lift (rename_channels rename_tuh_channels raw) ;;
  let names := intersect1d (ch_names raw) montage_ch_names in
  raw <~ lift (pick_channels names raw) ;;
  raw <~ lift (set_montage raw) ;;
  birthday <~ lift (first_of_month_minus_4_weeks
                      (year desc - age desc) (month desc)) ;;
  let sex := Py.lower (gender desc) in
  let mrn := mrn_of desc in
  sex_code <~ lift (SEX_TO_MNE sex) ;;
  let subject_info :=
    {| participant_id := mrn; si_subject := subject_orig desc;
       birthday := birthday; sex := sex_code;
       si_train := train desc; si_pathological := pathological desc;
       handedness := None |} in
  let bids_path := bids_path_of bids_save_dir desc in
  _ <~ lift (check_bids_path bids_path) ;;
  _ <~ lift (write_raw_bids raw 60 subject_info bids_path) ;;
  _ <~ emit (WroteRecording bids_path raw 60 subject_info) ;;
  lift (Ok {| row_info := subject_info;
              row_meas_date := info_meas_date raw;
              row_session := session desc |}).

(** [concat_ds.split(by='pathological')['False']] *)
Definition split_not_pathological (concat_ds : list BaseDataset)
  : result (list BaseDataset) :=
  match filter (fun ds => pathological (description ds) = false) concat_ds with
  | [] => Raise (KeyError "False")
  | l => Ok l
  end.

(** The description the recordings are converted with *)
Definition converted_description (concat_ds : list BaseDataset)
    (reset_session_indices concat_split_files : bool)
  : result (list Recording) :=
  let rows := description <$> concat_ds in
  rows <- (if concat_split_files then collapse_split_files rows
           else Ok rows) ;;
  Ok (if reset_session_indices then reset_sessions rows else rows).

(** The body of the loop over the datasets and the rows of the description *)
Definition convert_row (bids_save_dir : string) (p : BaseDataset * Recording)
  : traced SummaryRow :=
  let '(ds, desc) := p in
  _ <~ lift (if bool_decide (path (description ds) = path desc)
             then Ok tt else Raise (AssertionError "")) ;;
  _convert_tuh_recording_to_bids ds bids_save_dir (Some desc).

Definition convert_tuab_to_bids (concat_ds : list BaseDataset)
    (bids_save_dir : string)
    (healthy_only reset_session_indices concat_split_files : bool)
  : traced unit :=
  concat_ds <~ lift (if healthy_only then split_not_pathological concat_ds
                     else Ok concat_ds) ;;
  rows <~ lift (converted_description concat_ds
                  reset_session_indices concat_split_files) ;;
  df_info <~ tfor_each (convert_row bids_save_dir) (zip concat_ds rows) ;;
  emit (WroteTable (bids_save_dir +:+ "/participants_extra.csv") df_info).

End convert.

(** ** The whole conversion *)

(** [values.astype('category').cat.codes]: the categories are the distinct
    values in increasing order, the code of a value is its place there. *)
Definition categories (values : list string) : list string :=
  remove_dups (stable_sort String.leb values).

Fixpoint index_of (v : string) (l : list string) : nat :=
  match l with
  | [] => 0
  | x :: l' => if bool_decide (x = v) then 0 else S (index_of v l')
  end.

Definition cat_codes (values : list string) : list nat :=
  (fun v => index_of v (categories values)) <$> values.

Section run.

Context `{Mne}.
Variable _get_info : string -> result (option datetime).
Variable fs : files.

Definition raw_subject (ds : TUHAbnormalDataset) : string :=
  d_subject (t_description (a_dataset ds)).

(** The dataset after the two [set_description] calls *)
Definition with_subject_code (ds : TUHAbnormalDataset) (code : nat)
  : BaseDataset :=
  let d := t_description (a_dataset ds) in
  {| raw := t_raw (a_dataset ds);
     description :=
       {| path := d_path d; version := "V3.0";
          year := d_year d; month := d_month d; day := d_day d;
          subject := code; subject_orig := d_subject d;
          session := d_session d; segment := RunInt (d_segment d);
          age := t_age (a_dataset ds); gender := t_gender (a_dataset ds);
          train := a_train ds; pathological := a_pathological ds |} |}.

Definition canonical_datasets (concat_ds : list TUHAbnormalDataset)
  : list BaseDataset :=
  let subjects := cat_codes (raw_subject <$> concat_ds) in
  zip_with with_subject_code concat_ds subjects.

(** [file_paths] is what [glob.glob] finds under [tuab_source_dir]. *)
Definition run_tuab_bidsification (file_paths : list string)
    (bids_save_dir : string) : traced unit :=
  concat_ds <~ lift (TUHAbnormal_init _get_info fs file_paths
                       AllRecordings false) ;;
  convert_tuab_to_bids (canonical_datasets concat_ds) bids_save_dir
    false true true.

End run.

(** ** A reader and a writer that do not fail

    An instance of the interface to run the scripts on examples: a
    recording is its channel names and its measurement date. *)

Record SimpleRaw : Type := {
  sr_ch_names : list string;
  sr_meas_date : option datetime;
}.

Definition simple_mne (read : string -> result SimpleRaw)
    (montage : list string) : Mne :=
  {| Raw := SimpleRaw;
     read_raw_edf := read;
     info_meas_date := sr_meas_date;
     set_meas_date r t :=
       Ok {| sr_ch_names := sr_ch_names r; sr_meas_date := Some t |};
     pick_types_eeg r := Ok r;
     rename_channels f r :=
       let names := f <$> sr_ch_names r in
       if bool_decide (NoDup names)
       then Ok {| sr_ch_names := names; sr_meas_date := sr_meas_date r |}
       else Raise (ValueError "New channel names are not unique, renaming failed");
     ch_names := sr_ch_names;
     montage_ch_names := montage;
     intersect1d a b :=
       remove_dups (stable_sort String.leb (filter (fun c => c ∈ b) a));
     pick_channels names r :=
       Ok {| sr_ch_names := filter (fun c => c ∈ names) (sr_ch_names r);
             sr_meas_date := sr_meas_date r |};
     set_montage r := Ok r;
     check_bids_path _ := Ok tt;
     write_raw_bids _ _ _ _ := Ok tt |}.

(** An example corpus: every file holds the same header and recording. *)
Definition example_header : list Byte.byte :=
  String.list_byte_of_string
    "0       aaaaaaav M 01-JAN-1985 aaaaaaav Age:34".

Definition example_files : files := fun _ => Some example_header.

Definition example_info (file_path : string) : result (option datetime) :=
  Ok (Some (Datetime 2012 3 14 0)).

Definition example_raw : SimpleRaw :=
  {| sr_ch_names := ["EEG FP1-REF"; "EEG CZ-REF"; "EEG EKG1-REF"];
     sr_meas_date := Some (Datetime 2012 3 14 36000) |}.

Definition example_mne : Mne :=
  simple_mne (fun _ => Ok example_raw) ["Fp1"; "Fp2"; "Cz"].

Definition example_recording (file_path : string) (code : nat) (orig : string)
    (ses seg : Z) : @BaseDataset example_mne :=
  @Build_BaseDataset example_mne example_raw
    {| path := file_path; version := "V3.0";
       year := 2012; month := 3; day := 14;
       subject := code; subject_orig := orig;
       session := ses; segment := RunInt seg;
       age := 34; gender := "M"; train := true; pathological := false |}.

Definition example_tuab (file_path subject_id : string) (ses seg : Z)
  : @TUHAbnormalDataset example_mne :=
  @Build_TUHAbnormalDataset example_mne
    (@Build_TUHDataset example_mne example_raw
       {| d_path := file_path; d_version := "V3.0";
          d_year := 2012; d_month := 3; d_day := 14;
          d_subject := subject_id; d_session := ses; d_segment := seg |}
       34 "M")
    true false.

(** ** The processing pipelines *)

(** Modelled from the spec: [core.preprocessing.make_config] is not among
    the sources. A PipelineConfig carries the source root, the derived
    output root, the subject, session and run selectors and the named
    options of the stages. *)
Record PipelineConfig : Type := {
  cfg_subject : string;
  cfg_bids_root : string;
  cfg_deriv_root : string;
  cfg_session : string;
  cfg_run : string;
  cfg_tasks : list string;
  cfg_notch_filter_freq : Z;
  cfg_analyze_channels : list string;
  cfg_ic_rejection_criterion : option string;
}.

Definition eeg_channels : list string :=
  ["Fp1"; "Fp2"; "F3"; "F4"; "C3"; "C4"; "P3"; "P4"; "O1";
   "O2"; "F7"; "F8"; "T3"; "T4"; "T5"; "T6"; "Fz"; "Cz"; "Pz";
   "A1"; "A2"].

(** [make_tuab_config(sub, deriv_root=output_dir, ...)], the partial
    application of [proc.make_config] of the processing notebook *)
Definition make_tuab_config (bids_root : string) (sub : string)
    (deriv_root : string) (ic_rejection_criterion : option string)
  : PipelineConfig :=
  {| cfg_subject := sub; cfg_bids_root := bids_root;
     cfg_deriv_root := deriv_root;
     cfg_session := "001"; cfg_run := "001"; cfg_tasks := ["rest"];
     cfg_notch_filter_freq := 60; cfg_analyze_channels := eeg_channels;
     cfg_ic_rejection_criterion := ic_rejection_criterion |}.

(** The tasks of the pipeline variants: for each variant, given by its
    output directory and its option,
    [[make_tuab_config(sub, deriv_root=output_dir) for sub in subjects]] *)
Definition pipeline_configs (bids_root : string)
    (variants : list (string * option string)) (subjects : list string)
  : list PipelineConfig :=
  variants ≫= (fun v => (fun sub => make_tuab_config bids_root sub v.1 v.2)
                          <$> subjects).

(** Modelled from the spec: the output path of a task is derived from the
    pipeline-variant directory, the participant, the session and the run. *)
Definition output_path (cfg : PipelineConfig)
  : string * string * string * string :=
  (cfg_deriv_root cfg, cfg_subject cfg, cfg_session cfg, cfg_run cfg).

(** The participants the pipelines start from:
    [df_participants_extra.query('session == 1')], with the ids written
    as ['sub-' + participant_id.astype(str).str.zfill(4)] (the ids are read
    back from the table as integers and padded again to four digits) *)
Definition first_session_participants (summary : list SummaryRow)
  : list string :=
  (fun row => "sub-" +:+ participant_id (row_info row))
    <$> filter (fun row => row_session row = 1) summary.

Definition excluded_subjects : list string :=
  ["sub-0388"; "sub-0766"; "sub-2289"].

(** The subjects of the processing notebook: the first sessions of the
    summary table, merged on the participant id with [participants.tsv]
    (given by its ids), without the pathological recordings and without
    the excluded subjects *)
Definition tuab_subjects (participants_tsv : list string)
    (summary : list SummaryRow) : list string :=
  let id row := "sub-" +:+ participant_id (row_info row) in
  let first := filter (fun row => row_session row = 1) summary in
  let merged :=
    first ≫= (fun row =>
                (fun _ => row) <$> filter (fun p => p = id row) participants_tsv) in
  let normal :=
    filter (fun row => si_pathological (row_info row) = false) merged in
  let kept := filter (fun row => id row ∉ excluded_subjects) normal in
  id <$> kept.

(** ** Notions used in the statements *)

(** Comparisons that decide a strict total order *)
Class CmpOrder {A} (cmp : A -> A -> comparison) : Prop := {
  cmp_eq a b : cmp a b = Eq <-> a = b;
  cmp_opp a b : cmp b a = CompOpp (cmp a b);
  cmp_trans a b c : cmp a b = Lt -> cmp b c = Lt -> cmp a c = Lt;
}.

(** The order of the index, as a relation *)
Definition key_le (x y : Descriptor) : Prop := key_leb x y = true.

Definition same_subject (r r' : Recording) : Prop := subject r' = subject r.

#[global] Instance same_subject_dec r r' : Decision (same_subject r r').
Proof. unfold same_subject. apply _. Defined.

(** The rank of a row among the rows of its subject, counted from 1 *)
Definition session_numbers (description : list Recording) : list Z :=
  imap (fun i r =>
          Z.of_nat (length (filter (same_subject r) (take i description))) + 1)
       description.

(** The number of the recordings of a (subject, session) pair *)
Definition group_size (description : list Recording) (k : nat * Z) : nat :=
  length (filter (fun r => (subject r, session r) = k) description).

(** The number a string of digits stands for, read from the left *)
Fixpoint digits_value (acc : N) (s : string) : N :=
  match s with
  | EmptyString => acc
  | String c t => digits_value (10 * acc + N.of_nat (Py.code c - 48)) t
  end.

(** The integer a decimal numeral with an optional [-] stands for *)
Definition signed_value (s : string) : Z :=
  match s with
  | String c t =>
      if Ascii.eqb c "-" then - Z.of_N (digits_value 0 t)
      else Z.of_N (digits_value 0 s)
  | EmptyString => 0
  end.

Definition starts_unsigned (s : string) : Prop :=
  match s with
  | String c _ => Ascii.eqb c "+" || Ascii.eqb c "-" = false
  | EmptyString => False
  end.

Section events.

Context `{Mne}.

Definition is_recording_write (ev : Event) : Prop :=
  match ev with
  | WroteRecording _ _ _ _ => True
  | WroteTable _ _ => False
  end.

(** What a conversion that ends well has written *)
Definition wrote_row (dir : string) (desc : Recording) (ev : Event)
    (row : SummaryRow) : Prop :=
  exists raw,
    ev = WroteRecording (bids_path_of dir desc) raw 60 (row_info row) /\
    row_meas_date row = info_meas_date raw /\
    row_session row = session desc /\
    participant_id (row_info row) = mrn_of desc /\
    si_subject (row_info row) = subject_orig desc.

End events.

(** ** Notions of the calendar used in the statements *)

(** The ordinal of a date, as [date.toordinal] gives it: the days are
    counted from 0001-01-01, which is day 1. [timedelta] arithmetic on
    dates is arithmetic on ordinals. *)
Definition days_before_year (y : Z) : Z :=
  let y := y - 1 in y * 365 + y / 4 - y / 100 + y / 400.

Definition days_before_month (y m : Z) : Z :=
  nth (Z.to_nat (m - 1))
      [0; 31; 59; 90; 120; 151; 181; 212; 243; 273; 304; 334] 0
  + (if (2 <? m) && is_leap y then 1 else 0).

Definition ymd2ord (y m d : Z) : Z :=
  days_before_year y + days_before_month y m + d.

(** The age in whole years, on the day [(y, m, d)], of someone born on
    the day [b] *)
Definition age_in_years (b : Z * Z * Z) (y m d : Z) : Z :=
  let '(b_year, b_month, b_day) := b in
  y - b_year
  - (if (m <? b_month) || ((m =? b_month) && (d <? b_day)) then 1 else 0).

(** The subjects an event tells of: the subject of a recording written,
    the subjects of the rows of a table written *)
Definition event_infos `{Mne} (ev : Event) : list SubjectInfo :=
  match ev with
  | WroteRecording _ _ _ info => [info]
  | WroteTable _ rows => row_info <$> rows
  end.

(** A plain component of a path: a name without [/] that is neither
    empty nor [.] nor [..] *)
Definition plain_component (s : string) : Prop :=
  Py.contains "/" s = false /\ s <> "" /\ s <> "." /\ s <> "..".

(** The parts of [normpath]: the leading slashes it keeps (none, one or
    two), and the path it makes of the components it has kept *)
Definition initial_slashes (path : string) : nat :=
  if String.prefix "/" path then
    if String.prefix "//" path && negb (String.prefix "///" path)
    then 2%nat else 1%nat
  else 0%nat.

Definition render_path (n : nat) (comps : list string) : string :=
  let path := Py.join "/" comps in
  let path :=
    match n with
    | 0%nat => path
    | 1%nat => "/" +:+ path
    | _ => "//" +:+ path
    end in
  if bool_decide (path = "") then "." else path.

(** The components of a normal path: plain names, after some [..] at the
    start of a relative path *)
Definition normal_comps (n : nat) (comps : list string) : Prop :=
  exists k rest,
    comps = replicate k ".." ++ rest /\ Forall plain_component rest /\
    (n <> 0%nat -> k = 0%nat).

(** ** The benchmark notebook

    [compute_benchmark] saves the results of one benchmark under a
    directory made of the fields of the benchmark. The cross-validation
    itself, [run_benchmark_cv] of [core.benchmark], is not among the
    sources: it is a parameter of the model, as are the two operations on
    the file system, which may raise. *)

(** A [pathlib] path of the POSIX flavour: its root and its parts *)
Record PurePath : Type := {
  pp_root : string;
  pp_parts : list string;
}.

Fixpoint lstrip_sep (s : string) : string :=
  match s with
  | String c t => if Ascii.eqb c "/" then lstrip_sep t else s
  | EmptyString => EmptyString
  end.

(** [_PosixFlavour.splitroot]: the root of an argument (none, [/], or [//]
    for exactly two leading slashes) and what follows it *)
Definition splitroot (part : string) : string * string :=
  match part with
  | String c _ =>
      if Ascii.eqb c "/" then
        let stripped := lstrip_sep part in
        if (String.length part - String.length stripped =? 2)%nat
        then ("//", stripped) else ("/", stripped)
      else ("", part)
  | EmptyString => ("", part)
  end.

(** The parts of one argument: its names, without the empty ones and
    without [.] *)
Definition parse_part (part : string) : string * list string :=
  let '(root, rel) := splitroot part in
  (root, filter (fun x => x <> "" /\ x <> ".") (Py.split rel "/")).

(** [Path(s)] *)
Definition Path (s : string) : PurePath :=
  let '(root, parts) := parse_part s in
  {| pp_root := root; pp_parts := parts |}.

(** [path / key]: a key with a root replaces the path. *)
Definition path_div (p : PurePath) (key : string) : PurePath :=
  let '(root, parts) := parse_part key in
  if bool_decide (root = "")
  then {| pp_root := pp_root p; pp_parts := pp_parts p ++ parts |}
  else {| pp_root := root; pp_parts := parts |}.

(** The fields of a benchmark that [compute_benchmark] reads *)
Record Benchmark : Type := {
  bm_dataset : string;
  bm_processing : string;
  bm_target : string;
  bm_features : string;
  bm_model : string;
}.

Definition save_dir (output_root : string) (benchmark : Benchmark) : PurePath :=
  path_div
    (path_div
       (path_div
          (path_div (path_div (Path output_root) (bm_dataset benchmark))
                    (bm_processing benchmark))
          (bm_target benchmark))
       (bm_features benchmark))
    (bm_model benchmark).

Section benchmark.

(** The tables [run_benchmark_cv] returns, and the sample it is given *)
Variable Frame : Type.
Variable Sample : Type.
Variable run_benchmark_cv :
  Benchmark -> nat -> option Sample -> option string -> result (Frame * Frame).
(** [save_dir.mkdir(parents=True, exist_ok=True)] and [frame.to_csv(path)] *)
Variable mkdir : PurePath -> result unit.
Variable to_csv : Frame -> PurePath -> result unit.

(** What [compute_benchmark] leaves on disk, in the order of the writes *)
Inductive BenchEvent : Type :=
  | MadeDir (dir : PurePath)
  | WroteCsv (file : PurePath) (table : Frame).

Definition compute_benchmark (benchmark : Benchmark)
    (output_root : option string) (sample : option Sample)
  : list BenchEvent * result (Frame * Frame) :=
  let group_column :=
    if bool_decide (bm_dataset benchmark = "tdbrain")
    then Some "diagnosis_code" else None in
  match run_benchmark_cv benchmark 10 sample group_column with
  | Raise e => ([], Raise e)
  | Ok (result, ys) =>
      match output_root with
      | None => ([], Ok (result, ys))
      | Some output_root =>
          let save_dir := save_dir output_root benchmark in
          match mkdir save_dir with
          | Raise e => ([], Raise e)
          | Ok _ =>
              let results_csv := path_div save_dir "results.csv" in
              match to_csv result results_csv with
              | Raise e => ([MadeDir save_dir], Raise e)
              | Ok _ =>
                  let ys_csv := path_div save_dir "ys.csv" in
                  match to_csv ys ys_csv with
                  | Raise e =>
                      ([MadeDir save_dir; WroteCsv results_csv result],
                       Raise e)
                  | Ok _ =>
                      ([MadeDir save_dir; WroteCsv results_csv result;
                        WroteCsv ys_csv ys],
                       Ok (result, ys))
                  end
              end
          end
      end
  end.

End benchmark.

(** * Properties *)

Example rename_fp1 : rename_tuh_channels "EEG FP1-REF" = "Fp1".
Proof. reflexivity. Qed.
Example rename_cz : rename_tuh_channels "EEG CZ-LE" = "Cz-LE".
Proof. reflexivity. Qed.
Example rename_loc : rename_tuh_channels "EEG LOC-REF" = "EEG LOC-REF".
Proof. reflexivity. Qed.
(** The rewritten name is compared with the exclusion list as it is
    written. *)
Example rename_lowercase_loc : rename_tuh_channels "EEG loc-REF" = "loc".
Proof. reflexivity. Qed.

(** ** Facts about the string primitives *)

Section replace_facts.

Lemma prefix_nil s : String.prefix "" s = true.
Proof. by destruct s. Qed.

Lemma contains_cons sub c t :
  Py.contains sub (String c t) = false ->
  String.prefix sub (String c t) = false /\ Py.contains sub t = false.
Proof. cbn [Py.contains]. by intros [??]%orb_false_elim. Qed.

Lemma replace_from_absent old new s :
  Py.contains old s = false -> Py.replace_from old new 0 s = s.
Proof.
  induction s as [|c t IH]; [done|].
  intros [Hp Ht]%contains_cons. cbn [Py.replace_from].
  rewrite Hp. f_equal. by apply IH.
Qed.

(** Replacing a substring that does not occur changes nothing. *)
Lemma replace_absent s old new :
  Py.contains old s = false -> Py.replace s old new = s.
Proof.
  destruct old as [|a old]; [by destruct s|].
  apply replace_from_absent.
Qed.

(** After [replace("Z", "z")] no ["Z"] is left. *)
Lemma replace_Z_no_Z s : Py.contains "Z" (Py.replace s "Z" "z") = false.
Proof.
  unfold Py.replace.
  induction s as [|c t IH]; [done|].
  cbn [Py.replace_from String.length Nat.sub].
  destruct (String.prefix "Z" (String c t)) eqn:Hp.
  - exact IH.
  - cbn [Py.contains]. rewrite IH, orb_false_r.
    cbn [String.prefix] in Hp |- *. destruct (ascii_dec "Z" c); [|done].
    by rewrite prefix_nil in Hp.
Qed.

End replace_facts.

Section rewrite_rule_facts.

(** Whether ["FP"] starts a string depends on its first two characters. *)
Lemma prefix_FP_head c r t :
  String.get 0 r = String.get 0 t ->
  String.prefix "FP" (String c r) = String.prefix "FP" (String c t).
Proof.
  intros H. cbn [String.prefix]. destruct (ascii_dec "F" c); [|done].
  destruct r as [|a r], t as [|b t]; cbn in H; try done.
  injection H as ->. cbn [String.prefix]. by rewrite !prefix_nil.
Qed.

Lemma prefix_FP_inv c t :
  String.prefix "FP" (String c t) = true ->
  c = "F"%char /\ exists t', t = String "P" t'.
Proof.
  cbn [String.prefix]. destruct (ascii_dec "F" c) as [<-|]; [|done].
  destruct t as [|b t]; [done|]. cbn [String.prefix].
  destruct (ascii_dec "P" b) as [<-|]; [|done]. eauto.
Qed.

Lemma replace_FP_spec s :
  Py.contains "FP" (Py.replace_from "FP" "Fp" 0 s) = false /\
  Py.contains "FP" (Py.replace_from "FP" "Fp" 1 s) = false /\
  String.get 0 (Py.replace_from "FP" "Fp" 0 s) = String.get 0 s.
Proof.
  induction s as [|c t (IH0 & IH1 & IHh)]; [done|].
  cbn [Py.replace_from String.length Nat.sub].
  split_and!.
  - destruct (String.prefix "FP" (String c t)) eqn:Hp.
    + apply prefix_FP_inv in Hp as [-> [t' ->]]. exact IH1.
    + cbn [Py.contains]. rewrite IH0, orb_false_r.
      by rewrite (prefix_FP_head c _ t).
  - exact IH0.
  - destruct (String.prefix "FP" (String c t)) eqn:Hp; [|done].
    by apply prefix_FP_inv in Hp as [-> _].
Qed.

(** [replace("Z", "z")] acts character by character. *)
Lemma replace_Z_map s :
  Py.replace s "Z" "z" =
  Py.map_chars (fun c => if ascii_dec "Z" c then "z"%char else c) s.
Proof.
  unfold Py.replace. induction s as [|c t IH]; [done|].
  cbn [Py.replace_from String.length Nat.sub Py.map_chars String.prefix].
  rewrite prefix_nil, IH. by destruct (ascii_dec "Z" c).
Qed.

Lemma replace_Z_keeps_no_FP s :
  Py.contains "FP" s = false -> Py.contains "FP" (Py.replace s "Z" "z") = false.
Proof.
  rewrite replace_Z_map.
  induction s as [|c t IH]; [done|].
  intros [Hp Ht]%contains_cons. cbn [Py.map_chars Py.contains].
  rewrite (IH Ht), orb_false_r.
  destruct (String.prefix "FP" (String _ (Py.map_chars _ t))) eqn:E; [|done].
  apply prefix_FP_inv in E as [Hc [t' Ht']].
  destruct (ascii_dec "Z" c); [done|]. subst c.
  destruct t as [|b t]; [done|]. cbn [Py.map_chars] in Ht'.
  destruct (ascii_dec "Z" b); [done|]. injection Ht' as -> _.
  cbn [String.prefix] in Hp.
  destruct (ascii_dec "F" "F"); [|done]. destruct (ascii_dec "P" "P"); [|done].
  by rewrite prefix_nil in Hp.
Qed.

(** The rewritten name has neither ["FP"] nor ["Z"] left. *)
Lemma rewrite_rules_no_FP s : Py.contains "FP" (rewrite_rules s) = false.
Proof. apply replace_Z_keeps_no_FP, replace_FP_spec. Qed.

Lemma rewrite_rules_no_Z s : Py.contains "Z" (rewrite_rules s) = false.
Proof. apply replace_Z_no_Z. Qed.

(** A name without the prefix, the suffix, ["FP"] and ["Z"] is left as
    it is by the four replacements. *)
Lemma rewrite_rules_fixed s :
  Py.contains "EEG " s = false -> Py.contains "-REF" s = false ->
  Py.contains "FP" s = false -> Py.contains "Z" s = false ->
  rewrite_rules s = s.
Proof.
  intros H1 H2 H3 H4. unfold rewrite_rules.
  rewrite (replace_absent s "EEG " "" H1), (replace_absent s "-REF" "" H2).
  by rewrite (replace_absent s "FP" "Fp" H3), (replace_absent s "Z" "z" H4).
Qed.

Lemma prefix_upper sub s :
  String.prefix sub s = true -> String.prefix (Py.upper sub) (Py.upper s) = true.
Proof.
  revert s. induction sub as [|a sub IH]; intros [|c t]; try done.
  cbn [String.prefix Py.upper Py.map_chars].
  destruct (ascii_dec a c) as [->|]; [|done]. intros H.
  destruct (ascii_dec (Py.upper_char c) (Py.upper_char c)); [|done].
  by apply IH.
Qed.

Lemma contains_upper sub s :
  Py.contains sub s = true -> Py.contains (Py.upper sub) (Py.upper s) = true.
Proof.
  induction s as [|c t IH].
  - cbn [Py.contains Py.upper Py.map_chars]. rewrite !orb_false_r.
    apply (prefix_upper sub "").
  - cbn [Py.contains Py.upper Py.map_chars].
    intros [H|H]%orb_prop; apply orb_true_iff.
    + left. by apply (prefix_upper sub (String c t)).
    + right. by apply IH.
Qed.

End rewrite_rule_facts.

Section replace_length_facts.

(** Removing a substring never makes a string longer ... *)
Lemma remove_from_length_le old k s :
  (String.length (Py.replace_from old "" k s) <= String.length s - k)%nat.
Proof.
  revert k. induction s as [|c t IH]; intros k; [done|].
  destruct k as [|k]; cbn [Py.replace_from String.length].
  - destruct (String.prefix old (String c t)).
    + change ("" +:+ ?x) with x.
      specialize (IH (String.length old - 1)%nat). lia.
    + cbn [String.length]. specialize (IH 0%nat). lia.
  - specialize (IH k). lia.
Qed.

(** ... and makes it shorter when the substring occurs. *)
Lemma remove_length_lt old c s :
  Py.contains (String c old) s = true ->
  (String.length (Py.replace s (String c old) "") < String.length s)%nat.
Proof.
  cbn [Py.replace]. induction s as [|a t IH]; [done|].
  cbn [Py.contains Py.replace_from String.length].
  destruct (String.prefix (String c old) (String a t)) eqn:Hp.
  - intros _. change ("" +:+ ?x) with x.
    match goal with
    | |- context [Py.replace_from _ _ ?k t] =>
        pose proof (remove_from_length_le (String c old) k t)
    end. lia.
  - cbn [orb String.length]. intros Ht. specialize (IH Ht). lia.
Qed.

Lemma remove_length_le old s :
  (String.length (Py.replace s old "") <= String.length s)%nat.
Proof.
  destruct old as [|c old].
  - cbn [Py.replace]. induction s as [|a t IH]; [done|].
    cbn [Py.intersperse]. change ("" +:+ ?x) with x. cbn [String.length]. lia.
  - pose proof (remove_from_length_le (String c old) 0 s). cbn [Py.replace]. lia.
Qed.

Lemma replace_FP_from_length k s :
  (k <= 1)%nat ->
  String.length (Py.replace_from "FP" "Fp" k s) = (String.length s - k)%nat.
Proof.
  revert k. induction s as [|c t IH]; intros k Hk; [done|].
  destruct k as [|k]; cbn [Py.replace_from String.length].
  - destruct (String.prefix "FP" (String c t)) eqn:Hp.
    + apply prefix_FP_inv in Hp as [-> [t' ->]].
      change ("Fp" +:+ ?x) with (String "F" (String "p" x)).
      cbn [String.length Nat.sub]. rewrite (IH 1%nat) by lia.
      cbn [String.length]. lia.
    + cbn [String.length]. rewrite (IH 0%nat) by lia. lia.
  - rewrite (IH k) by lia. lia.
Qed.

Lemma map_chars_length f s :
  String.length (Py.map_chars f s) = String.length s.
Proof. induction s as [|c t IH]; [done|]. cbn. by rewrite IH. Qed.

(** The two rules on the letters keep the length of a name. *)
Lemma rewrite_rules_length s :
  String.length (rewrite_rules s)
  = String.length (Py.replace (Py.replace s "EEG " "") "-REF" "").
Proof.
  unfold rewrite_rules. rewrite replace_Z_map, map_chars_length.
  cbn [Py.replace]. rewrite (replace_FP_from_length 0) by lia. lia.
Qed.

(** A name that holds the prefix or the suffix is made shorter. *)
Lemma rewrite_rules_shorter s :
  Py.contains "EEG " s = true \/ Py.contains "-REF" s = true ->
  (String.length (rewrite_rules s) < String.length s)%nat.
Proof.
  rewrite rewrite_rules_length. intros Hs.
  destruct (Py.contains "EEG " s) eqn:H1.
  - pose proof (remove_length_lt "EG " "E" s H1).
    pose proof (remove_length_le "-REF" (Py.replace s "EEG " "")). lia.
  - destruct Hs as [Hs|Hs]; [done|].
    rewrite (replace_absent s "EEG " "" H1).
    apply (remove_length_lt "REF" "-" s Hs).
Qed.

End replace_length_facts.

(** ** Channel-name normalisation (C8) *)

Lemma rename_without_EEG x :
  Py.contains "EEG" x = false -> rename_tuh_channels x = x.
Proof. unfold rename_tuh_channels. intros ->. by case_bool_decide. Qed.

Lemma exclude_no_EEG x : Py.upper x ∈ exclude -> Py.contains "EEG" x = false.
Proof.
  intros Hx. destruct (Py.contains "EEG" x) eqn:E; [|done].
  apply contains_upper in E. change (Py.upper "EEG") with "EEG" in E.
  unfold exclude in Hx.
  repeat (apply elem_of_cons in Hx as [H|Hx]; [rewrite H in E; discriminate E|]).
  by apply elem_of_nil in Hx.
Qed.

(** A name with ["EEG"] whose rewritten form is not of the exclusion list
    is renamed to its rewritten form; any other name is left as it is. *)
Lemma rename_cases x :
  (rename_tuh_channels x = x /\
   (Py.contains "EEG" x = false \/ rewrite_rules x ∈ exclude)) \/
  (rename_tuh_channels x = rewrite_rules x /\
   Py.contains "EEG" x = true /\ rewrite_rules x ∉ exclude).
Proof.
  unfold rename_tuh_channels.
  destruct (Py.contains "EEG" x) eqn:Ex; case_bool_decide; auto.
Qed.

(** The suffix alone can come back too, next to a remaining ["EEG"]. *)
Example rename_twice_suffix :
  rename_tuh_channels "EEGX-RE-REFF" = "EEGX-REF" /\
  rename_tuh_channels "EEGX-REF" = "EEGX".
Proof. split; reflexivity. Qed.

(** Names of channels that are not EEG channels are left as they are. *)
Example rename_emg : rename_tuh_channels "EMG-REF" = "EMG-REF".
Proof. reflexivity. Qed.

(** C8, as stated: renaming is not idempotent on every channel name.
    Removing ["EEG "] from ["EEEG EG A"] leaves ["EEG A"], which a second
    pass turns into ["A"]. *)
Lemma C8_rename_not_idempotent :
  rename_tuh_channels "EEEG EG A" = "EEG A" /\
  rename_tuh_channels (rename_tuh_channels "EEEG EG A") = "A" /\
  ~ (forall x, rename_tuh_channels (rename_tuh_channels x) = rename_tuh_channels x).
Proof.
  split_and!; [reflexivity..|].
  intros H. specialize (H "EEEG EG A"). vm_compute in H. discriminate H.
Qed.

(** C8, amended: the normalisation is idempotent on a name exactly when
    its normalised form has no ["EEG"] left, or holds neither the prefix
    ["EEG "] nor the suffix ["-REF"], or is rewritten to a name of the
    exclusion list. So it is idempotent on every name without ["EEG"],
    which is returned as it is, and on every name whose rewritten form
    falls in the exclusion list, which is returned as it is too; a name
    of the exclusion list, in any letter case, is returned as it is. *)
Theorem C8_rename_tuh_channels_normalised (x : string) :
  (let y := rename_tuh_channels x in
   rename_tuh_channels y = y <->
   Py.contains "EEG" y = false \/
   (Py.contains "EEG " y = false /\ Py.contains "-REF" y = false) \/
   rewrite_rules y ∈ exclude) /\
  (Py.contains "EEG" x = false ->
   rename_tuh_channels x = x /\
   rename_tuh_channels (rename_tuh_channels x) = rename_tuh_channels x) /\
  (Py.upper x ∈ exclude -> rename_tuh_channels x = x) /\
  (rewrite_rules x ∈ exclude ->
   rename_tuh_channels x = x /\
   rename_tuh_channels (rename_tuh_channels x) = rename_tuh_channels x).
Proof.
  split_and!.
  - cbv zeta. split.
    + intros Hy.
      destruct (rename_cases (rename_tuh_channels x))
        as [[_ [?|?]]|(E & Hc & Hn)]; [by left|by right; right|].
      right; left.
      destruct (Py.contains "EEG " (rename_tuh_channels x)) eqn:H1;
        destruct (Py.contains "-REF" (rename_tuh_channels x)) eqn:H2;
        try done;
        (assert (String.length (rewrite_rules (rename_tuh_channels x))
                 < String.length (rename_tuh_channels x))%nat as Hlt
           by (apply rewrite_rules_shorter; auto);
         rewrite <- E, Hy in Hlt; lia).
    + intros [Hy|[[H1 H2]|Hy]].
      * by apply rename_without_EEG.
      * destruct (rename_cases x) as [[E _]|(E & _ & _)]; [by rewrite !E|].
        rewrite E in *. set (y := rewrite_rules x) in *.
        unfold rename_tuh_channels.
        rewrite (rewrite_rules_fixed y H1 H2
                   (rewrite_rules_no_FP x) (rewrite_rules_no_Z x)).
        destruct (Py.contains "EEG" y); by case_bool_decide.
      * unfold rename_tuh_channels at 1.
        destruct (Py.contains "EEG" (rename_tuh_channels x));
          by case_bool_decide.
  - intros Hx. by rewrite !(rename_without_EEG x Hx).
  - intros Hx. by apply rename_without_EEG, exclude_no_EEG.
  - intros Hx.
    assert (rename_tuh_channels x = x) as E; [|by rewrite !E].
    unfold rename_tuh_channels.
    destruct (Py.contains "EEG" x); by case_bool_decide.
Qed.

Lemma C8_rename_tuh_channels_normalised_witness :
  rename_tuh_channels (rename_tuh_channels "EEG FP1-REF") =
    rename_tuh_channels "EEG FP1-REF" /\
  rename_tuh_channels (rename_tuh_channels "PHOTIC-REF") =
    rename_tuh_channels "PHOTIC-REF" /\
  rename_tuh_channels "eKg1" = "eKg1" /\
  rename_tuh_channels "EEG ROC-REF" = "EEG ROC-REF".
Proof.
  split_and!.
  - apply (proj1 (C8_rename_tuh_channels_normalised "EEG FP1-REF")).
    right; left. split; reflexivity.
  - apply (proj1 (proj2 (C8_rename_tuh_channels_normalised "PHOTIC-REF"))).
    reflexivity.
  - apply (proj1 (proj2 (proj2
             (C8_rename_tuh_channels_normalised "eKg1")))).
    apply (bool_decide_unpack _). vm_compute. exact I.
  - apply (proj2 (proj2 (proj2
             (C8_rename_tuh_channels_normalised "EEG ROC-REF")))).
    apply (bool_decide_unpack _). vm_compute. exact I.
Defined.

(** ** Age and sex from the header (C10) *)

Section header_facts.

Lemma string_of_list_byte_length l :
  String.length (String.string_of_list_byte l) = length l.
Proof.
  unfold String.string_of_list_byte.
  induction l as [|b l IH]; [done|]. cbn. by rewrite IH.
Qed.

Lemma decode_ascii_ok bs :
  Forall (fun b => (Byte.to_N b < 128)%N) bs ->
  decode_ascii bs = Ok (String.string_of_list_byte bs).
Proof.
  intros H. unfold decode_ascii.
  replace (forallb _ bs) with true; [done|].
  symmetry. apply forallb_forall. intros b Hb.
  apply N.ltb_lt. rewrite Forall_forall in H. by apply H, list_elem_of_In.
Qed.

Lemma take_while_all p s : Py.all_chars p (Py.take_while p s) = true.
Proof.
  induction s as [|c t IH]; [done|]. cbn.
  destruct (p c) eqn:E; [|done]. cbn. by rewrite E.
Qed.

Lemma take_while_length p s :
  (String.length (Py.take_while p s) <= String.length s)%nat.
Proof.
  induction s as [|c t IH]; [done|]. cbn. destruct (p c); cbn; lia.
Qed.

Lemma drop_length n s : (String.length (Py.drop n s) <= String.length s)%nat.
Proof.
  revert s. induction n as [|n IH]; intros [|c t]; cbn; try lia.
  specialize (IH t). lia.
Qed.

(** Every group found is the group of a match at some place of the text. *)
Lemma findall_from_Forall (P : string -> Prop) p k s :
  (forall s' g n, (String.length s' <= String.length s)%nat ->
                  p s' = Some (g, n) -> P g) ->
  Forall P (Re.findall_from p k s).
Proof.
  revert k. induction s as [|c t IH]; intros k HP; [constructor|].
  assert (forall k', Forall P (Re.findall_from p k' t)) as IH'.
  { intros k'. apply IH. intros s' g n Hs'. apply HP. cbn. lia. }
  cbn [Re.findall_from]. destruct k as [|k]; [|apply IH'].
  destruct (p (String c t)) as [[g n]|] eqn:E; [|apply IH'].
  constructor; [|apply IH']. by eapply HP.
Qed.

Lemma digit_not_space c : Py.is_digit c = true -> Py.is_int_space c = false.
Proof.
  unfold Py.is_digit, Py.is_int_space. generalize (Py.code c) as n. intros n.
  intros [H1%Nat.leb_le H2%Nat.leb_le]%andb_true_iff.
  repeat match goal with
         | |- context [(?a <=? ?b)%nat] => destruct (Nat.leb_spec a b)
         | |- context [(?a =? ?b)%nat] => destruct (Nat.eqb_spec a b)
         end; cbn; try done; lia.
Qed.

Lemma lstrip_digit c l :
  Py.is_digit c = true ->
  Py.lstrip_chars Py.is_int_space (c :: l) = c :: l.
Proof. intros H. cbn. by rewrite (digit_not_space c H). Qed.

Lemma all_chars_Forall p s :
  Py.all_chars p s = true <->
  Forall (fun c => p c = true) (String.list_ascii_of_string s).
Proof.
  induction s as [|c t IH]; cbn.
  - split; [constructor|done].
  - rewrite andb_true_iff, IH, Forall_cons. tauto.
Qed.

Lemma strip_digits s :
  Py.all_chars Py.is_digit s = true -> Py.strip_chars Py.is_int_space s = s.
Proof.
  intros H%all_chars_Forall. unfold Py.strip_chars.
  set (l := String.list_ascii_of_string s) in *.
  assert (forall l', Forall (fun c => Py.is_digit c = true) l' ->
                     Py.lstrip_chars Py.is_int_space l' = l') as Hl.
  { intros [|c l'] Hl'; [done|]. apply lstrip_digit.
    by apply Forall_cons in Hl' as [? _]. }
  rewrite (Hl l H), (Hl (rev l)) by (by apply Forall_rev).
  rewrite rev_involutive. apply String.string_of_list_ascii_of_string.
Qed.

Lemma int_digits_all acc prev s :
  Py.all_chars Py.is_digit s = true -> s <> "" \/ prev = true ->
  is_Some (Py.int_digits acc prev s).
Proof.
  revert acc prev. induction s as [|c t IH]; intros acc prev Hs Hne.
  - destruct Hne as [ ? | -> ]; [done|]. by eexists.
  - cbn in Hs |- *. apply andb_true_iff in Hs as [-> Ht].
    apply IH; auto.
Qed.

Lemma count_digits_le s : (Py.count_digits s <= String.length s)%nat.
Proof. induction s as [|c t IH]; cbn; [lia|]. destruct (Py.is_digit c); lia. Qed.

(** [int] accepts every non-empty string of digits of moderate length. *)
Lemma int_of_digits s :
  s <> "" -> Py.all_chars Py.is_digit s = true ->
  (String.length s <= Py.int_max_str_digits)%nat ->
  exists n, Py.int s = Ok n.
Proof.
  intros Hne Hs Hlen. unfold Py.int. rewrite (strip_digits s Hs).
  destruct s as [|c t]; [done|].
  assert (Py.is_digit c = true) as Hc
    by (cbn in Hs; by apply andb_true_iff in Hs as [? _]).
  destruct (Ascii.eqb_spec c "-") as [->|_]; [done|].
  destruct (Ascii.eqb_spec c "+") as [->|_]; [done|].
  destruct (int_digits_all 0 false (String c t) Hs) as [n ->]; [by left|].
  pose proof (count_digits_le (String c t)).
  destruct (Nat.ltb_spec Py.int_max_str_digits (Py.count_digits (String c t)));
    [lia|]. by eexists.
Qed.

Lemma age_pattern_group s g n :
  Re.age_pattern s = Some (g, n) ->
  g <> "" /\ Py.all_chars Py.is_digit g = true /\
  (String.length g <= String.length s)%nat.
Proof.
  unfold Re.age_pattern. destruct (String.prefix "Age:" s); [|done].
  pose proof (take_while_all Py.is_digit (Py.drop 4 s)) as Hd.
  pose proof (take_while_length Py.is_digit (Py.drop 4 s)) as Hl.
  pose proof (drop_length 4 s).
  destruct (Py.take_while Py.is_digit (Py.drop 4 s)) eqn:E; [done|].
  intros [= <- <-]. split_and!; [done|done|lia].
Qed.

Lemma contains_bar_head c t :
  Py.contains "|" (String c t) = false -> c <> "|"%char.
Proof.
  intros [Hp _]%contains_cons Hc. subst c. cbn [String.prefix] in Hp.
  destruct (ascii_dec "|" "|"); [|done]. by rewrite prefix_nil in Hp.
Qed.

(** Without a [|] in the text, the class [[F|M]] finds what [[FM]] finds. *)
Lemma gender_pattern_no_bar s k :
  Py.contains "|" s = false ->
  Re.findall_from Re.gender_pattern k s =
  Re.findall_from sex_token_pattern k s.
Proof.
  revert k. induction s as [|a t IH]; intros k Hs; [done|].
  pose proof (contains_cons _ _ _ Hs) as [_ Ht].
  cbn [Re.findall_from]. destruct k as [|k]; [|by apply IH].
  assert (Re.gender_pattern (String a t) = sex_token_pattern (String a t))
    as ->.
  { unfold Re.gender_pattern, sex_token_pattern, Re.spaced_char.
    destruct t as [|c [|b r]]; try done.
    apply contains_bar_head in Ht.
    replace (bool_decide (c ∈ ["F"; "|"; "M"]%char))
      with (bool_decide (c ∈ ["F"; "M"]%char)); [done|].
    apply bool_decide_ext. rewrite !elem_of_cons. tauto. }
  destruct (sex_token_pattern (String a t)) as [[g n]|]; by rewrite IH.
Qed.

End header_facts.

(** C10, as stated: the extractor raises on a header whose patient field
    holds a byte that is not ASCII, and a lone [|] between white space is
    returned as the sex although the field holds no [F] or [M] token. *)
Lemma C10_extractor_raises_or_returns_bar :
  (let content := repeat Byte.x20 8 ++ [Byte.xe9] in
   _parse_age_and_gender_from_edf_header (fun _ => Some content) "a.edf"
   = Raise UnicodeDecodeError) /\
  (let content := String.list_byte_of_string "0        | " in
   Re.findall sex_token_pattern " | " = [] /\
   _parse_age_and_gender_from_edf_header (fun _ => Some content) "a.edf"
   = Ok (-1, "|")).
Proof. split; [reflexivity|split; reflexivity]. Qed.

(** C10, amended: on a header whose patient field (bytes 8 to 88) is
    ASCII the extractor does not raise; the age is -1 unless the field
    has exactly one match of [Age:<digits>], and, when the field holds no
    [|], the sex is ["X"] unless it has exactly one match of an [F] or [M]
    between white space (matches taken left to right, without overlap). *)
Theorem C10_age_gender_defaults (fs : files) (file_path : string)
    (content : list Byte.byte) :
  fs file_path = Some content ->
  Forall (fun b => (Byte.to_N b < 128)%N) (drop 8 (take 88 content)) ->
  let patient_id := String.string_of_list_byte (drop 8 (take 88 content)) in
  exists age gender,
    _parse_age_and_gender_from_edf_header fs file_path = Ok (age, gender) /\
    (length (Re.findall Re.age_pattern patient_id) <> 1%nat -> age = -1) /\
    (Py.contains "|" patient_id = false ->
     length (Re.findall sex_token_pattern patient_id) <> 1%nat ->
     gender = "X").
Proof.
  intros Hfs Hascii patient_id.
  unfold _parse_age_and_gender_from_edf_header, _read_edf_header.
  rewrite Hfs. cbn [bind]. rewrite (decode_ascii_ok _ Hascii). cbn [bind].
  fold patient_id.
  assert (String.length patient_id <= 80)%nat as Hlen.
  { unfold patient_id. rewrite string_of_list_byte_length.
    rewrite length_drop, length_take. lia. }
  assert (Forall (fun g => exists n, Py.int g = Ok n)
                 (Re.findall Re.age_pattern patient_id)) as Hage.
  { apply findall_from_Forall. intros s' g n Hs' Hm.
    apply age_pattern_group in Hm as (? & ? & ?).
    apply int_of_digits; [done..|]. unfold Py.int_max_str_digits. lia. }
  assert (exists age,
    match Re.findall Re.age_pattern patient_id with
    | [a] => Py.int a
    | _ => Ok (-1)
    end = Ok age /\
    (length (Re.findall Re.age_pattern patient_id) <> 1%nat -> age = -1))
    as (age & -> & Hdefault).
  { destruct (Re.findall Re.age_pattern patient_id) as [|a [|b l]];
      [by eexists|..|by eexists].
    apply Forall_cons in Hage as [[n ->] _]. by eexists. }
  cbn [bind]. eexists _, _. split_and!; [done|done|].
  intros Hbar Hsex. unfold Re.findall in *.
  rewrite (gender_pattern_no_bar _ 0 Hbar).
  by destruct (Re.findall_from sex_token_pattern 0 patient_id) as [|g [|h l]].
Qed.

Lemma C10_age_gender_defaults_witness :
  exists age gender,
    _parse_age_and_gender_from_edf_header
      (fun _ => Some (String.list_byte_of_string
                        "0       aaaaaaav 01-JAN-1985 Age:34 Age:35"))
      "aaaaaaav_s004_t000.edf" = Ok (age, gender) /\
    age = -1 /\ gender = "X".
Proof.
  destruct (C10_age_gender_defaults
              (fun _ => Some (String.list_byte_of_string
                                "0       aaaaaaav 01-JAN-1985 Age:34 Age:35"))
              "aaaaaaav_s004_t000.edf" _ eq_refl) as (age & gender & H & Ha & Hg).
  - apply Forall_forall. intros b Hb. apply N.ltb_lt.
    revert b Hb. apply Forall_forall. vm_compute. repeat constructor.
  - exists age, gender. split; [exact H|]. split.
    + apply Ha. vm_compute. discriminate.
    + apply Hg; [reflexivity|]. vm_compute. discriminate.
Defined.

(** ** The descriptor of a file and the scan of the corpus (C7) *)

Lemma for_each_raise {A B} (f : A -> result B) l x :
  x ∈ l -> is_ok (f x) = false -> exists e, for_each f l = Raise e.
Proof.
  induction l as [|y l IH]; [by intros ?%elem_of_nil|].
  intros [Heq|Hx]%elem_of_cons Hf; cbn [for_each].
  - subst y. destruct (f x); [done|]. by eexists.
  - destruct (f y); [|by eexists]. cbn [bind].
    destruct (IH Hx Hf) as [e ->]. by eexists.
Qed.

Lemma for_each_ok {A B} (f : A -> result B) l ys :
  for_each f l = Ok ys -> Forall2 (fun x y => f x = Ok y) l ys.
Proof.
  revert ys. induction l as [|x l IH]; intros ys; cbn [for_each].
  - intros [= <-]. constructor.
  - destruct (f x) as [y|] eqn:Hy; [|done]. cbn [bind].
    destruct (for_each f l) as [ys'|]; [|done]. cbn [bind].
    intros [= <-]. constructor; [done|]. by apply IH.
Qed.

Lemma unpack3_ok parts r : unpack3 parts = Ok r -> length parts = 3%nat.
Proof. by destruct parts as [|a [|b [|c [|d l]]]]. Qed.

Lemma unpack3_raise parts :
  length parts <> 3%nat -> exists msg, unpack3 parts = Raise (ValueError msg).
Proof.
  destruct parts as [|a [|b [|c [|d l]]]]; intros Hl; try done; by eexists.
Qed.

(** C7, as stated: a file name with two parts ends the whole scan; the
    well-formed file after it is not indexed. *)
Lemma C7_malformed_name_aborts_scan :
  let _get_info := fun _ : string => Ok (Some (Datetime 2012 1 1 0)) in
  is_ok (_parse_description_from_file_path _get_info
           "edf/train/normal/01_tcp_ar/aaaaaaab_s001_t000.edf") = true /\
  _create_chronological_description _get_info
    ["edf/train/normal/01_tcp_ar/aaaaaaaa_s001.edf";
     "edf/train/normal/01_tcp_ar/aaaaaaab_s001_t000.edf"]
  = Raise (ValueError "not enough values to unpack (expected 3)").
Proof. split; reflexivity. Qed.

(** C7, amended: for a file whose name, without [.edf], does not split
    on [_] into exactly three parts, the extraction raises: a [ValueError]
    when the header probe succeeds, the probe's own exception otherwise.
    The exception is not caught: a scan of a corpus that holds such a file
    raises and gives no index. *)
Theorem C7_malformed_name_raises
    (_get_info : string -> result (option datetime)) (file_path : string) :
  length (Py.split (file_name file_path) "_") <> 3%nat ->
  (forall info, _get_info (normpath file_path) = Ok info ->
     exists msg, _parse_description_from_file_path _get_info file_path
                 = Raise (ValueError msg)) /\
  (forall e, _get_info (normpath file_path) = Raise e ->
     _parse_description_from_file_path _get_info file_path = Raise e) /\
  (forall file_paths, file_path ∈ file_paths ->
     exists e, _create_chronological_description _get_info file_paths
               = Raise e).
Proof.
  intros Hparts.
  assert (forall info, _get_info (normpath file_path) = Ok info ->
     exists msg, _parse_description_from_file_path _get_info file_path
                 = Raise (ValueError msg)) as Hok.
  { intros info Hinfo. unfold _parse_description_from_file_path.
    rewrite Hinfo. cbn [bind].
    destruct (unpack3_raise _ Hparts) as [msg Hmsg].
    unfold file_name in Hmsg. rewrite Hmsg. by eexists. }
  assert (forall e, _get_info (normpath file_path) = Raise e ->
     _parse_description_from_file_path _get_info file_path = Raise e) as Herr.
  { intros e He. unfold _parse_description_from_file_path. by rewrite He. }
  split_and!; [done..|].
  intros file_paths Hin. unfold _create_chronological_description.
  destruct (for_each_raise (_parse_description_from_file_path _get_info)
              file_paths file_path Hin) as [e ->]; [|by eexists].
  destruct (_get_info (normpath file_path)) as [info|e] eqn:E.
  - destruct (Hok info eq_refl) as [msg ->]. done.
  - by rewrite (Herr e eq_refl).
Qed.

Lemma C7_malformed_name_raises_witness :
  let _get_info := fun _ : string => Ok (Some (Datetime 2012 1 1 0)) in
  let unreadable := fun _ : string => @Raise (option datetime) OSError in
  (exists msg,
     _parse_description_from_file_path _get_info
       "edf/train/normal/01_tcp_ar/aaaaaaaa_s001.edf"
     = Raise (ValueError msg)) /\
  _parse_description_from_file_path unreadable
    "edf/train/normal/01_tcp_ar/aaaaaaaa_s001.edf" = Raise OSError /\
  (exists e,
     _create_chronological_description _get_info
       ["edf/train/normal/01_tcp_ar/aaaaaaab_s001_t000.edf";
        "edf/train/normal/01_tcp_ar/aaaaaaaa_s001.edf"] = Raise e).
Proof.
  intros _get_info unreadable.
  assert (length (Py.split
            (file_name "edf/train/normal/01_tcp_ar/aaaaaaaa_s001.edf") "_")
          <> 3%nat) as H by (vm_compute; lia).
  destruct (C7_malformed_name_raises _get_info _ H) as (H1 & _ & H3).
  destruct (C7_malformed_name_raises unreadable _ H) as (_ & H2 & _).
  split_and!.
  - by apply (H1 (Some (Datetime 2012 1 1 0))).
  - by apply H2.
  - apply H3. apply list_elem_of_further, list_elem_of_here.
Defined.

(** ** The chronological sort (C6) *)

#[local] Instance Z_cmp_order : CmpOrder Z.compare.
Proof.
  split.
  - apply Z.compare_eq_iff.
  - intros a b. apply Z.compare_antisym.
  - intros a b c. rewrite !Z.compare_lt_iff. lia.
Qed.

#[local] Instance string_cmp_order : CmpOrder String.compare.
Proof.
  split.
  - intros a b. split; [apply String.compare_eq_iff|intros <-].
    pose proof (String.compare_antisym a a) as H.
    by destruct (String.compare a a).
  - intros a b. apply String.compare_antisym.
  - intros a b c Hab Hbc.
    assert (String.le a c) as Hac.
    { transitivity b; unfold String.le, String.leb; [by rewrite Hab|by rewrite Hbc]. }
    unfold String.le, String.leb in Hac.
    destruct (String.compare a c) eqn:E; [|done|done].
    apply String.compare_eq_iff in E as ->.
    rewrite String.compare_antisym, Hab in Hbc. done.
Qed.

#[local] Instance pair_cmp_order {A B} (cmpA : A -> A -> comparison)
    (cmpB : B -> B -> comparison) `{!CmpOrder cmpA, !CmpOrder cmpB} :
  CmpOrder (pair_compare cmpA cmpB).
Proof.
  split; unfold pair_compare, lex.
  - intros [a1 b1] [a2 b2]. cbn. split.
    + destruct (cmpA a1 a2) eqn:E; try done.
      intros ?%cmp_eq. apply cmp_eq in E. by subst.
    + intros [= -> ->]. rewrite (proj2 (cmp_eq a2 a2) eq_refl).
      by apply cmp_eq.
  - intros [a1 b1] [a2 b2]. cbn. rewrite (cmp_opp a1 a2).
    destruct (cmpA a1 a2); cbn; try done. apply cmp_opp.
  - intros [a1 b1] [a2 b2] [a3 b3]. cbn.
    destruct (cmpA a1 a2) eqn:E12; try done.
    + apply cmp_eq in E12 as ->. destruct (cmpA a2 a3); try done.
      apply cmp_trans.
    + intros _. destruct (cmpA a2 a3) eqn:E23; try done.
      * apply cmp_eq in E23 as <-. by rewrite E12.
      * by rewrite (cmp_trans _ _ _ E12 E23).
Qed.

#[local] Instance key_cmp_order : CmpOrder key_compare.
Proof. unfold key_compare. apply _. Qed.

Lemma key_leb_total x y : key_leb x y = true \/ key_leb y x = true.
Proof.
  unfold key_leb. rewrite (cmp_opp (key x) (key y)).
  destruct (key_compare (key x) (key y)); cbn; auto.
Qed.

Lemma key_leb_false x y : key_leb x y = false -> key_leb y x = true.
Proof. destruct (key_leb_total x y) as [->| ->]; done. Qed.

#[local] Instance key_le_trans : Transitive key_le.
Proof.
  intros x y z. unfold key_le, key_leb.
  destruct (key_compare (key x) (key y)) eqn:Exy; [..|done].
  { apply cmp_eq in Exy as ->. done. }
  destruct (key_compare (key y) (key z)) eqn:Eyz; [..|done].
  { apply cmp_eq in Eyz as <-. by rewrite Exy. }
  by rewrite (cmp_trans _ _ _ Exy Eyz).
Qed.

Lemma key_le_antisym x y : key_le x y -> key_le y x -> key x = key y.
Proof.
  unfold key_le, key_leb. rewrite (cmp_opp (key x) (key y)).
  destruct (key_compare (key x) (key y)) eqn:E; cbn; try done.
  intros _ _. by apply cmp_eq.
Qed.

Lemma key_leb_same_key x y : key x = key y -> key_leb x y = true.
Proof.
  intros E. unfold key_leb. by rewrite E, (proj2 (cmp_eq (key y) (key y)) eq_refl).
Qed.

Section stable_sort_facts.

Context {A : Type} (leb : A -> A -> bool).

Lemma insert_sorted_perm x l : insert_sorted leb x l ≡ₚ x :: l.
Proof.
  induction l as [|y l IH]; [done|]. cbn.
  destruct (leb x y); [done|]. rewrite IH. apply Permutation_swap.
Qed.

Lemma stable_sort_perm l : stable_sort leb l ≡ₚ l.
Proof.
  induction l as [|x l IH]; [done|]. cbn.
  by rewrite insert_sorted_perm, IH.
Qed.

Hypothesis leb_false : forall x y, leb x y = false -> leb y x = true.

Lemma insert_sorted_Sorted x l :
  Sorted (fun a b => leb a b = true) l ->
  Sorted (fun a b => leb a b = true) (insert_sorted leb x l).
Proof.
  induction 1 as [|y l Hl IH Hy]; cbn; [by repeat constructor|].
  destruct (leb x y) eqn:E.
  - constructor; [by constructor|]. by constructor.
  - constructor; [done|].
    destruct l as [|z l]; cbn in *.
    + constructor. by apply leb_false.
    + destruct (leb x z); constructor; [by apply leb_false|].
      by inversion Hy.
Qed.

Lemma stable_sort_Sorted l :
  Sorted (fun a b => leb a b = true) (stable_sort leb l).
Proof.
  induction l as [|x l IH]; [constructor|]. cbn.
  by apply insert_sorted_Sorted.
Qed.

(** Elements outside a class keep their order when one is inserted ... *)
Lemma filter_insert_other (P : A -> Prop) `{!forall a, Decision (P a)} x l :
  ~ P x -> filter P (insert_sorted leb x l) = filter P l.
Proof.
  intros Hx. induction l as [|y l IH]; cbn [insert_sorted].
  - by rewrite filter_cons_False.
  - destruct (leb x y).
    + by rewrite (filter_cons_False _ x).
    + rewrite !(filter_cons _ y), IH. done.
Qed.

(** ... and the inserted element goes before those it compares equal to. *)
Lemma filter_insert_same (P : A -> Prop) `{!forall a, Decision (P a)} x l :
  P x -> (forall y, P y -> leb x y = true) ->
  filter P (insert_sorted leb x l) = x :: filter P l.
Proof.
  intros Hx Hle. induction l as [|y l IH]; cbn [insert_sorted].
  - by rewrite filter_cons_True.
  - destruct (leb x y) eqn:E.
    + by rewrite (filter_cons_True _ x).
    + assert (~ P y) as Hy by (intros ?%Hle; congruence).
      by rewrite !(filter_cons_False _ y), IH.
Qed.

End stable_sort_facts.

Lemma sort_values_perm descriptions : sort_values descriptions ≡ₚ descriptions.
Proof. apply stable_sort_perm. Qed.

Lemma sort_values_sorted descriptions :
  StronglySorted key_le (sort_values descriptions).
Proof.
  apply Sorted_StronglySorted; [apply _|].
  apply (stable_sort_Sorted key_leb key_leb_false).
Qed.

(** The sort is stable: the descriptors of one key keep their order. *)
Lemma sort_values_stable descriptions k :
  filter (fun d => key d = k) (sort_values descriptions) =
  filter (fun d => key d = k) descriptions.
Proof.
  unfold sort_values.
  induction descriptions as [|x l IH]; [done|]. cbn [stable_sort].
  destruct (decide (key x = k)) as [Hx|Hx].
  - rewrite filter_insert_same, IH; [by rewrite filter_cons_True|done|].
    intros y Hy. apply key_leb_same_key. congruence.
  - rewrite filter_insert_other, IH; [by rewrite filter_cons_False|done].
Qed.

Lemma NoDup_key_inj (l : list Descriptor) x y :
  NoDup (key <$> l) -> x ∈ l -> y ∈ l -> key x = key y -> x = y.
Proof.
  induction l as [|z l IH]; [by intros _ ?%elem_of_nil|].
  rewrite fmap_cons, NoDup_cons.
  intros [Hz Hl] [->|Hx]%elem_of_cons [->|Hy]%elem_of_cons Hk; auto.
  - destruct Hz. rewrite Hk. by apply list_elem_of_fmap_2.
  - destruct Hz. rewrite <- Hk. by apply list_elem_of_fmap_2.
Qed.

(** With pairwise distinct keys the index does not depend on the order in
    which the descriptors come. *)
Lemma sort_values_order_independent l1 l2 :
  l1 ≡ₚ l2 -> NoDup (key <$> l1) -> sort_values l1 = sort_values l2.
Proof.
  intros Hp Hnd.
  apply (StronglySorted_unique_strong key_le); try apply sort_values_sorted.
  - intros x y Hx Hy Hxy Hyx.
    rewrite sort_values_perm in Hx. rewrite sort_values_perm, <- Hp in Hy.
    eapply NoDup_key_inj; eauto using key_le_antisym.
  - by rewrite !sort_values_perm.
Qed.

(** C6, as stated: two files with one sort key, [aaaaaaaa_s1_t0.edf] and
    [aaaaaaaa_s01_t0.edf], stay in the order in which they were listed,
    whichever it is; the file name that is lexically smaller does not
    come first, and the index depends on the order of production. *)
Lemma C6_ties_keep_production_order :
  let _get_info := fun _ : string => Ok (Some (Datetime 2012 1 1 0)) in
  let p1 := "edf/train/normal/01_tcp_ar/aaaaaaaa_s1_t0.edf" in
  let p2 := "edf/train/normal/01_tcp_ar/aaaaaaaa_s01_t0.edf" in
  exists d1 d2,
    _parse_description_from_file_path _get_info p1 = Ok d1 /\
    _parse_description_from_file_path _get_info p2 = Ok d2 /\
    key d1 = key d2 /\ d1 <> d2 /\
    String.ltb (file_name p2) (file_name p1) = true /\
    _create_chronological_description _get_info [p1; p2] = Ok [d1; d2] /\
    _create_chronological_description _get_info [p2; p1] = Ok [d2; d1].
Proof.
  intros _get_info p1 p2.
  eexists _, _. split_and!; try reflexivity. discriminate.
Qed.

(** C6, amended: the chronological sort orders the descriptors by
    (subject, session, segment, year, month, day), a total order on the
    keys, and is stable: descriptors with the same key keep the order in
    which they were produced. The index is therefore a function of the
    sequence of descriptors, and it does not depend on their order when
    the keys are pairwise distinct. *)
Theorem C6_sort_values_stable (descriptions : list Descriptor) :
  sort_values descriptions ≡ₚ descriptions /\
  StronglySorted key_le (sort_values descriptions) /\
  (forall x y, key_le x y \/ key_le y x) /\
  (forall k, filter (fun d => key d = k) (sort_values descriptions) =
             filter (fun d => key d = k) descriptions) /\
  (forall other, other ≡ₚ descriptions -> NoDup (key <$> descriptions) ->
                 sort_values other = sort_values descriptions).
Proof.
  split_and!.
  - apply sort_values_perm.
  - apply sort_values_sorted.
  - apply key_leb_total.
  - apply sort_values_stable.
  - intros other Hp Hnd. symmetry. by apply sort_values_order_independent.
Qed.

Lemma C6_sort_values_stable_witness :
  let d1 := {| d_path := "edf/eval/normal/01_tcp_ar/aaaaaaab_s002_t000.edf";
               d_version := "V3.0"; d_year := 2012; d_month := 5; d_day := 7;
               d_subject := "aaaaaaab"; d_session := 2; d_segment := 0 |} in
  let d2 := {| d_path := "edf/train/normal/01_tcp_ar/aaaaaaab_s001_t001.edf";
               d_version := "V3.0"; d_year := 2011; d_month := 1; d_day := 3;
               d_subject := "aaaaaaab"; d_session := 1; d_segment := 1 |} in
  sort_values [d2; d1] = sort_values [d1; d2] /\ sort_values [d1; d2] = [d2; d1].
Proof.
  intros d1 d2. split; [|reflexivity].
  apply (proj2 (proj2 (proj2 (proj2 (C6_sort_values_stable [d1; d2]))))).
  - apply Permutation_swap.
  - apply (bool_decide_unpack _). vm_compute. exact I.
Defined.

(** ** The subset of the index (C5) *)

Lemma Forall2_Forall_impl {A B} (P : A -> Prop) (R R' : A -> B -> Prop) l k :
  Forall P l -> Forall2 R l k ->
  (forall x y, P x -> R x y -> R' x y) -> Forall2 R' l k.
Proof.
  intros HP HR Himpl. induction HR as [|x y l k Hxy HR IH]; [constructor|].
  apply Forall_cons in HP as [Hx HP]. constructor; auto.
Qed.

Section subset_facts.

Context {A : Type}.

Lemma column_ok (descriptions : list A) i d :
  column descriptions i = Ok d <->
  0 <= i /\ descriptions !! Z.to_nat i = Some d.
Proof.
  unfold column. destruct (Z.ltb_spec i 0).
  - split; [done|lia].
  - destruct (descriptions !! Z.to_nat i); split; try done.
    + by intros [= ->].
    + by intros [_ [= ->]].
    + by intros [_ ?].
Qed.

Lemma select_columns_ok (descriptions : list A) ids cols :
  select_columns descriptions ids = Ok cols ->
  cols.*1 = ids /\
  Forall2 (fun i d => column descriptions i = Ok d) ids (cols.*2).
Proof.
  unfold select_columns. intros Hsel%for_each_ok.
  induction Hsel as [|i [j d] ids cols Hi _ [IH1 IH2]]; [done|].
  destruct (column descriptions i) as [d'|] eqn:E; [|done].
  cbn [bind] in Hi. injection Hi as <- <-.
  cbn. split; [by f_equal|]. by constructor.
Qed.

(** Rows taken at increasing places form a sublist. *)
Lemma lookup_increasing_sublist (l : list A) (off : nat) (ids : list nat) ds :
  StronglySorted lt ids -> Forall (fun i => off <= i)%nat ids ->
  Forall2 (fun i d => l !! (i - off)%nat = Some d) ids ds ->
  ds `sublist_of` l.
Proof.
  revert off ids ds. induction l as [|x l IH]; intros off ids ds Hs Hoff Hl.
  - destruct Hl as [|i d ids ds Hi]; [constructor|done].
  - destruct Hl as [|i d ids ds Hi Hl]; [apply sublist_nil_l|].
    apply StronglySorted_inv in Hs as [Hs Hlt].
    apply Forall_cons in Hoff as [Hi_off Hoff].
    destruct (decide (i = off)) as [->|Hne].
    + replace (off - off)%nat with 0%nat in Hi by lia.
      injection Hi as <-. apply sublist_skip.
      apply (IH (S off) ids ds Hs).
      * eapply Forall_impl; [exact Hlt|]. cbn. lia.
      * apply (Forall2_Forall_impl _ _ _ _ _ Hlt Hl).
        intros j e Hj He.
        replace (j - off)%nat with (S (j - S off)) in He by lia. done.
    + apply sublist_cons.
      apply (IH (S off) (i :: ids) (d :: ds)).
      * by constructor.
      * constructor; [lia|]. eapply Forall_impl; [exact Hlt|]. cbn. lia.
      * constructor.
        -- replace (i - off)%nat with (S (i - S off)) in Hi by lia. done.
        -- apply (Forall2_Forall_impl _ _ _ _ _ Hlt Hl).
           intros j e Hj He.
           replace (j - off)%nat with (S (j - S off)) in He by lia. done.
Qed.

Lemma columns_increasing_sublist (descriptions : list A) (ids : list Z) ds :
  StronglySorted Z.lt ids ->
  Forall2 (fun i d => column descriptions i = Ok d) ids ds ->
  ds `sublist_of` descriptions.
Proof.
  intros Hs Hl.
  apply (lookup_increasing_sublist descriptions 0 (Z.to_nat <$> ids)).
  - revert Hs. clear -Hl. induction Hl as [|i d ids ds Hi Hl IH].
    + constructor.
    + intros [Hs Hlt]%StronglySorted_inv. rewrite fmap_cons.
      constructor; [by apply IH|].
      apply column_ok in Hi as [Hi _].
      rewrite Forall_fmap. eapply Forall_impl; [exact Hlt|]. cbn. lia.
  - apply Forall_forall. lia.
  - rewrite Forall2_fmap_l. eapply Forall2_impl; [exact Hl|].
    intros i d [_ Hd]%column_ok. cbn. by rewrite Nat.sub_0_r.
Qed.

End subset_facts.

Section tuh_facts.

Context `{Mne}.
Variable _get_info : string -> result (option datetime).
Variable fs : files.

Lemma _create_dataset_description d reports ds :
  _create_dataset fs d reports = Ok ds -> t_description ds = d.
Proof.
  unfold _create_dataset.
  destruct (_parse_age_and_gender_from_edf_header _ _) as [[a g]|]; [|done].
  cbn [bind]. destruct (read_raw_edf _) as [r|]; [|done]. cbn [bind].
  destruct (info_meas_date r) as [t|]; [|done]. cbn [bind].
  destruct (datetime_replace _ _ _ _) as [t'|]; [|done]. cbn [bind].
  destruct (set_meas_date _ _) as [r'|]; [|done]. cbn [bind].
  destruct reports; [done|]. cbn [bind]. by intros [= <-].
Qed.

Lemma create_loop_descriptions (cols0 cols : list (Z * Descriptor)) reports
    datasets :
  for_each (fun c : Z * Descriptor =>
              if (1 <? length (filter (fun c' => c'.1 = c.1) cols0))%nat
              then Raise TypeError
              else _create_dataset fs c.2 reports) cols = Ok datasets ->
  t_description <$> datasets = cols.*2.
Proof.
  intros Hfe%for_each_ok.
  induction Hfe as [|c ds cols' dss Hc _ IH]; [done|].
  destruct (_ <? _)%nat; [done|].
  apply _create_dataset_description in Hc. cbn. by f_equal.
Qed.

(** The datasets of [TUH] are made from the selected columns of the
    sorted index, in the order of the selection. *)
Lemma TUH_init_datasets file_paths ids reports datasets :
  TUH_init _get_info fs file_paths ids reports = Ok datasets ->
  exists descriptions,
    _create_chronological_description _get_info file_paths = Ok descriptions /\
    match ids with
    | AllRecordings => t_description <$> datasets = descriptions
    | OneId _ => False
    | Ids l =>
        Forall2 (fun i d => column descriptions i = Ok d)
                l (t_description <$> datasets)
    end.
Proof.
  unfold TUH_init.
  destruct (_create_chronological_description _ _) as [descriptions|]; [|done].
  cbn [bind]. intros Hinit. exists descriptions. split; [done|].
  pose proof (fun cols => create_loop_descriptions cols cols reports datasets)
    as Hloop.
  assert (forall cols,
    (base <- for_each (fun c : Z * Descriptor =>
                if (1 <? length (filter (fun c' => c'.1 = c.1) cols))%nat
                then Raise TypeError
                else _create_dataset fs c.2 reports) cols ;;
     concat_dataset base) = Ok datasets ->
    t_description <$> datasets = cols.*2) as Hloop'.
  { intros cols. destruct (for_each _ cols) as [base|] eqn:E; [|done].
    cbn [bind]. destruct base; [done|]. intros [= <-]. by apply Hloop. }
  destruct ids as [|i|l].
  - cbn [bind] in Hinit. apply Hloop' in Hinit. rewrite Hinit.
    unfold numbered. clear. rewrite <- (list_fmap_id descriptions) at 2.
    rewrite fmap_imap. generalize (@id nat). intros _.
    induction descriptions as [|d l IH] using rev_ind; [done|].
    rewrite imap_app, fmap_app. cbn. by rewrite IH, list_fmap_id.
  - destruct (column descriptions i); done.
  - destruct (select_columns descriptions l) as [cols|] eqn:E; [|done].
    cbn [bind] in Hinit. apply Hloop' in Hinit. rewrite Hinit.
    by apply select_columns_ok in E as [_ ?].
Qed.

End tuh_facts.

Section selection_facts.

Context `{Mne}.
Variable _get_info : string -> result (option datetime).
Variable fs : files.

Lemma _create_dataset_ok d reports ds :
  _create_dataset fs d reports = Ok ds ->
  reports = false /\
  t_description ds = d /\
  _parse_age_and_gender_from_edf_header fs (d_path d)
    = Ok (t_age ds, t_gender ds) /\
  check_date (d_year d) (d_month d) (d_day d) = Ok tt /\
  exists raw0 t,
    read_raw_edf (d_path d) = Ok raw0 /\ info_meas_date raw0 = Some t /\
    set_meas_date raw0
      (Datetime (d_year d) (d_month d) (d_day d) (dt_seconds t))
      = Ok (t_raw ds).
Proof.
  unfold _create_dataset.
  destruct (_parse_age_and_gender_from_edf_header _ _) as [[a g]|]; [|done].
  cbn [bind]. destruct (read_raw_edf _) as [r|] eqn:Hr; [|done]. cbn [bind].
  destruct (info_meas_date r) as [t|] eqn:Ht; [|done]. cbn [bind].
  unfold datetime_replace.
  destruct (check_date _ _ _) as [[]|]; [|done]. cbn [bind].
  destruct (set_meas_date _ _) as [r'|] eqn:Hset; [|done]. cbn [bind].
  destruct reports; [done|]. cbn [bind]. intros [= <-]. cbn.
  split_and!; try done. by exists r, t.
Qed.

(** The labels of the columns that pass the loop are pairwise distinct. *)
Lemma single_labels_NoDup {A} (cols : list (Z * A)) :
  Forall (fun c => (length (filter (fun c' => c'.1 = c.1) cols) <= 1)%nat) cols ->
  NoDup (cols.*1).
Proof.
  induction cols as [|c cols IH]; [constructor|].
  intros [Hc Hcols]%Forall_cons. rewrite fmap_cons.
  rewrite filter_cons_True in Hc by done. cbn in Hc.
  constructor.
  - intros (c' & Heq & Hin)%list_elem_of_fmap.
    assert (c' ∈ filter (fun c'0 : Z * A => c'0.1 = c.1) cols) as Hf
      by (by apply list_elem_of_filter).
    destruct (filter _ cols); [by apply elem_of_nil in Hf|cbn in Hc; lia].
  - apply IH. eapply Forall_impl; [exact Hcols|]. intros c' Hc'. cbv beta in Hc' |- *.
    destruct (decide (c.1 = c'.1)).
    + rewrite filter_cons_True in Hc' by done. cbn in Hc'. lia.
    + by rewrite filter_cons_False in Hc'.
Qed.

Lemma create_loop_ok (cols0 cols : list (Z * Descriptor)) reports datasets :
  for_each (fun c : Z * Descriptor =>
              if (1 <? length (filter (fun c' => c'.1 = c.1) cols0))%nat
              then Raise TypeError
              else _create_dataset fs c.2 reports) cols = Ok datasets ->
  Forall (fun c => (length (filter (fun c' => c'.1 = c.1) cols0) <= 1)%nat)
         cols /\
  Forall2 (fun c ds => _create_dataset fs c.2 reports = Ok ds) cols datasets.
Proof.
  intros Hfe%for_each_ok.
  induction Hfe as [|c ds cols' dss Hc _ [IH1 IH2]]; [by split|].
  destruct (Nat.ltb_spec 1 (length (filter (fun c' => c'.1 = c.1) cols0)));
    [done|].
  split; constructor; auto.
Qed.

(** What [TUH] has done when it ends well *)
Lemma TUH_init_ok file_paths ids reports datasets :
  TUH_init _get_info fs file_paths ids reports = Ok datasets ->
  exists descriptions cols,
    _create_chronological_description _get_info file_paths = Ok descriptions /\
    match ids with
    | AllRecordings => cols = numbered descriptions
    | OneId _ => False
    | Ids l => select_columns descriptions l = Ok cols
    end /\
    NoDup (cols.*1) /\ datasets <> [] /\
    Forall2 (fun c ds => _create_dataset fs c.2 reports = Ok ds) cols datasets.
Proof.
  unfold TUH_init.
  destruct (_create_chronological_description _ _) as [descriptions|]; [|done].
  cbn [bind].
  destruct (match ids with AllRecordings => _ | _ => _ end) as [cols|] eqn:Hc;
    [|done].
  cbn [bind]. destruct (for_each _ cols) as [base|] eqn:Hloop; [|done].
  cbn [bind]. destruct base as [|b base]; [done|]. intros [= <-].
  apply create_loop_ok in Hloop as [Hlabels Hloop].
  exists descriptions, cols. split_and!; try done.
  - destruct ids as [|i|l]; [by injection Hc as <-| |done].
    by destruct (column descriptions i).
  - by apply single_labels_NoDup.
Qed.

End selection_facts.

Section selection_converse.

Context `{Mne}.
Variable _get_info : string -> result (option datetime).
Variable fs : files.

Lemma select_columns_intro {A} (descriptions : list A) ids ds :
  Forall2 (fun i d => column descriptions i = Ok d) ids ds ->
  select_columns descriptions ids = Ok (zip ids ds).
Proof.
  unfold select_columns.
  induction 1 as [|i d ids ds Hi _ IH]; [done|].
  cbn [for_each zip zip_with]. rewrite Hi. cbn [bind]. by rewrite IH.
Qed.

(** A label that is not a place of the table ends the selection with
    [KeyError]. *)
Lemma select_columns_KeyError {A} (descriptions : list A) ids :
  Exists (fun i => ~ (0 <= i < Z.of_nat (length descriptions))) ids ->
  exists key, select_columns descriptions ids = Raise (KeyError key).
Proof.
  unfold select_columns.
  induction ids as [|i ids IH]; [by intros ?%Exists_nil|].
  intros Hex. cbn [for_each]. unfold column at 1.
  destruct (Z.ltb_spec i 0); [by eexists|].
  destruct (descriptions !! Z.to_nat i) as [d|] eqn:Hd; [|by eexists].
  cbn [bind]. apply Exists_cons in Hex as [Hi|Hex].
  - apply lookup_lt_Some in Hd. lia.
  - destruct (IH Hex) as [key ->]. by eexists.
Qed.

Lemma distinct_labels_single {A} (cols : list (Z * A)) k :
  NoDup (cols.*1) -> (length (filter (fun c => c.1 = k) cols) <= 1)%nat.
Proof.
  induction cols as [|c cols IH]; [cbn; lia|].
  rewrite fmap_cons. intros [Hc Hcols]%NoDup_cons.
  destruct (decide (c.1 = k)) as [<-|Hk].
  - rewrite filter_cons_True by done.
    assert (filter (fun c' : Z * A => c'.1 = c.1) cols = []) as ->; [|done].
    destruct (filter _ cols) as [|c' f] eqn:E; [done|].
    assert (c' ∈ filter (fun c' : Z * A => c'.1 = c.1) cols) as Hin
      by (rewrite E; apply list_elem_of_here).
    apply list_elem_of_filter in Hin as [Heq Hin].
    destruct Hc. rewrite <- Heq. by apply list_elem_of_fmap_2.
  - rewrite filter_cons_False by done. by apply IH.
Qed.

Lemma create_loop_intro (cols0 cols : list (Z * Descriptor)) reports datasets :
  NoDup (cols0.*1) ->
  Forall2 (fun c ds => _create_dataset fs c.2 reports = Ok ds) cols datasets ->
  for_each (fun c : Z * Descriptor =>
              if (1 <? length (filter (fun c' => c'.1 = c.1) cols0))%nat
              then Raise TypeError
              else _create_dataset fs c.2 reports) cols = Ok datasets.
Proof.
  intros Hnd. induction 1 as [|c ds cols datasets Hc _ IH]; [done|].
  cbn [for_each].
  pose proof (distinct_labels_single cols0 c.1 Hnd) as Hle.
  destruct (Nat.ltb_spec 1 (length (filter (fun c' => c'.1 = c.1) cols0)));
    [lia|].
  rewrite Hc. cbn [bind]. by rewrite IH.
Qed.

(** [TUH] on a list of labels ends well exactly when the labels are
    distinct places of the index, there is one at least, and the file of
    every selected descriptor can be loaded; the datasets are those of the
    selected descriptors, in the order of the labels. *)
Lemma TUH_init_Ids file_paths descriptions l reports datasets :
  _create_chronological_description _get_info file_paths = Ok descriptions ->
  TUH_init _get_info fs file_paths (Ids l) reports = Ok datasets <->
  l <> [] /\ NoDup l /\
  Forall2 (fun i ds => exists d, column descriptions i = Ok d /\
                                 _create_dataset fs d reports = Ok ds)
          l datasets.
Proof.
  intros Hidx. split.
  - intros (descriptions' & cols & Hidx' & Hsel & Hnd & Hne & Hloop)%TUH_init_ok.
    rewrite Hidx in Hidx'. injection Hidx' as <-.
    apply select_columns_ok in Hsel as [<- Hcols].
    split_and!; [|done|].
    + intros Hl. apply fmap_nil_inv in Hl. subst cols.
      by apply Forall2_nil_inv_l in Hloop.
    + clear Hnd Hne. revert Hcols.
      induction Hloop as [|c ds cols datasets Hc _ IH]; [constructor|].
      rewrite !fmap_cons. intros [Hcol Hcols]%Forall2_cons.
      constructor; [by exists c.2|by apply IH].
  - intros (Hne & Hnd & Hl).
    assert (exists ds, length ds = length l /\
              Forall2 (fun i d => column descriptions i = Ok d) l ds /\
              Forall2 (fun c x => _create_dataset fs c.2 reports = Ok x)
                      (zip l ds) datasets) as (ds & Hlen & Hcols & Hloop).
    { clear Hne Hnd. induction Hl as [|i x l datasets (d & Hi & Hx) _ IH].
      - by exists [].
      - destruct IH as (ds & Hlen & Hcols & Hloop).
        exists (d :: ds). cbn. split_and!; [by f_equal|by constructor|].
        by constructor. }
    unfold TUH_init. rewrite Hidx. cbn [bind].
    rewrite (select_columns_intro descriptions l ds Hcols). cbn [bind].
    rewrite (create_loop_intro (zip l ds) (zip l ds) reports datasets);
      [|by rewrite fst_zip by lia|done].
    cbn [bind]. destruct datasets as [|x datasets]; [|done].
    apply Forall2_nil_inv_r in Hl. done.
Qed.

End selection_converse.


(** C5, as stated: with [recording_ids = [1, 0]] the two recordings come
    in the reverse of their chronological order. *)
Lemma C5_descending_ids_reverse_order :
  let file_paths := ["edf/train/normal/01_tcp_ar/aaaaaaab_s007_t000.edf";
                     "edf/train/normal/01_tcp_ar/aaaaaaab_s003_t000.edf"] in
  exists first second datasets,
    _create_chronological_description example_info file_paths
      = Ok [first; second] /\
    @TUH_init example_mne example_info example_files file_paths
      (Ids [1; 0]) false = Ok datasets /\
    t_description <$> datasets = [second; first] /\
    ~ ([second; first] `sublist_of` [first; second]).
Proof.
  intros file_paths. eexists _, _, _. split_and!; [reflexivity..|].
  intros Hsub%(fmap_sublist d_session). vm_compute in Hsub.
  apply sublist_cons_l in Hsub as (k1 & k2 & Hk & Hsub).
  destruct k1 as [|a [|b [|c k1]]]; simplify_eq/=.
  apply sublist_nil_r in Hsub. done.
Qed.

(** C5, amended: the labels of [recording_ids] are places of the sorted
    index, and the datasets are loaded for the selected descriptors only,
    in the order of the labels: [TUH] ends well exactly when the labels are
    distinct places of the index and the file of every selected descriptor
    can be loaded, whatever the other files hold, and a label that is no
    place of the index ends it with [KeyError] before any file is loaded.
    When the labels are given in increasing order the chronological order
    of the retained recordings is kept. *)
Theorem C5_subset_of_sorted_index `{Mne}
    (_get_info : string -> result (option datetime)) (fs : files)
    (file_paths : list string) (l : list Z) (reports : bool)
    (datasets : list TUHDataset) :
  (TUH_init _get_info fs file_paths (Ids l) reports = Ok datasets ->
   exists descriptions,
     _create_chronological_description _get_info file_paths = Ok descriptions /\
     Forall2 (fun i d => column descriptions i = Ok d)
             l (t_description <$> datasets) /\
     (StronglySorted Z.lt l ->
      (t_description <$> datasets) `sublist_of` descriptions)) /\
  (forall descriptions,
     _create_chronological_description _get_info file_paths = Ok descriptions ->
     (TUH_init _get_info fs file_paths (Ids l) reports = Ok datasets <->
      l <> [] /\ NoDup l /\
      Forall2 (fun i ds => exists d, column descriptions i = Ok d /\
                                     _create_dataset fs d reports = Ok ds)
              l datasets) /\
     (Exists (fun i => ~ (0 <= i < Z.of_nat (length descriptions))) l ->
      exists key,
        TUH_init _get_info fs file_paths (Ids l) reports
        = Raise (KeyError key))).
Proof.
  split.
  - intros (descriptions & Hidx & Hcols)%TUH_init_datasets.
    exists descriptions. split_and!; [done..|].
    intros Hs. by eapply columns_increasing_sublist.
  - intros descriptions Hidx. split; [by apply TUH_init_Ids|].
    intros [key Hkey]%select_columns_KeyError.
    exists key. unfold TUH_init. rewrite Hidx. cbn [bind].
    by rewrite Hkey.
Qed.

Lemma C5_subset_of_sorted_index_witness :
  let file_paths := ["edf/train/normal/01_tcp_ar/aaaaaaab_s007_t000.edf";
                     "edf/train/normal/01_tcp_ar/aaaaaaab_s003_t000.edf";
                     "edf/train/normal/01_tcp_ar/aaaaaaaa_s001_t000.edf"] in
  let fs : files := fun file_path =>
    if String.eqb file_path "edf/train/normal/01_tcp_ar/aaaaaaab_s003_t000.edf"
    then None else Some example_header in
  exists descriptions datasets,
    _create_chronological_description example_info file_paths = Ok descriptions /\
    @TUH_init example_mne example_info fs file_paths
      (Ids [0; 2]) false = Ok datasets /\
    (t_description <$> datasets) `sublist_of` descriptions /\
    d_path <$> descriptions
    = ["edf/train/normal/01_tcp_ar/aaaaaaaa_s001_t000.edf";
       "edf/train/normal/01_tcp_ar/aaaaaaab_s003_t000.edf";
       "edf/train/normal/01_tcp_ar/aaaaaaab_s007_t000.edf"] /\
    @TUH_init example_mne example_info fs file_paths AllRecordings false
    = Raise OSError.
Proof.
  intros file_paths fs.
  assert (exists datasets,
            @TUH_init example_mne example_info fs file_paths
              (Ids [0; 2]) false = Ok datasets) as [datasets Hinit].
  { eexists.
    apply (proj1 (proj2 (@C5_subset_of_sorted_index example_mne example_info
                           fs file_paths [0; 2] false _) _ eq_refl)).
    split_and!; [done|by apply (bool_decide_unpack _)|].
    repeat (first [apply Forall2_nil_2
                  |apply Forall2_cons_2; [eexists; split; reflexivity|]]). }
  destruct (proj1 (@C5_subset_of_sorted_index example_mne example_info fs
                     file_paths [0; 2] false datasets) Hinit)
    as (descriptions & Hidx & _ & Hsub).
  exists descriptions, datasets. split_and!; [exact Hidx|exact Hinit| | |].
  - apply Hsub. repeat constructor.
  - vm_compute in Hidx. injection Hidx as <-. reflexivity.
  - reflexivity.
Defined.

(** ** Session reindexing (C1) *)

Section reindex_facts.

Lemma arange_lookup n i : (i < n)%nat -> arange n !! i = Some (Z.of_nat i).
Proof.
  intros Hi. unfold arange. rewrite list_lookup_fmap.
  by rewrite lookup_seq_lt.
Qed.

Lemma one_to_len_lookup x i :
  (i < length x)%nat -> one_to_len x !! i = Some (Z.of_nat i + 1).
Proof.
  intros Hi. unfold one_to_len. rewrite list_lookup_fmap.
  by rewrite arange_lookup.
Qed.

Lemma filter_take_lt (P : Recording -> Prop) `{!forall r, Decision (P r)}
    (l : list Recording) i r :
  l !! i = Some r -> P r ->
  (length (filter P (take i l)) < length (filter P l))%nat.
Proof.
  intros Hi Hr. rewrite <- (take_drop_middle l i r Hi) at 2.
  rewrite filter_app, filter_cons_True, length_app by done. cbn. lia.
Qed.

Lemma transform_one_to_len description :
  transform_sessions one_to_len description = session_numbers description.
Proof.
  unfold transform_sessions, session_numbers.
  apply imap_ext. intros i r Hi. cbn.
  rewrite one_to_len_lookup; [done|].
  rewrite length_fmap.
  by apply (filter_take_lt (fun r' => subject r' = subject r) description i r).
Qed.

Lemma session_numbers_snoc l r :
  session_numbers (l ++ [r]) =
  session_numbers l ++ [Z.of_nat (length (filter (same_subject r) l)) + 1].
Proof.
  unfold session_numbers. rewrite imap_app. f_equal.
  - apply imap_ext. intros i x Hi. cbn.
    apply lookup_lt_Some in Hi. by rewrite take_app_le by lia.
  - cbn. by rewrite Nat.add_0_r, take_app_length.
Qed.

Lemma session_numbers_length l : length (session_numbers l) = length l.
Proof. unfold session_numbers. by rewrite length_imap. Qed.

Lemma reset_sessions_snoc l r :
  reset_sessions (l ++ [r]) =
  reset_sessions l ++
  [set_session (Z.of_nat (length (filter (same_subject r) l)) + 1) r].
Proof.
  unfold reset_sessions. rewrite !transform_one_to_len, session_numbers_snoc.
  rewrite zip_with_app by apply session_numbers_length. done.
Qed.

Lemma seq_snoc_fmap (k : nat) :
  Z.of_nat <$> seq 1 (S k) = (Z.of_nat <$> seq 1 k) ++ [Z.of_nat k + 1].
Proof.
  rewrite seq_S, fmap_app. cbn. do 2 f_equal. lia.
Qed.

(** After the reindexing the sessions of a subject are 1, 2, ..., in the
    order of the rows. *)
Lemma reset_sessions_contiguous description s :
  session <$> filter (fun r => subject r = s) (reset_sessions description) =
  Z.of_nat <$> seq 1 (length (filter (fun r => subject r = s) description)).
Proof.
  induction description as [|r l IH] using rev_ind; [done|].
  rewrite reset_sessions_snoc, !filter_app, fmap_app, IH, length_app.
  destruct (decide (subject r = s)) as [Hs|Hs].
  - rewrite !filter_cons_True by done. cbn [length filter fmap list_fmap].
    rewrite Nat.add_1_r, seq_snoc_fmap. cbn. do 3 f_equal.
    unfold same_subject. subst s. done.
  - rewrite !filter_cons_False by done. cbn. by rewrite Nat.add_0_r, app_nil_r.
Qed.

(** The reindexing changes the sessions only. *)
Lemma reset_sessions_subject description :
  subject <$> reset_sessions description = subject <$> description.
Proof.
  induction description as [|r l IH] using rev_ind; [done|].
  by rewrite reset_sessions_snoc, !fmap_app, IH.
Qed.

Lemma reset_sessions_length description :
  length (reset_sessions description) = length description.
Proof.
  rewrite <- (length_fmap subject), reset_sessions_subject.
  by rewrite length_fmap.
Qed.

Lemma filter_subject_set_segment g s (l : list Recording) :
  filter (fun r => subject r = s) (set_segment g <$> l) =
  set_segment g <$> filter (fun r => subject r = s) l.
Proof.
  induction l as [|r l IH]; [done|]. rewrite fmap_cons.
  destruct (decide (subject r = s)) as [Hs|Hs].
  - rewrite !filter_cons_True by done. by rewrite fmap_cons, IH.
  - by rewrite !filter_cons_False.
Qed.

Lemma filter_take_mono (P : Recording -> Prop) `{!forall r, Decision (P r)}
    (l : list Recording) i j r :
  (i < j)%nat -> l !! i = Some r -> P r ->
  (length (filter P (take i l)) < length (filter P (take j l)))%nat.
Proof.
  intros Hij Hi Hr.
  replace (take i l) with (take i (take j l))
    by (rewrite take_take; f_equal; lia).
  apply (filter_take_lt P (take j l) i r); [|done].
  by rewrite lookup_take_lt.
Qed.

Lemma reset_sessions_lookup l i r :
  l !! i = Some r ->
  reset_sessions l !! i =
  Some (set_session
          (Z.of_nat (length (filter (same_subject r) (take i l))) + 1) r).
Proof.
  intros Hi. unfold reset_sessions. rewrite transform_one_to_len.
  apply lookup_zip_with_Some. eexists _, _. split_and!; [done| |done].
  unfold session_numbers. by rewrite list_lookup_imap, Hi.
Qed.

(** Along the rows, the sessions of a subject increase. *)
Lemma reset_sessions_increasing l i j r r' :
  (i < j)%nat ->
  reset_sessions l !! i = Some r -> reset_sessions l !! j = Some r' ->
  subject r = subject r' -> session r < session r'.
Proof.
  intros Hij Hi Hj Hs.
  destruct (l !! i) as [x|] eqn:Hx.
  2: { apply lookup_ge_None in Hx. apply lookup_lt_Some in Hi.
       rewrite reset_sessions_length in Hi. lia. }
  destruct (l !! j) as [y|] eqn:Hy.
  2: { apply lookup_ge_None in Hy. apply lookup_lt_Some in Hj.
       rewrite reset_sessions_length in Hj. lia. }
  rewrite (reset_sessions_lookup l i x Hx) in Hi.
  rewrite (reset_sessions_lookup l j y Hy) in Hj.
  injection Hi as <-. injection Hj as <-. cbn in Hs |- *.
  pose proof (filter_take_mono (same_subject x) l i j x Hij Hx eq_refl) as Hm.
  assert (filter (same_subject y) (take j l)
          = filter (same_subject x) (take j l)) as ->.
  { apply list_filter_iff. intros z. unfold same_subject. by rewrite Hs. }
  lia.
Qed.

End reindex_facts.

Section reindex_conversion.

Context `{Mne}.

Lemma subject_rows_length (f : BaseDataset -> Recording)
    (l : list BaseDataset) (s : nat) :
  (forall ds, subject (f ds) = subject (description ds)) ->
  length (filter (fun r => subject r = s) (f <$> l))
  = length (filter (fun ds => subject (description ds) = s) l).
Proof.
  intros Hf. induction l as [|ds l IH]; [done|]. rewrite fmap_cons.
  destruct (decide (subject (description ds) = s)) as [Hs|Hs].
  - rewrite !filter_cons_True by (by rewrite ?Hf). cbn. by rewrite IH.
  - by rewrite !filter_cons_False by (by rewrite ?Hf).
Qed.

(** The row of a dataset in the description the recordings are converted
    with, when the sessions are reindexed *)
Lemma converted_description_lookup (concat_ds : list BaseDataset)
    (csf : bool) rows i ds :
  converted_description concat_ds true csf = Ok rows ->
  concat_ds !! i = Some ds ->
  rows !! i =
  Some (set_session
          (Z.of_nat (length (filter (fun ds' => subject (description ds')
                                                = subject (description ds))
                                    (take i concat_ds))) + 1)
          (if csf then set_segment (RunStr "001") (description ds)
           else description ds)).
Proof.
  intros Hrows Hds. unfold converted_description in Hrows.
  destruct csf.
  - unfold collapse_split_files in Hrows.
    destruct (array_bool _) as [[]|]; cbn [bind] in Hrows; try done.
    injection Hrows as <-.
    rewrite (reset_sessions_lookup _ i
               (set_segment (RunStr "001") (description ds)))
      by (by rewrite !list_lookup_fmap, Hds).
    do 4 f_equal. rewrite <- list_fmap_compose, <- fmap_take.
    apply (subject_rows_length _ (take i concat_ds)
             (subject (description ds))). done.
  - cbn [bind] in Hrows. injection Hrows as <-.
    rewrite (reset_sessions_lookup _ i (description ds))
      by (by rewrite list_lookup_fmap, Hds).
    do 4 f_equal. rewrite <- fmap_take.
    apply (subject_rows_length _ (take i concat_ds)
             (subject (description ds))). done.
Qed.

End reindex_conversion.

Example reset_sessions_3_7 :
  let r s := {| path := "edf/train/normal/01_tcp_ar/aaaaaaab_s00x_t000.edf";
                version := "V3.0"; year := 2012; month := 3; day := 14;
                subject := 1; subject_orig := "aaaaaaab"; session := s;
                segment := RunStr "001"; age := 34; gender := "M";
                train := true; pathological := false |} in
  session <$> reset_sessions [r 3; r 7] = [1; 2].
Proof. reflexivity. Qed.

(** C1: with [reset_session_indices] the sessions of every subject are
    renumbered 1, 2, ..., k in the order of the index, k being the number
    of the recordings of the subject, whatever the sessions were before;
    this is the description the recordings are converted with. The
    recording at a place of the index keeps its place and all it holds but
    the session, and its session is its rank among the recordings of its
    subject up to that place, so that the sessions of a subject increase
    along the index. *)
Theorem C1_reset_sessions_contiguous `{Mne} (s : nat) :
  (forall description : list Recording,
     session <$> filter (fun r => subject r = s) (reset_sessions description) =
     Z.of_nat <$>
       seq 1 (length (filter (fun r => subject r = s) description))) /\
  (forall (concat_ds : list BaseDataset) (concat_split_files : bool) rows,
     converted_description concat_ds true concat_split_files = Ok rows ->
     session <$> filter (fun r => subject r = s) rows =
     Z.of_nat <$>
       seq 1 (length (filter (fun ds => subject (description ds) = s)
                             concat_ds))) /\
  (forall (description : list Recording) i r,
     description !! i = Some r ->
     reset_sessions description !! i =
     Some (set_session
             (Z.of_nat (length (filter (fun r' => subject r' = subject r)
                                       (take i description))) + 1) r)) /\
  (forall (description : list Recording) i j r r',
     (i < j)%nat ->
     reset_sessions description !! i = Some r ->
     reset_sessions description !! j = Some r' ->
     subject r = subject r' -> session r < session r') /\
  (forall (concat_ds : list BaseDataset) (concat_split_files : bool) rows
          i ds,
     converted_description concat_ds true concat_split_files = Ok rows ->
     length rows = length concat_ds /\
     (concat_ds !! i = Some ds ->
      rows !! i =
      Some (set_session
              (Z.of_nat (length (filter (fun ds' => subject (description ds')
                                                    = subject (description ds))
                                        (take i concat_ds))) + 1)
              (if concat_split_files
               then set_segment (RunStr "001") (description ds)
               else description ds)))).
Proof.
  split_and!; [intros description; apply reset_sessions_contiguous| | | |].
  - intros concat_ds csf rows. unfold converted_description.
    assert (length (filter (fun ds => subject (description ds) = s) concat_ds) =
            length (filter (fun r => subject r = s) (description <$> concat_ds)))
      as ->.
    { induction concat_ds as [|ds l IH]; [done|]. rewrite fmap_cons.
      destruct (decide (subject (description ds) = s)).
      - rewrite !filter_cons_True by done. cbn. by rewrite IH.
      - by rewrite !filter_cons_False. }
    destruct csf.
    + unfold collapse_split_files.
      destruct (array_bool _) as [[]|]; cbn [bind]; try done.
      intros [= <-]. rewrite reset_sessions_contiguous.
      by rewrite filter_subject_set_segment, length_fmap.
    + cbn [bind]. intros [= <-]. apply reset_sessions_contiguous.
  - intros description i r Hi. by apply reset_sessions_lookup.
  - intros description i j r r'. apply reset_sessions_increasing.
  - intros concat_ds csf rows i ds Hrows. split.
    + unfold converted_description in Hrows. destruct csf.
      * unfold collapse_split_files in Hrows.
        destruct (array_bool _) as [[]|]; cbn [bind] in Hrows; try done.
        injection Hrows as <-.
        by rewrite reset_sessions_length, !length_fmap.
      * cbn [bind] in Hrows. injection Hrows as <-.
        by rewrite reset_sessions_length, length_fmap.
    + by apply converted_description_lookup.
Qed.

Lemma C1_reset_sessions_contiguous_witness :
  let r p c o s := {| path := p; version := "V3.0";
                      year := 2012; month := 3; day := 14;
                      subject := c; subject_orig := o; session := s;
                      segment := RunInt 0; age := 34; gender := "M";
                      train := true; pathological := false |} in
  let first := r "edf/train/normal/01_tcp_ar/aaaaaaab_s003_t000.edf"
                 1%nat "aaaaaaab" 3 in
  let other := r "edf/train/normal/01_tcp_ar/aaaaaaaa_s005_t000.edf"
                 0%nat "aaaaaaaa" 5 in
  let second := r "edf/train/normal/01_tcp_ar/aaaaaaab_s007_t000.edf"
                  1%nat "aaaaaaab" 7 in
  let concat_ds : list (@BaseDataset example_mne) :=
    [@Build_BaseDataset example_mne example_raw first;
     @Build_BaseDataset example_mne example_raw other;
     @Build_BaseDataset example_mne example_raw second] in
  exists rows,
    @converted_description example_mne concat_ds true true = Ok rows /\
    session <$> filter (fun r => subject r = 1%nat) rows = [1; 2] /\
    rows !! 2%nat = Some (set_session 2 (set_segment (RunStr "001") second)).
Proof.
  intros r first other second concat_ds. eexists.
  split; [reflexivity|]. split.
  - exact (proj1 (proj2 (@C1_reset_sessions_contiguous example_mne 1%nat))
             concat_ds true _ eq_refl).
  - exact (proj2 (proj2 (proj2 (proj2 (proj2
                    (@C1_reset_sessions_contiguous example_mne 1%nat))))
                    concat_ds true _ 2%nat _ eq_refl) eq_refl).
Defined.

(** ** Split files (C2) *)

Section split_file_facts.

Lemma unique_from_elem_of {A} `{EqDecision A} (seen l : list A) x :
  x ∈ unique_from seen l <-> x ∈ l /\ x ∉ seen.
Proof.
  revert seen. induction l as [|y l IH]; intros seen; cbn [unique_from].
  - split; [by intros ?%elem_of_nil|by intros [?%elem_of_nil _]].
  - case_bool_decide as Hy.
    + rewrite IH, elem_of_cons. split; [tauto|].
      intros [[->|?] ?]; tauto.
    + rewrite !elem_of_cons, IH, elem_of_cons.
      destruct (decide (x = y)) as [->|]; tauto.
Qed.

Lemma unique_elem_of {A} `{EqDecision A} (l : list A) x :
  x ∈ unique l <-> x ∈ l.
Proof.
  unfold unique. rewrite unique_from_elem_of.
  split; [tauto|]. intros ?. split; [done|]. apply not_elem_of_nil.
Qed.

Lemma unique_from_all_seen {A} `{EqDecision A} (seen l : list A) :
  Forall (fun x => x ∈ seen) l -> unique_from seen l = [].
Proof.
  induction 1 as [|x l Hx _ IH]; [done|]. cbn [unique_from].
  by rewrite bool_decide_eq_true_2.
Qed.

(** A non-empty column that holds one value has that value as its only
    distinct value. *)
Lemma unique_constant {A} `{EqDecision A} (l : list A) x :
  l <> [] -> Forall (fun y => y = x) l -> unique l = [x].
Proof.
  destruct l as [|y l]; [done|]. intros _ [-> Hl]%Forall_cons.
  unfold unique. cbn [unique_from].
  rewrite bool_decide_eq_false_2 by apply not_elem_of_nil.
  f_equal. apply unique_from_all_seen.
  eapply Forall_impl; [exact Hl|]. intros ? ->. apply list_elem_of_here.
Qed.

Lemma group_keys_elem_of {A K} `{EqDecision K} (leb : K -> K -> bool)
    (key : A -> K) (rows : list A) k :
  k ∈ group_keys leb key rows <-> exists r, r ∈ rows /\ key r = k.
Proof.
  unfold group_keys. rewrite elem_of_remove_dups, stable_sort_perm.
  rewrite list_elem_of_fmap. split.
  - intros (r & -> & Hr). by exists r.
  - intros (r & Hr & <-). by exists r.
Qed.

Lemma n_segments_per_session_sizes description :
  n_segments_per_session description =
  group_size description <$>
    group_keys subject_session_leb (fun r => (subject r, session r)) description.
Proof.
  unfold n_segments_per_session, group_size.
  apply list_fmap_ext. intros _ k _. by rewrite length_fmap.
Qed.

(** When every (subject, session) pair has one recording, all segments
    become ['001']. *)
Lemma collapse_split_files_single description :
  description <> [] ->
  (forall r, r ∈ description ->
             group_size description (subject r, session r) = 1%nat) ->
  collapse_split_files description
  = Ok (set_segment (RunStr "001") <$> description).
Proof.
  intros Hne Hone. unfold collapse_split_files.
  rewrite n_segments_per_session_sizes.
  rewrite (unique_constant _ 1%nat); [done| |].
  - destruct description as [|r l]; [done|]. intros Hnil.
    apply fmap_nil_inv in Hnil.
    assert ((subject r, session r)
              ∈ group_keys subject_session_leb
                  (fun r => (subject r, session r)) (r :: l)) as Hin.
    { apply group_keys_elem_of. exists r. split; [apply list_elem_of_here|done]. }
    rewrite Hnil in Hin. by apply elem_of_nil in Hin.
  - apply Forall_fmap, Forall_forall. intros k (r & Hr & <-)%group_keys_elem_of.
    cbn. by apply Hone.
Qed.

(** When some (subject, session) pair has more than one recording, the
    description is refused. *)
Lemma collapse_split_files_refuses description r :
  r ∈ description ->
  (1 < group_size description (subject r, session r))%nat ->
  is_ok (collapse_split_files description) = false.
Proof.
  intros Hr Hsize. unfold collapse_split_files.
  rewrite n_segments_per_session_sizes.
  set (sizes := unique _).
  assert (group_size description (subject r, session r) ∈ sizes) as Hin.
  { apply unique_elem_of, list_elem_of_fmap. eexists. split; [done|].
    apply group_keys_elem_of. by exists r. }
  destruct sizes as [|n [|m sizes]]; [by apply elem_of_nil in Hin| |done].
  apply list_elem_of_singleton in Hin. subst n. cbn.
  destruct (Nat.eqb_spec (group_size description (subject r, session r)) 1);
    [lia|done].
Qed.

End split_file_facts.

Section split_file_outcomes.

(** When all (subject, session) pairs have the same number of recordings
    and more than one, the refusal is the [NotImplementedError]. *)
Lemma collapse_split_files_uniform description n :
  description <> [] -> n <> 1%nat ->
  (forall r, r ∈ description ->
             group_size description (subject r, session r) = n) ->
  collapse_split_files description
  = Raise (NotImplementedError
             "Concatenation of split files is not implemented yet.").
Proof.
  intros Hne Hn Hsize. unfold collapse_split_files.
  rewrite n_segments_per_session_sizes.
  rewrite (unique_constant _ n).
  - cbn. by destruct (Nat.eqb_spec n 1).
  - destruct description as [|r l]; [done|]. intros Hnil.
    apply fmap_nil_inv in Hnil.
    assert ((subject r, session r)
              ∈ group_keys subject_session_leb
                  (fun r => (subject r, session r)) (r :: l)) as Hin.
    { apply group_keys_elem_of. exists r. split; [apply list_elem_of_here|done]. }
    rewrite Hnil in Hin. by apply elem_of_nil in Hin.
  - apply Forall_fmap, Forall_forall. intros k (r & Hr & <-)%group_keys_elem_of.
    cbn. by apply Hsize.
Qed.

(** When two (subject, session) pairs have different numbers of
    recordings, the condition of the [if] has no truth value and the
    refusal is a [ValueError]. *)
Lemma collapse_split_files_mixed description r r' :
  r ∈ description -> r' ∈ description ->
  group_size description (subject r, session r)
  <> group_size description (subject r', session r') ->
  exists msg, collapse_split_files description = Raise (ValueError msg).
Proof.
  intros Hr Hr' Hne. unfold collapse_split_files.
  rewrite n_segments_per_session_sizes.
  set (sizes := unique _).
  assert (forall x, x ∈ description ->
            group_size description (subject x, session x) ∈ sizes) as Hin.
  { intros x Hx. apply unique_elem_of, list_elem_of_fmap. eexists.
    split; [done|]. apply group_keys_elem_of. by exists x. }
  pose proof (Hin r Hr) as H1. pose proof (Hin r' Hr') as H2.
  destruct sizes as [|n [|m sizes]].
  - by apply elem_of_nil in H1.
  - apply list_elem_of_singleton in H1, H2. congruence.
  - cbn. by eexists.
Qed.

End split_file_outcomes.

Section convert_split_files.

Context `{Mne}.

(** Nothing is written when the description is refused. *)
Lemma convert_refused_writes_nothing (concat_ds : list BaseDataset)
    bids_save_dir reset :
  is_ok (collapse_split_files (description <$> concat_ds)) = false ->
  exists e, convert_tuab_to_bids concat_ds bids_save_dir false reset true
            = ([], Raise e).
Proof.
  intros Hc. unfold convert_tuab_to_bids, converted_description.
  destruct (collapse_split_files _) as [|e] eqn:E; [done|]. exists e.
  cbn. by rewrite E.
Qed.

End convert_split_files.

(** ** The conversion loop (C3, C4) *)

Section loop_facts.

Context `{Mne}.

Lemma tbind_lift_ok {A B} (a : A) (k : A -> traced B) :
  tbind (lift (Ok a)) k = k a.
Proof. unfold tbind, lift. by destruct (k a). Qed.

Lemma tbind_lift_raise {A B} e (k : A -> traced B) :
  tbind (lift (Raise e)) k = ([], Raise e).
Proof. done. Qed.

(** A loop that ends well has run its body on every element. *)
Lemma tfor_each_ok {A B} (f : A -> traced B) l t ys :
  tfor_each f l = (t, Ok ys) ->
  exists ts, Forall3 (fun x tx y => f x = (tx, Ok y)) l ts ys /\ t = concat ts.
Proof.
  revert t ys. induction l as [|x l IH]; intros t ys; cbn [tfor_each].
  - intros [= <- <-]. exists []. split; [constructor|done].
  - destruct (f x) as [tx [y|e]] eqn:Hx; cbn [tbind]; [|done].
    destruct (tfor_each f l) as [tl [ys'|e]] eqn:Hl; cbn [tbind lift]; [|done].
    intros [= <- <-]. destruct (IH _ _ eq_refl) as (ts & Hts & ->).
    exists (tx :: ts). split; [by constructor|].
    cbn. by rewrite app_nil_r.
Qed.

(** A loop whose body raises ends there: what was written before stays,
    the elements after are not reached. *)
Lemma tfor_each_raise {A B} (f : A -> traced B) l1 x l2 ts ys tx e :
  Forall3 (fun x tx y => f x = (tx, Ok y)) l1 ts ys ->
  f x = (tx, Raise e) ->
  tfor_each f (l1 ++ x :: l2) = (concat ts ++ tx, Raise e).
Proof.
  intros Hl1 Hx. induction Hl1 as [|x1 t1 y1 l1 ts ys H1 _ IH]; cbn.
  - by rewrite Hx.
  - rewrite H1. cbn. rewrite IH. cbn. by rewrite app_assoc.
Qed.

(** One conversion writes one recording, at the end, or nothing. *)
Lemma _convert_ok ds dir desc t row :
  _convert_tuh_recording_to_bids ds dir (Some desc) = (t, Ok row) ->
  exists raw info,
    t = [WroteRecording (bids_path_of dir desc) raw 60 info] /\
    row = {| row_info := info; row_meas_date := info_meas_date raw;
             row_session := session desc |} /\
    participant_id info = mrn_of desc /\
    si_subject info = subject_orig desc /\
    reference_of_path (path desc) = Ok "".
Proof.
  unfold _convert_tuh_recording_to_bids.
  destruct (pick_types_eeg _) as [r1|]; [|done]. rewrite tbind_lift_ok.
  destruct (reference_of_path _) as [ref|] eqn:Href; [|done].
  rewrite tbind_lift_ok.
  destruct (rename_channels _ _) as [r2|]; [|done]. rewrite tbind_lift_ok.
  destruct (pick_channels _ _) as [r3|]; [|done]. rewrite tbind_lift_ok.
  destruct (set_montage _) as [r4|]; [|done]. rewrite tbind_lift_ok.
  destruct (first_of_month_minus_4_weeks _ _) as [b|]; [|done].
  rewrite tbind_lift_ok.
  destruct (SEX_TO_MNE _) as [sx|]; [|done]. rewrite tbind_lift_ok.
  destruct (check_bids_path _) as [[]|]; [|done]. rewrite tbind_lift_ok.
  destruct (write_raw_bids _ _ _ _) as [[]|]; [|done]. rewrite tbind_lift_ok.
  cbn. intros [= <- <-]. eexists _, _. split_and!; try done.
  unfold reference_of_path in Href |- *.
  destruct (Re.findall _ _) as [|tok [|]]; try done.
  repeat case_bool_decide; by simplify_eq.
Qed.

Lemma _convert_raise ds dir desc t e :
  _convert_tuh_recording_to_bids ds dir desc = (t, Raise e) -> t = [].
Proof.
  unfold _convert_tuh_recording_to_bids.
  destruct (pick_types_eeg _) as [r1|]; [|by intros [= <- _]].
  rewrite tbind_lift_ok.
  destruct (reference_of_path _) as [ref|]; [|by intros [= <- _]].
  rewrite tbind_lift_ok.
  destruct (rename_channels _ _) as [r2|]; [|by intros [= <- _]].
  rewrite tbind_lift_ok.
  destruct (pick_channels _ _) as [r3|]; [|by intros [= <- _]].
  rewrite tbind_lift_ok.
  destruct (set_montage _) as [r4|]; [|by intros [= <- _]].
  rewrite tbind_lift_ok.
  destruct (first_of_month_minus_4_weeks _ _) as [b|]; [|by intros [= <- _]].
  rewrite tbind_lift_ok.
  destruct (SEX_TO_MNE _) as [sx|]; [|by intros [= <- _]].
  rewrite tbind_lift_ok.
  destruct (check_bids_path _) as [[]|]; [|by intros [= <- _]].
  rewrite tbind_lift_ok.
  destruct (write_raw_bids _ _ _ _) as [[]|]; [|by intros [= <- _]].
  rewrite tbind_lift_ok. done.
Qed.

(** A path whose reference is not known makes the conversion raise. *)
Lemma _convert_unknown_reference ds dir desc e :
  reference_of_path (path desc) = Raise e ->
  exists e', _convert_tuh_recording_to_bids ds dir (Some desc) = ([], Raise e').
Proof.
  intros Href. unfold _convert_tuh_recording_to_bids.
  destruct (pick_types_eeg _) as [r1|e1]; [|by exists e1].
  rewrite tbind_lift_ok. cbv zeta. rewrite Href. by exists e.
Qed.

End loop_facts.

Section convert_facts.

Context `{Mne}.

Lemma reset_sessions_fmap {B} (p : Recording -> B) description :
  (forall s r, p (set_session s r) = p r) ->
  p <$> reset_sessions description = p <$> description.
Proof.
  intros Hp. induction description as [|r l IH] using rev_ind; [done|].
  rewrite reset_sessions_snoc, !fmap_app, IH. cbn. by rewrite Hp.
Qed.

(** The description the recordings are converted with keeps the paths, the
    subjects and the number of the rows. *)
Lemma converted_description_keeps {B} (p : Recording -> B)
    (concat_ds : list BaseDataset) reset csf rows :
  (forall s r, p (set_session s r) = p r) ->
  (forall g r, p (set_segment g r) = p r) ->
  converted_description concat_ds reset csf = Ok rows ->
  p <$> rows = p <$> (description <$> concat_ds).
Proof.
  intros Hs Hg. unfold converted_description.
  assert (forall l, p <$> (if reset then reset_sessions l else l) = p <$> l)
    as Hreset.
  { intros l. destruct reset; [|done]. by apply reset_sessions_fmap. }
  destruct csf; cbn [bind].
  - unfold collapse_split_files.
    destruct (array_bool _) as [[]|]; cbn [bind]; try done.
    intros [= <-]. rewrite Hreset, <- list_fmap_compose.
    apply list_fmap_ext. intros _ r _. apply Hg.
  - intros [= <-]. apply Hreset.
Qed.

Lemma converted_description_length (concat_ds : list BaseDataset) reset csf
    rows :
  converted_description concat_ds reset csf = Ok rows ->
  length rows = length concat_ds.
Proof.
  intros Hrows%(converted_description_keeps path); [|done..].
  apply (f_equal length) in Hrows. by rewrite !length_fmap in Hrows.
Qed.

(** The assertion of the loop holds on every row. *)
Lemma convert_row_convert (concat_ds : list BaseDataset) reset csf rows dir
    ds desc :
  converted_description concat_ds reset csf = Ok rows ->
  (ds, desc) ∈ zip concat_ds rows ->
  convert_row dir (ds, desc)
  = _convert_tuh_recording_to_bids ds dir (Some desc).
Proof.
  intros Hrows%(converted_description_keeps path); [|done..].
  intros (i & Hi)%list_elem_of_lookup_1.
  apply lookup_zip_with_Some in Hi as (ds' & desc' & [= <- <-] & Hds & Hdesc).
  assert (path (description ds) = path desc) as Hpath.
  { apply (f_equal (fun l => l !! i)) in Hrows.
    rewrite !list_lookup_fmap, Hds, Hdesc in Hrows. by injection Hrows. }
  unfold convert_row. rewrite bool_decide_eq_true_2 by done.
  by rewrite tbind_lift_ok.
Qed.

Lemma convert_rows_ok (concat_ds : list BaseDataset) reset csf rows dir l
    ts summary :
  converted_description concat_ds reset csf = Ok rows ->
  l ⊆ zip concat_ds rows ->
  Forall3 (fun p tx row => convert_row dir p = (tx, Ok row)) l ts summary ->
  exists writes,
    concat ts = writes /\ Forall3 (wrote_row dir) (l.*2) writes summary.
Proof.
  intros Hrows Hl Hloop.
  induction Hloop as [|[ds desc] tx row l ts summary Hp _ IH].
  - exists []. split; [done|constructor].
  - destruct IH as (writes & Hts & Hw).
    { intros p Hp'. apply Hl. by apply list_elem_of_further. }
    rewrite (convert_row_convert concat_ds reset csf rows) in Hp;
      [|done|apply Hl, list_elem_of_here].
    apply _convert_ok in Hp as (raw & info & -> & -> & ? & ? & _).
    exists (WroteRecording (bids_path_of dir desc) raw 60 info :: writes).
    split; [by rewrite <- Hts|]. constructor; [|done]. by exists raw.
Qed.

(** A conversion of the corpus that ends well has written every
    recording, then the table with one row for each. *)
Lemma convert_tuab_to_bids_ok (concat_ds : list BaseDataset) dir reset csf
    trace :
  convert_tuab_to_bids concat_ds dir false reset csf = (trace, Ok tt) ->
  exists rows writes summary,
    converted_description concat_ds reset csf = Ok rows /\
    trace = writes ++
            [WroteTable (dir +:+ "/participants_extra.csv") summary] /\
    Forall3 (wrote_row dir) rows writes summary.
Proof.
  unfold convert_tuab_to_bids. rewrite tbind_lift_ok.
  destruct (converted_description _ _ _) as [rows|] eqn:Hrows; [|done].
  rewrite tbind_lift_ok.
  destruct (tfor_each _ _) as [t [summary|]] eqn:Hloop; [|done].
  cbn [tbind emit]. intros [= <-].
  apply tfor_each_ok in Hloop as (ts & Hloop & ->).
  destruct (convert_rows_ok _ _ _ _ dir _ _ _ Hrows (reflexivity _) Hloop)
    as (writes & -> & Hw).
  rewrite snd_zip in Hw
    by (by rewrite (converted_description_length _ _ _ _ Hrows)).
  by exists rows, writes, summary.
Qed.

Lemma convert_row_writes dir p tx r :
  convert_row dir p = (tx, r) -> Forall is_recording_write tx.
Proof.
  destruct p as [ds desc]. unfold convert_row.
  case_bool_decide; [|by intros [= <- _]].
  rewrite tbind_lift_ok. destruct r as [row|e].
  - intros Htx. apply _convert_ok in Htx as (raw & info & Htx & _).
    subst tx. by repeat constructor.
  - intros Htx. apply _convert_raise in Htx. by subst tx.
Qed.

Lemma convert_loop_writes dir l t r :
  tfor_each (convert_row dir) l = (t, r) -> Forall is_recording_write t.
Proof.
  revert t r. induction l as [|p l IH]; intros t r; cbn [tfor_each].
  - by intros [= <- _].
  - destruct (convert_row dir p) as [tx [row|e1]] eqn:Hrow; cbn [tbind].
    + destruct (tfor_each _ l) as [tl [ys|e2]] eqn:Hl; cbn [tbind lift];
        intros [= <- _]; rewrite ?app_nil_r; apply Forall_app;
        eauto using convert_row_writes.
    + intros [= <- _]. eauto using convert_row_writes.
Qed.

(** A conversion of the corpus that raises has written no table. *)
Lemma convert_tuab_to_bids_raise (concat_ds : list BaseDataset) dir healthy
    reset csf trace e :
  convert_tuab_to_bids concat_ds dir healthy reset csf = (trace, Raise e) ->
  Forall is_recording_write trace.
Proof.
  unfold convert_tuab_to_bids.
  destruct (if healthy then _ else _) as [ds'|]; [|by intros [= <- _]].
  rewrite tbind_lift_ok.
  destruct (converted_description _ _ _) as [rows|] eqn:Hrows;
    [|by intros [= <- _]].
  rewrite tbind_lift_ok.
  destruct (tfor_each _ _) as [t [summary|]] eqn:Hloop; [done|].
  cbn [tbind]. intros [= <- _]. eauto using convert_loop_writes.
Qed.

End convert_facts.

Section failure_facts.

Context `{Mne}.

Lemma all_ok_Forall3 {A B} (f : A -> traced B) l :
  (forall x, x ∈ l -> is_ok (f x).2 = true) ->
  exists ts ys, Forall3 (fun x tx y => f x = (tx, Ok y)) l ts ys.
Proof.
  induction l as [|x l IH]; intros Hok.
  - exists [], []. constructor.
  - destruct IH as (ts & ys & IH).
    { intros y Hy. apply Hok. by apply list_elem_of_further. }
    specialize (Hok x (list_elem_of_here _ _)).
    destruct (f x) as [tx [y|e]] eqn:Hx; [|done].
    exists (tx :: ts), (y :: ys). by constructor.
Qed.

Lemma Forall3_wrote_row_writes dir rows writes summary :
  Forall3 (wrote_row dir) rows writes summary ->
  Forall2 (fun desc ev =>
             exists raw info,
               ev = WroteRecording (bids_path_of dir desc) raw 60 info)
          rows writes /\
  length summary = length rows.
Proof.
  induction 1 as [|desc ev row rows writes summary (raw & -> & _) _ [IH1 IH2]].
  - split; [constructor|done].
  - split; [constructor; eauto|]. cbn. by rewrite IH2.
Qed.

(** The conversion of the corpus ends at the first recording whose
    conversion raises. *)
Lemma convert_tuab_to_bids_first_failure (concat_ds : list BaseDataset) dir
    reset csf rows i ds desc e :
  converted_description concat_ds reset csf = Ok rows ->
  concat_ds !! i = Some ds -> rows !! i = Some desc ->
  (forall j ds' desc', (j < i)%nat ->
     concat_ds !! j = Some ds' -> rows !! j = Some desc' ->
     is_ok (_convert_tuh_recording_to_bids ds' dir (Some desc')).2 = true) ->
  (_convert_tuh_recording_to_bids ds dir (Some desc)).2 = Raise e ->
  exists writes,
    convert_tuab_to_bids concat_ds dir false reset csf = (writes, Raise e) /\
    Forall2 (fun desc ev =>
               exists raw info,
                 ev = WroteRecording (bids_path_of dir desc) raw 60 info)
            (take i rows) writes.
Proof.
  intros Hrows Hds Hdesc Hbefore Hfail.
  set (l := zip concat_ds rows).
  assert (l !! i = Some (ds, desc)) as Hi.
  { unfold l. apply lookup_zip_with_Some. by exists ds, desc. }
  pose proof (subseteq_take i l) as Hsub.
  destruct (all_ok_Forall3 (convert_row dir) (take i l)) as (ts & ys & Hok).
  { intros [ds' desc'] Hp.
    rewrite (convert_row_convert concat_ds reset csf rows) by auto.
    apply list_elem_of_lookup_1 in Hp as (j & Hj).
    apply lookup_take_Some in Hj as [Hj Hlt].
    apply lookup_zip_with_Some in Hj as (? & ? & [= <- <-] & ? & ?).
    by eapply Hbefore. }
  assert (convert_row dir (ds, desc) = ([], Raise e)) as Hrow.
  { rewrite (convert_row_convert concat_ds reset csf rows);
      [|done|by eapply list_elem_of_lookup_2].
    destruct (_convert_tuh_recording_to_bids ds dir (Some desc))
      as [tx r] eqn:E. cbn in Hfail. subst r.
    by rewrite (_convert_raise _ _ _ _ _ E). }
  destruct (convert_rows_ok _ _ _ _ dir _ _ _ Hrows Hsub Hok)
    as (writes & Hts & Hw).
  exists writes. split.
  - unfold convert_tuab_to_bids. rewrite tbind_lift_ok, Hrows, tbind_lift_ok.
    fold l. rewrite <- (take_drop_middle l i _ Hi).
    rewrite (tfor_each_raise _ _ _ _ _ _ _ _ Hok Hrow).
    cbn [tbind]. by rewrite Hts, app_nil_r.
  - apply Forall3_wrote_row_writes in Hw as [Hw _].
    unfold l in Hw. rewrite fmap_take, snd_zip in Hw; [done|].
    by rewrite (converted_description_length _ _ _ _ Hrows).
Qed.

End failure_facts.

(** C2: with groups of two sizes the refusal is not the
    [NotImplementedError] of the branch: [unique()] gives the sizes
    [[2, 1]], whose comparison with [[1]] has no truth value, and the [if]
    itself raises a [ValueError]. Nothing is converted. *)
Theorem C2_mixed_group_sizes_raise_ValueError :
  let concat_ds :=
    [example_recording "edf/train/normal/01_tcp_ar/aaaaaaaa_s001_t000.edf"
       0 "aaaaaaaa" 1 0;
     example_recording "edf/train/normal/01_tcp_ar/aaaaaaaa_s001_t001.edf"
       0 "aaaaaaaa" 1 1;
     example_recording "edf/train/normal/01_tcp_ar/aaaaaaab_s001_t000.edf"
       1 "aaaaaaab" 1 0] in
  unique (n_segments_per_session (description <$> concat_ds)) = [2; 1]%nat /\
  @convert_tuab_to_bids example_mne concat_ds "bids" false true true =
  ([], Raise (ValueError
     "The truth value of an array with more than one element is ambiguous. Use a.any() or a.all()")).
Proof. split; reflexivity. Qed.

(** With one size of group the two branches of the code are reached. *)
Example uniform_group_sizes_not_implemented :
  @convert_tuab_to_bids example_mne
    [example_recording "edf/train/normal/01_tcp_ar/aaaaaaaa_s001_t000.edf"
       0 "aaaaaaaa" 1 0;
     example_recording "edf/train/normal/01_tcp_ar/aaaaaaaa_s001_t001.edf"
       0 "aaaaaaaa" 1 1] "bids" false true true =
  ([], Raise (NotImplementedError
                "Concatenation of split files is not implemented yet.")).
Proof. reflexivity. Qed.

(** C3, as stated: the recording with the reference [xx] ends the
    conversion of the corpus with its [ValueError]; the recording after
    it, which converts on its own, is not written, and no summary table
    is written at all. *)
Lemma C3_unknown_reference_ends_conversion :
  let first :=
    example_recording "edf/train/normal/01_tcp_ar/aaaaaaaa_s001_t000.edf"
      0 "aaaaaaaa" 1 0 in
  let second :=
    example_recording "edf/train/normal/04_tcp_xx_a/aaaaaaab_s001_t000.edf"
      1 "aaaaaaab" 1 0 in
  let third :=
    example_recording "edf/train/normal/01_tcp_ar/aaaaaaac_s001_t000.edf"
      2 "aaaaaaac" 1 0 in
  is_ok (@convert_tuab_to_bids example_mne [third] "bids" false true true).2
    = true /\
  exists written,
    @convert_tuab_to_bids example_mne [first; second; third] "bids"
      false true true =
    ([written],
     Raise (ValueError "Unknown reference found in file name: xx.")) /\
    is_recording_write written.
Proof. split; [reflexivity|]. eexists. split; [reflexivity|exact I]. Qed.

(** C3, amended: a failure in the conversion of one recording is not
    caught. When the conversion of the recording at place [i] raises and
    those before it succeed, the conversion of the corpus raises the same
    exception: the recordings before place [i] have been written, the
    others have not, and no summary table is written. A path whose
    reference token is not known makes the conversion of its recording
    raise. When the conversion of the corpus ends well, every recording
    has been written and the table has one row for each. *)
Theorem C3_failure_ends_conversion `{Mne} (concat_ds : list BaseDataset)
    (dir : string) (reset csf : bool) (rows : list Recording) :
  converted_description concat_ds reset csf = Ok rows ->
  (forall i ds desc e,
     concat_ds !! i = Some ds -> rows !! i = Some desc ->
     (forall j ds' desc', (j < i)%nat ->
        concat_ds !! j = Some ds' -> rows !! j = Some desc' ->
        is_ok (_convert_tuh_recording_to_bids ds' dir (Some desc')).2 = true) ->
     (_convert_tuh_recording_to_bids ds dir (Some desc)).2 = Raise e ->
     exists writes,
       convert_tuab_to_bids concat_ds dir false reset csf
       = (writes, Raise e) /\
       Forall2 (fun desc ev =>
                  exists raw info,
                    ev = WroteRecording (bids_path_of dir desc) raw 60 info)
               (take i rows) writes) /\
  (forall ds desc e,
     reference_of_path (path desc) = Raise e ->
     exists e',
       _convert_tuh_recording_to_bids ds dir (Some desc) = ([], Raise e')) /\
  (forall trace,
     convert_tuab_to_bids concat_ds dir false reset csf = (trace, Ok tt) ->
     exists writes summary,
       trace = writes ++
               [WroteTable (dir +:+ "/participants_extra.csv") summary] /\
       Forall is_recording_write writes /\
       length writes = length concat_ds /\
       length summary = length concat_ds).
Proof.
  intros Hrows. split_and!.
  - intros i ds desc e. by apply convert_tuab_to_bids_first_failure.
  - intros ds desc e. apply _convert_unknown_reference.
  - intros trace Hok.
    apply convert_tuab_to_bids_ok in Hok as (rows' & writes & summary & Hr & -> & Hw).
    rewrite Hrows in Hr. injection Hr as <-.
    exists writes, summary. split; [done|].
    pose proof (converted_description_length _ _ _ _ Hrows) as Hlen.
    apply Forall3_wrote_row_writes in Hw as [Hw Hs].
    split_and!.
    + clear -Hw. induction Hw as [|desc ev ?? (raw & info & ->) _ IH];
        constructor; done.
    + rewrite <- Hlen. symmetry. by eapply Forall2_length.
    + by rewrite Hs.
Qed.

Lemma C3_failure_ends_conversion_witness :
  let first :=
    example_recording "edf/train/normal/01_tcp_ar/aaaaaaaa_s001_t000.edf"
      0 "aaaaaaaa" 1 0 in
  let second :=
    example_recording "edf/train/normal/04_tcp_xx_a/aaaaaaab_s001_t000.edf"
      1 "aaaaaaab" 1 0 in
  let third :=
    example_recording "edf/train/normal/01_tcp_ar/aaaaaaac_s001_t000.edf"
      2 "aaaaaaac" 1 0 in
  (exists writes,
     @convert_tuab_to_bids example_mne [first; second; third] "bids"
       false true true =
     (writes, Raise (ValueError "Unknown reference found in file name: xx.")) /\
     length writes = 1%nat) /\
  (exists writes summary,
     @convert_tuab_to_bids example_mne [first; third] "bids" false true true =
     (writes ++ [WroteTable "bids/participants_extra.csv" summary], Ok tt) /\
     length writes = 2%nat /\ length summary = 2%nat).
Proof.
  intros first second third. split.
  - destruct (@C3_failure_ends_conversion example_mne [first; second; third]
                "bids" true true _ eq_refl) as (Hfail & _ & _).
    destruct (Hfail 1%nat second _
                (ValueError "Unknown reference found in file name: xx.")
                eq_refl eq_refl) as (writes & Hrun & Hw).
    + intros [|j] ds' desc' Hj Hds Hdesc; [|lia].
      injection Hds as <-. injection Hdesc as <-. reflexivity.
    + reflexivity.
    + exists writes. split; [exact Hrun|].
      apply Forall2_length in Hw. rewrite <- Hw. reflexivity.
  - destruct (@C3_failure_ends_conversion example_mne [first; third]
                "bids" true true _ eq_refl) as (_ & _ & Hok).
    destruct (Hok _ eq_refl) as (writes & summary & Htrace & _ & Hw & Hs).
    exists writes, summary. split_and!; [|exact Hw|exact Hs].
    change (@convert_tuab_to_bids example_mne [first; third] "bids"
              false true true)
      with (fst (@convert_tuab_to_bids example_mne [first; third] "bids"
                   false true true), @Ok unit tt).
    f_equal. exact Htrace.
Defined.

(** C4, as stated: two recordings of one subject with the sessions 3 and 7
    are converted with reindexing; the rows of the summary table hold the
    sessions 1 and 2, not 3 and 7. *)
Lemma C4_summary_holds_reindexed_session :
  let concat_ds :=
    [example_recording "edf/train/normal/01_tcp_ar/aaaaaaab_s003_t000.edf"
       0 "aaaaaaab" 3 0;
     example_recording "edf/train/normal/01_tcp_ar/aaaaaaab_s007_t000.edf"
       0 "aaaaaaab" 7 0] in
  session <$> (description <$> concat_ds) = [3; 7] /\
  exists writes summary,
    @convert_tuab_to_bids example_mne concat_ds "bids" false true true =
    (writes ++ [WroteTable "bids/participants_extra.csv" summary], Ok tt) /\
    row_session <$> summary = [1; 2].
Proof.
  split; [reflexivity|]. eexists [_; _], _. split; reflexivity.
Qed.

(** C4, amended: the row of the summary table of a converted recording
    holds the identity fields, the measurement date and the session the
    recording was converted with, which is the session of its output
    path: with session reindexing this is the reindexed session (1, 2,
    ... for each subject), and the session of the file name only without
    reindexing. The raw subject id is kept in the row. *)
Theorem C4_summary_row_session `{Mne} (concat_ds : list BaseDataset)
    (dir : string) (reset csf : bool) (trace : list Event) :
  convert_tuab_to_bids concat_ds dir false reset csf = (trace, Ok tt) ->
  exists rows writes summary,
    converted_description concat_ds reset csf = Ok rows /\
    trace = writes ++
            [WroteTable (dir +:+ "/participants_extra.csv") summary] /\
    Forall3 (fun desc ev row =>
               exists raw,
                 ev = WroteRecording (bids_path_of dir desc) raw 60
                        (row_info row) /\
                 row_meas_date row = info_meas_date raw /\
                 row_session row = session desc /\
                 bp_session (bids_path_of dir desc)
                 = Py.zfill (pretty (row_session row)) 3 /\
                 si_subject (row_info row) = subject_orig desc)
            rows writes summary /\
    subject_orig <$> rows = subject_orig <$> (description <$> concat_ds) /\
    (reset = true -> forall s,
       session <$> filter (fun r => subject r = s) rows =
       Z.of_nat <$>
         seq 1 (length (filter (fun r => subject r = s)
                               (description <$> concat_ds)))) /\
    (reset = false ->
       session <$> rows = session <$> (description <$> concat_ds)).
Proof.
  intros (rows & writes & summary & Hrows & -> & Hw)%convert_tuab_to_bids_ok.
  exists rows, writes, summary. split_and!; [done|done|..].
  - eapply Forall3_impl; [exact Hw|].
    intros desc ev row (raw & -> & ? & Hs & _ & ?). exists raw.
    split_and!; try done. cbn. unfold session_nb_of. by rewrite Hs.
  - by apply (converted_description_keeps subject_orig) in Hrows.
  - intros -> s. revert Hrows. unfold converted_description.
    destruct csf; cbn [bind].
    + unfold collapse_split_files.
      destruct (array_bool _) as [[]|]; cbn [bind]; try done.
      intros [= <-]. rewrite reset_sessions_contiguous.
      by rewrite filter_subject_set_segment, length_fmap.
    + intros [= <-]. apply reset_sessions_contiguous.
  - intros ->. revert Hrows. unfold converted_description.
    destruct csf; cbn [bind]; [|by intros [= <-]].
    unfold collapse_split_files.
    destruct (array_bool _) as [[]|]; cbn [bind]; try done.
    intros [= <-]. rewrite <- list_fmap_compose. by apply list_fmap_ext.
Qed.

Lemma C4_summary_row_session_witness :
  let concat_ds :=
    [example_recording "edf/train/normal/01_tcp_ar/aaaaaaab_s003_t000.edf"
       0 "aaaaaaab" 3 0;
     example_recording "edf/train/normal/01_tcp_ar/aaaaaaab_s007_t000.edf"
       0 "aaaaaaab" 7 0] in
  (exists rows,
     @converted_description example_mne concat_ds true true = Ok rows /\
     session <$> filter (fun r => subject r = 0%nat) rows = [1; 2]) /\
  (exists rows,
     @converted_description example_mne concat_ds false true = Ok rows /\
     session <$> rows = [3; 7]).
Proof.
  intros concat_ds. split.
  - destruct (@C4_summary_row_session example_mne concat_ds "bids" true true
                _ eq_refl)
      as (rows & writes & summary & Hrows & _ & _ & _ & Hreset & _).
    exists rows. split; [exact Hrows|]. exact (Hreset eq_refl 0%nat).
  - destruct (@C4_summary_row_session example_mne concat_ds "bids" false true
                _ eq_refl)
      as (rows & writes & summary & Hrows & _ & _ & _ & _ & Hkeep).
    exists rows. split; [exact Hrows|]. exact (Hkeep eq_refl).
Defined.

(** ** Participant and session labels (C9) *)

Section label_facts.

Lemma pretty_N_char_value x :
  (x < 10)%N -> N.of_nat (Py.code (pretty_N_char x) - 48) = x.
Proof.
  intros Hx.
  assert (x = 0 \/ x = 1 \/ x = 2 \/ x = 3 \/ x = 4 \/ x = 5 \/ x = 6 \/
          x = 7 \/ x = 8 \/ x = 9)%N as Hc by lia.
  repeat (destruct Hc as [->|Hc]; [reflexivity|]). by subst.
Qed.

Lemma pretty_N_char_unsigned x s : starts_unsigned (String (pretty_N_char x) s).
Proof. unfold pretty_N_char. by repeat case_match. Qed.

Lemma pretty_N_go_value x s :
  exists k, forall acc,
    digits_value acc (pretty_N_go x s) = digits_value (acc * 10 ^ k + x) s.
Proof.
  revert s. induction (N.lt_wf_0 x) as [x _ IH]. intros s.
  destruct (decide (x = 0)%N) as [->|Hx].
  - exists 0%N. intros acc. rewrite pretty_N_go_0. f_equal. lia.
  - rewrite pretty_N_go_step by lia.
    destruct (IH (x `div` 10)%N) with (s := String (pretty_N_char (x `mod` 10)) s)
      as [k Hk]; [apply N.div_lt; lia|].
    exists (k + 1)%N. intros acc. rewrite Hk. cbn [digits_value].
    rewrite pretty_N_char_value by (apply N.mod_lt; lia). f_equal.
    rewrite N.pow_add_r, N.pow_1_r.
    pose proof (N.div_mod x 10 ltac:(lia)) as Hdm.
    set (q := (x `div` 10)%N) in *. set (r := (x `mod` 10)%N) in *.
    set (p := (10 ^ k)%N). clearbody q r p. subst x. ring.
Qed.

Lemma pretty_N_go_unsigned x s :
  (0 < x)%N -> starts_unsigned (pretty_N_go x s).
Proof.
  revert s. induction (N.lt_wf_0 x) as [x _ IH]. intros s Hx.
  rewrite pretty_N_go_step by done.
  destruct (decide (x `div` 10 = 0)%N) as [->|Hd].
  - rewrite pretty_N_go_0. apply pretty_N_char_unsigned.
  - apply IH; [apply N.div_lt; lia|]. by apply N.neq_0_lt_0.
Qed.

Lemma pretty_N_value (x : N) : digits_value 0 (pretty x) = x.
Proof.
  unfold pretty, pretty_N. case_decide as Hx; [by subst|].
  destruct (pretty_N_go_value x "") as [k ->]. cbn. lia.
Qed.

Lemma pretty_N_unsigned (x : N) : starts_unsigned (pretty x).
Proof.
  unfold pretty, pretty_N. case_decide as Hx; [done|].
  apply pretty_N_go_unsigned. lia.
Qed.

Lemma digits_value_zeros k s :
  digits_value 0 (Py.zeros k +:+ s) = digits_value 0 s.
Proof. induction k as [|k IH]; [done|]. exact IH. Qed.

Lemma zeros_append_unsigned k s :
  starts_unsigned s -> starts_unsigned (Py.zeros k +:+ s).
Proof. by destruct k. Qed.

Lemma signed_value_unsigned s :
  starts_unsigned s -> signed_value s = Z.of_N (digits_value 0 s).
Proof.
  destruct s as [|c t]; [done|]. cbn [starts_unsigned signed_value].
  intros [_ ->]%orb_false_elim. done.
Qed.

Lemma zfill_unsigned s w :
  starts_unsigned s -> Py.zfill s w = Py.zeros (w - String.length s) +:+ s.
Proof.
  destruct s as [|c t]; [done|]. cbn [starts_unsigned]. unfold Py.zfill.
  by intros ->.
Qed.

Lemma zfill_signed s w :
  Py.zfill (String "-" s) w
  = String "-" (Py.zeros (w - S (String.length s)) +:+ s).
Proof. reflexivity. Qed.

Lemma signed_value_neg s :
  signed_value (String "-" s) = - Z.of_N (digits_value 0 s).
Proof. reflexivity. Qed.

(** A padded decimal numeral still reads as the number it was made of. *)
Lemma zfill_pretty_N_value (x : N) w :
  signed_value (Py.zfill (pretty x) w) = Z.of_N x.
Proof.
  pose proof (pretty_N_unsigned x) as Hu.
  rewrite (zfill_unsigned _ w Hu).
  rewrite signed_value_unsigned by by apply zeros_append_unsigned.
  by rewrite digits_value_zeros, pretty_N_value.
Qed.

Lemma zfill_pretty_Z_value (z : Z) w :
  signed_value (Py.zfill (pretty z) w) = z.
Proof.
  destruct z as [|p|p].
  - reflexivity || apply (zfill_pretty_N_value 0 w).
  - apply (zfill_pretty_N_value (N.pos p) w).
  - change (pretty (Z.neg p)) with (String "-" (pretty (N.pos p))).
    rewrite zfill_signed by done. rewrite signed_value_neg.
    by rewrite digits_value_zeros, pretty_N_value.
Qed.

Lemma mrn_inj (n m : nat) w :
  Py.zfill (pretty n) w = Py.zfill (pretty m) w -> n = m.
Proof.
  intros E. apply (f_equal signed_value) in E.
  unfold pretty, pretty_nat in E. rewrite !zfill_pretty_N_value in E. lia.
Qed.

Lemma session_nb_inj (a b : Z) w :
  Py.zfill (pretty a) w = Py.zfill (pretty b) w -> a = b.
Proof.
  intros E. apply (f_equal signed_value) in E.
  by rewrite !zfill_pretty_Z_value in E.
Qed.

End label_facts.

Section canonical_facts.

Lemma index_of_inj (a b : string) l :
  a ∈ l -> b ∈ l -> index_of a l = index_of b l -> a = b.
Proof.
  induction l as [|x l IH]; [by intros ?%elem_of_nil|].
  intros Ha Hb. cbn [index_of].
  case_bool_decide as Hxa; case_bool_decide as Hxb; try done; [congruence|].
  intros [= E]. apply IH; [| |done].
  - by apply elem_of_cons in Ha as [?|?]; [congruence|].
  - by apply elem_of_cons in Hb as [?|?]; [congruence|].
Qed.

Lemma categories_elem_of v values : v ∈ categories values <-> v ∈ values.
Proof. unfold categories. by rewrite elem_of_remove_dups, stable_sort_perm. Qed.

(** Distinct values get distinct category codes. *)
Lemma cat_codes_inj values i j a b n :
  values !! i = Some a -> values !! j = Some b ->
  cat_codes values !! i = Some n -> cat_codes values !! j = Some n ->
  a = b.
Proof.
  unfold cat_codes. rewrite !list_lookup_fmap. intros Hi Hj.
  rewrite Hi, Hj. cbn. intros [= <-] [= E].
  apply (index_of_inj a b (categories values)); [..|done];
    apply categories_elem_of; by eapply list_elem_of_lookup_2.
Qed.

End canonical_facts.

Section path_facts.

Context `{Mne}.

(** In the canonical datasets the subject code tells the raw subject. *)
Lemma canonical_datasets_subject (concat_ds : list TUHAbnormalDataset) i j a b :
  canonical_datasets concat_ds !! i = Some a ->
  canonical_datasets concat_ds !! j = Some b ->
  subject (description a) = subject (description b) ->
  subject_orig (description a) = subject_orig (description b).
Proof.
  unfold canonical_datasets.
  intros (da & ca & -> & Hda & Hca)%lookup_zip_with_Some.
  intros (db & cb & -> & Hdb & Hcb)%lookup_zip_with_Some.
  cbn. intros <-.
  apply (cat_codes_inj (raw_subject <$> concat_ds) i j _ _ ca); try done.
  - by rewrite list_lookup_fmap, Hda.
  - by rewrite list_lookup_fmap, Hdb.
Qed.

(** After the reindexing two rows of one subject have different sessions. *)
Lemma reset_sessions_distinct l i j r r' :
  i <> j -> reset_sessions l !! i = Some r -> reset_sessions l !! j = Some r' ->
  subject r = subject r' -> session r <> session r'.
Proof.
  assert (forall i j r r', (i < j)%nat ->
            reset_sessions l !! i = Some r -> reset_sessions l !! j = Some r' ->
            subject r = subject r' -> session r <> session r') as Hlt.
  { clear. intros i j r r' Hij Hi Hj Hs.
    destruct (l !! i) as [x|] eqn:Hx.
    2: { apply lookup_ge_None in Hx. apply lookup_lt_Some in Hi.
         rewrite reset_sessions_length in Hi. lia. }
    destruct (l !! j) as [y|] eqn:Hy.
    2: { apply lookup_ge_None in Hy. apply lookup_lt_Some in Hj.
         rewrite reset_sessions_length in Hj. lia. }
    rewrite (reset_sessions_lookup l i x Hx) in Hi.
    rewrite (reset_sessions_lookup l j y Hy) in Hj.
    injection Hi as <-. injection Hj as <-. cbn in Hs |- *.
    pose proof (filter_take_mono (same_subject x) l i j x Hij Hx eq_refl) as Hm.
    assert (filter (same_subject y) (take j l)
            = filter (same_subject x) (take j l)) as ->.
    { apply list_filter_iff. intros z. unfold same_subject. by rewrite Hs. }
    lia. }
  intros Hij Hi Hj Hs.
  destruct (Nat.lt_total i j) as [?|[?|?]]; [by eapply Hlt|done|].
  intros E. by eapply (Hlt j i r' r).
Qed.

Lemma bids_path_of_inv dir r r' :
  bids_path_of dir r = bids_path_of dir r' ->
  subject r = subject r' /\ session r = session r' /\ segment r = segment r'.
Proof.
  unfold bids_path_of, mrn_of, session_nb_of.
  intros [= Hs%mrn_inj Hn%session_nb_inj Hg]. done.
Qed.

(** With session reindexing no two recordings get the same output path. *)
Lemma converted_paths_NoDup (concat_ds : list BaseDataset) csf rows dir :
  converted_description concat_ds true csf = Ok rows ->
  NoDup (bids_path_of dir <$> rows).
Proof.
  intros Hrows.
  assert (exists l, rows = reset_sessions l) as [l ->].
  { revert Hrows. unfold converted_description.
    destruct (if csf then _ else _) as [l|]; [|done]. cbn [bind].
    intros [= <-]. by exists l. }
  apply NoDup_alt. intros i j p.
  rewrite !list_lookup_fmap.
  destruct (reset_sessions l !! i) as [r|] eqn:Hi; [|done].
  destruct (reset_sessions l !! j) as [r'|] eqn:Hj; [|done].
  cbn. intros [= <-] Heq.
  assert (bids_path_of dir r = bids_path_of dir r') as Hp by congruence.
  apply bids_path_of_inv in Hp as (Hs & Hn & _).
  destruct (decide (i = j)) as [|Hij]; [done|].
  by destruct (reset_sessions_distinct l i j r r' Hij Hi Hj).
Qed.

End path_facts.

Section task_facts.

Context `{Mne}.

Lemma fmap_bind_list {A B C} (f : B -> C) (g : A -> list B) (l : list A) :
  f <$> (l ≫= g) = l ≫= (fun x => f <$> g x).
Proof.
  induction l as [|x l IH]; [done|].
  by rewrite !bind_cons, fmap_app, IH.
Qed.

Lemma NoDup_fmap_filter {A B} (f : A -> B) (P : A -> Prop)
    `{!forall x, Decision (P x)} (l : list A) :
  (forall i j x y, i <> j -> l !! i = Some x -> l !! j = Some y ->
                   P x -> P y -> f x <> f y) ->
  NoDup (f <$> filter P l).
Proof.
  induction l as [|a l IH]; intros Hd; [constructor|].
  assert (NoDup (f <$> filter P l)) as Hl.
  { apply IH. intros i j x y Hij Hi Hj. by apply (Hd (S i) (S j)); [lia|..]. }
  destruct (decide (P a)) as [Ha|Ha].
  - rewrite filter_cons_True by done. rewrite fmap_cons.
    constructor; [|done].
    intros (y & Hfy & [Hy (k & Hk)%list_elem_of_lookup_1]%list_elem_of_filter)
      %list_elem_of_fmap.
    by apply (Hd 0%nat (S k) a y).
  - by rewrite filter_cons_False.
Qed.

(** Each participant has one row with session 1 in the summary table. *)
Lemma first_session_participants_NoDup (concat_ds : list BaseDataset) dir csf
    trace :
  convert_tuab_to_bids concat_ds dir false true csf = (trace, Ok tt) ->
  exists writes summary,
    trace = writes ++
            [WroteTable (dir +:+ "/participants_extra.csv") summary] /\
    NoDup (first_session_participants summary).
Proof.
  intros Hrun.
  apply convert_tuab_to_bids_ok in Hrun
    as (rows & writes & summary & Hrows & -> & Hw).
  exists writes, summary. split; [done|].
  assert (exists l, rows = reset_sessions l) as [l ->].
  { revert Hrows. unfold converted_description.
    destruct (if csf then _ else _) as [l|]; [|done]. cbn [bind].
    intros [= <-]. by exists l. }
  apply NoDup_fmap_filter. intros i j x y Hij Hi Hj Hx Hy Heq.
  destruct (Forall3_lookup_r _ _ _ _ _ _ Hw Hi)
    as (r & ? & Hr & _ & (? & _ & _ & Hsr & Hpr & _)).
  destruct (Forall3_lookup_r _ _ _ _ _ _ Hw Hj)
    as (r' & ? & Hr' & _ & (? & _ & _ & Hsr' & Hpr' & _)).
  injection Heq as Heq. rewrite Hpr, Hpr' in Heq.
  apply mrn_inj in Heq.
  apply (reset_sessions_distinct l i j r r' Hij Hr Hr' Heq). congruence.
Qed.

(** The tasks of the pipelines have pairwise distinct output paths when
    the variants have distinct directories and no subject comes twice. *)
Lemma pipeline_configs_NoDup bids_root variants subjects :
  NoDup (variants.*1) -> NoDup subjects ->
  NoDup (output_path <$> pipeline_configs bids_root variants subjects).
Proof.
  intros Hv Hs. unfold pipeline_configs. rewrite fmap_bind_list.
  apply NoDup_bind.
  - intros v1 v2 p Hv1 Hv2.
    rewrite <- !list_fmap_compose.
    intros (s1 & -> & _)%list_elem_of_fmap (s2 & [= Hdir _] & _)%list_elem_of_fmap.
    apply list_elem_of_lookup_1 in Hv1 as (i & Hi), Hv2 as (j & Hj).
    assert (i = j) as ->; [|congruence].
    apply (NoDup_lookup _ i j (v1.1) Hv); rewrite list_lookup_fmap.
    + by rewrite Hi.
    + rewrite Hj. cbn. by f_equal.
  - intros v _. rewrite <- list_fmap_compose.
    apply NoDup_fmap_2_strong; [|done].
    by intros s1 s2 _ _ [= ->].
  - by apply NoDup_fmap_1 in Hv.
Qed.

End task_facts.

Section subjects_facts.

Lemma filter_eq_NoDup (x : string) l :
  NoDup l -> filter (fun y => y = x) l = [] \/ filter (fun y => y = x) l = [x].
Proof.
  induction 1 as [|y l Hy _ IH]; [by left|].
  destruct (decide (y = x)) as [->|Hne].
  - right. rewrite filter_cons_True by done. f_equal.
    clear -Hy. induction l as [|z l IH]; [done|].
    apply not_elem_of_cons in Hy as [Hz Hl].
    rewrite filter_cons_False by done. by apply IH.
  - by rewrite filter_cons_False.
Qed.

(** With one row for each participant in [participants.tsv], the subjects
    are a part of the first sessions of the summary table, in their
    order. *)
Lemma tuab_subjects_sublist participants_tsv summary :
  NoDup participants_tsv ->
  tuab_subjects participants_tsv summary
    `sublist_of` first_session_participants summary.
Proof.
  intros Hnd. unfold tuab_subjects, first_session_participants.
  apply fmap_sublist.
  etransitivity; [apply sublist_filter|].
  etransitivity; [apply sublist_filter|].
  induction (filter _ summary) as [|row l IH]; [done|].
  rewrite bind_cons. change (row :: l) with ([row] ++ l).
  apply sublist_app; [|done].
  destruct (filter_eq_NoDup
              ("sub-" +:+ participant_id (row_info row)) _ Hnd) as [-> | ->].
  - apply sublist_nil_l.
  - done.
Qed.

End subjects_facts.

(** C9: the output path of a unit of work is a function of its own
    identity (root or pipeline-variant directory, participant, session,
    run) and distinct units have distinct paths. With session reindexing
    the recordings of a corpus are written to pairwise distinct paths;
    two recordings whose raw subject ids differ never share a path after
    the ids are replaced by their category codes, whatever the flags; the
    summary table names each participant once among its first sessions,
    so that the tasks of the pipelines, one for each variant directory and
    subject, have pairwise distinct output paths. *)
Theorem C9_output_paths_distinct `{Mne} :
  (forall dir r r',
     subject r = subject r' -> session r = session r' ->
     segment r = segment r' -> bids_path_of dir r = bids_path_of dir r') /\
  (forall (concat_ds : list BaseDataset) csf rows dir,
     converted_description concat_ds true csf = Ok rows ->
     NoDup (bids_path_of dir <$> rows)) /\
  (forall (tuab : list TUHAbnormalDataset) reset csf rows dir i j r r',
     converted_description (canonical_datasets tuab) reset csf = Ok rows ->
     rows !! i = Some r -> rows !! j = Some r' ->
     subject_orig r <> subject_orig r' ->
     bids_path_of dir r <> bids_path_of dir r') /\
  (forall (concat_ds : list BaseDataset) dir csf trace participants_tsv
          variants,
     convert_tuab_to_bids concat_ds dir false true csf = (trace, Ok tt) ->
     NoDup participants_tsv -> NoDup (variants.*1) ->
     exists writes summary,
       trace = writes ++
               [WroteTable (dir +:+ "/participants_extra.csv") summary] /\
       NoDup (first_session_participants summary) /\
       NoDup (output_path <$>
                pipeline_configs dir variants
                  (tuab_subjects participants_tsv summary))) /\
  (forall bids_root variants subjects,
     NoDup (variants.*1) -> NoDup subjects ->
     NoDup (output_path <$> pipeline_configs bids_root variants subjects)).
Proof.
  split_and!.
  - intros dir r r' Hs Hn Hg. unfold bids_path_of, mrn_of, session_nb_of.
    by rewrite Hs, Hn, Hg.
  - intros concat_ds csf rows dir. apply converted_paths_NoDup.
  - intros tuab reset csf rows dir i j r r' Hrows Hi Hj Horig Hpath.
    apply bids_path_of_inv in Hpath as (Hs & _ & _).
    pose proof (converted_description_keeps
                  (fun r => (subject r, subject_orig r)) _ _ _ _
                  (fun _ _ => eq_refl) (fun _ _ => eq_refl) Hrows) as Hkeep.
    assert (forall k x, rows !! k = Some x ->
              exists ds, canonical_datasets tuab !! k = Some ds /\
                         subject (description ds) = subject x /\
                         subject_orig (description ds) = subject_orig x)
      as Hsame.
    { intros k x Hk. apply (f_equal (fun l => l !! k)) in Hkeep.
      rewrite !list_lookup_fmap, Hk in Hkeep. cbn in Hkeep.
      destruct (canonical_datasets tuab !! k) as [ds|]; [|done].
      injection Hkeep as ? ?. by exists ds. }
    destruct (Hsame i r Hi) as (a & Ha & Has & Hao).
    destruct (Hsame j r' Hj) as (b & Hb & Hbs & Hbo).
    apply Horig. rewrite <- Hao, <- Hbo.
    apply (canonical_datasets_subject tuab i j a b Ha Hb). congruence.
  - intros concat_ds dir csf trace tsv variants Hrun Htsv Hvariants.
    destruct (first_session_participants_NoDup _ _ _ _ Hrun)
      as (writes & summary & -> & Hfirst).
    exists writes, summary. split_and!; [done..|].
    apply pipeline_configs_NoDup; [done|].
    eapply sublist_NoDup; [exact Hfirst|]. by apply tuab_subjects_sublist.
  - intros bids_root variants subjects. apply pipeline_configs_NoDup.
Qed.

Lemma C9_output_paths_distinct_witness :
  let concat_ds :=
    [example_recording "edf/train/normal/01_tcp_ar/aaaaaaaa_s001_t000.edf"
       0 "aaaaaaaa" 1 0;
     example_recording "edf/train/normal/01_tcp_ar/aaaaaaab_s003_t000.edf"
       1 "aaaaaaab" 3 0;
     example_recording "edf/train/normal/01_tcp_ar/aaaaaaab_s007_t000.edf"
       1 "aaaaaaab" 7 0] in
  let tuab :=
    [example_tuab "edf/train/normal/01_tcp_ar/aaaaaaab_s001_t000.edf"
       "aaaaaaab" 1 0;
     example_tuab "edf/train/normal/01_tcp_ar/aaaaaaaB_s001_t000.edf"
       "aaaaaaaB" 1 0] in
  let variants :=
    [("derivatives/preproc_minimal", None);
     ("derivatives/ica_artifact_subspace", Some "keep_artifacts")] in
  (exists rows,
     @converted_description example_mne concat_ds true true = Ok rows /\
     NoDup (bids_path_of "bids" <$> rows)) /\
  (exists r r',
     @converted_description example_mne (canonical_datasets tuab) false false
       = Ok [r; r'] /\
     bids_path_of "bids" r <> bids_path_of "bids" r') /\
  (exists trace writes summary,
     @convert_tuab_to_bids example_mne concat_ds "bids" false true true
       = (trace, Ok tt) /\
     trace = writes ++ [WroteTable "bids/participants_extra.csv" summary] /\
     tuab_subjects ["sub-0000"; "sub-0001"] summary = ["sub-0000"; "sub-0001"] /\
     NoDup (output_path <$>
              pipeline_configs "bids" variants
                (tuab_subjects ["sub-0000"; "sub-0001"] summary))) /\
  NoDup (output_path <$>
           pipeline_configs "bids" variants ["sub-0000"; "sub-0001"]).
Proof.
  intros concat_ds tuab variants.
  destruct (@C9_output_paths_distinct example_mne)
    as (_ & Hpaths & Hsubjects & Hfirst & Htasks).
  split_and!.
  - eexists. split; [reflexivity|]. by apply (Hpaths concat_ds true _ "bids").
  - eexists _, _. split; [reflexivity|].
    apply (Hsubjects tuab false false _ "bids" 0%nat 1%nat _ _ eq_refl
             eq_refl eq_refl).
    discriminate.
  - destruct (Hfirst concat_ds "bids" true _ ["sub-0000"; "sub-0001"] variants
                eq_refl)
      as (writes & summary & Htrace & _ & Hnd);
      [apply (bool_decide_unpack _); vm_compute; exact I..|].
    eexists _, writes, summary. split; [reflexivity|].
    split; [exact Htrace|].
    apply app_inj_tail in Htrace as [_ [= <-]].
    split; [reflexivity|exact Hnd].
  - apply Htasks; apply (bool_decide_unpack _); vm_compute; exact I.
Defined.

(** * Further properties of the code *)

(** ** The values read from a header *)

Section header_range_facts.

Lemma int_digits_nonneg acc prev s n :
  0 <= acc -> Py.int_digits acc prev s = Some n -> 0 <= n.
Proof.
  revert acc prev. induction s as [|c t IH]; intros acc prev Hacc; cbn.
  - destruct prev; [by intros [= <-]|done].
  - destruct (Py.is_digit c).
    + apply IH. unfold Py.digit_value. lia.
    + destruct (Ascii.eqb c "_" && prev); [|done].
      destruct t as [|d t']; [done|]. destruct (Py.is_digit d); [|done].
      by apply IH.
Qed.

(** [int] of a string of digits is not negative. *)
Lemma int_of_digits_nonneg s n :
  Py.all_chars Py.is_digit s = true -> Py.int s = Ok n -> 0 <= n.
Proof.
  intros Hs. unfold Py.int. rewrite (strip_digits s Hs).
  destruct s as [|c t]; [done|].
  assert (Py.is_digit c = true) as Hc
    by (cbn in Hs; by apply andb_true_iff in Hs as [? _]).
  destruct (Ascii.eqb_spec c "-") as [->|_]; [done|].
  destruct (Ascii.eqb_spec c "+") as [->|_]; [done|].
  destruct (Py.int_digits 0 false (String c t)) as [m|] eqn:E; [|done].
  destruct (_ <? _)%nat; [done|]. intros [= <-].
  apply int_digits_nonneg in E; lia.
Qed.

Lemma findall_age_digits k s :
  Forall (fun g => Py.all_chars Py.is_digit g = true)
         (Re.findall_from Re.age_pattern k s).
Proof.
  apply findall_from_Forall. intros s' g n _ Hm.
  by apply age_pattern_group in Hm as (_ & ? & _).
Qed.

Lemma findall_gender_class k s :
  Forall (fun g => g ∈ ["F"; "|"; "M"]) (Re.findall_from Re.gender_pattern k s).
Proof.
  apply findall_from_Forall. intros s' g n _.
  unfold Re.gender_pattern, Re.spaced_char.
  destruct s' as [|a [|c [|b r]]]; try done.
  destruct (Py.is_space a && _ && _) eqn:E; [|done]. intros [= <- _].
  apply andb_true_iff in E as [[_ Hc%bool_decide_eq_true]%andb_true_iff _].
  by apply (list_elem_of_fmap_2 (fun c => String c EmptyString)) in Hc.
Qed.

Lemma gender_or_default (l : list string) :
  Forall (fun g => g ∈ ["F"; "|"; "M"]) l ->
  match l with [g] => g | _ => "X" end ∈ ["X"; "F"; "|"; "M"].
Proof.
  destruct l as [|g [|g' l']]; intros Hl; try apply list_elem_of_here.
  apply Forall_cons in Hl as [Hg _]. by apply list_elem_of_further.
Qed.

End header_range_facts.

(** X1: whatever the header holds, the age returned is the default -1 or
    a number that is not negative, and the sex returned is the default
    ["X"] or one character of the class of the pattern, [F], [|] or [M]. *)
Theorem header_values_in_range (fs : files) (file_path : string)
    (age : Z) (gender : string) :
  _parse_age_and_gender_from_edf_header fs file_path = Ok (age, gender) ->
  (age = -1 \/ 0 <= age) /\ gender ∈ ["X"; "F"; "|"; "M"].
Proof.
  unfold _parse_age_and_gender_from_edf_header.
  destruct (_read_edf_header fs file_path) as [header|]; [|done]. cbn [bind].
  destruct (decode_ascii _) as [patient_id|]; [|done]. cbn [bind].
  pose proof (findall_age_digits 0 patient_id) as Hage.
  pose proof (findall_gender_class 0 patient_id) as Hsex.
  unfold Re.findall.
  destruct (Re.findall_from Re.age_pattern 0 patient_id) as [|a [|a' l]].
  - cbn [bind]. intros [= <- <-]. split; [by left|].
    by apply gender_or_default.
  - apply Forall_cons in Hage as [Ha _].
    destruct (Py.int a) as [n|] eqn:En; [|done]. cbn [bind].
    intros [= <- <-]. split; [right; by eapply int_of_digits_nonneg|].
    by apply gender_or_default.
  - cbn [bind]. intros [= <- <-]. split; [by left|].
    by apply gender_or_default.
Qed.

Lemma header_values_in_range_witness :
  (34 = -1 \/ 0 <= 34) /\ ("M" : string) ∈ ["X"; "F"; "|"; "M"].
Proof.
  apply (header_values_in_range example_files "aaaaaaav_s004_t000.edf").
  reflexivity.
Defined.

(** A file that ends before the patient field gives the defaults. *)

(** X2: a file of at most eight bytes, an empty file included, has an
    empty patient field: the extractor returns the defaults, age -1 and
    sex ["X"], without raising. *)
Theorem header_short_file_defaults (fs : files) (file_path : string)
    (content : list Byte.byte) :
  fs file_path = Some content -> (length content <= 8)%nat ->
  _parse_age_and_gender_from_edf_header fs file_path = Ok (-1, "X").
Proof.
  intros Hfs Hlen. unfold _parse_age_and_gender_from_edf_header, _read_edf_header.
  rewrite Hfs. cbn [bind].
  rewrite (drop_ge (take 88 content)) by (rewrite length_take; lia).
  reflexivity.
Qed.

Lemma header_short_file_defaults_witness :
  _parse_age_and_gender_from_edf_header
    (fun _ => Some (String.list_byte_of_string "0      ")) "empty.edf"
  = Ok (-1, "X").
Proof.
  apply (header_short_file_defaults _ _ (String.list_byte_of_string "0      "));
    [reflexivity|cbn; lia].
Defined.

(** ** Decimal numerals *)

Section numeral_facts.

Lemma pretty_N_char_digit x : Py.is_digit (pretty_N_char x) = true.
Proof. unfold pretty_N_char. by repeat case_match. Qed.

Lemma pretty_N_go_digits x s :
  Py.all_chars Py.is_digit s = true ->
  Py.all_chars Py.is_digit (pretty_N_go x s) = true.
Proof.
  revert s. induction (N.lt_wf_0 x) as [x _ IH]. intros s Hs.
  destruct (decide (x = 0)%N) as [->|Hx]; [by rewrite pretty_N_go_0|].
  rewrite pretty_N_go_step by lia.
  apply IH; [apply N.div_lt; lia|]. cbn [Py.all_chars].
  by rewrite pretty_N_char_digit.
Qed.

Lemma pretty_N_digits (x : N) : Py.all_chars Py.is_digit (pretty x) = true.
Proof.
  unfold pretty, pretty_N. case_decide; [done|]. by apply pretty_N_go_digits.
Qed.

Lemma pretty_N_nonempty (x : N) : pretty x <> "".
Proof.
  pose proof (pretty_N_unsigned x) as H. by destruct (pretty x).
Qed.

Lemma all_chars_app p s t :
  Py.all_chars p (s +:+ t) = Py.all_chars p s && Py.all_chars p t.
Proof.
  induction s as [|c s IH]; [done|].
  change (String c s +:+ t) with (String c (s +:+ t)). cbn [Py.all_chars].
  by rewrite IH, andb_assoc.
Qed.

Lemma zeros_digits k : Py.all_chars Py.is_digit (Py.zeros k) = true.
Proof. induction k as [|k IH]; [done|]. exact IH. Qed.

Lemma zeros_length k : String.length (Py.zeros k) = k.
Proof. induction k as [|k IH]; [done|]. cbn. by rewrite IH. Qed.

Lemma string_app_length (s t : string) :
  String.length (s +:+ t) = (String.length s + String.length t)%nat.
Proof.
  induction s as [|c s IH]; [done|].
  change (String c s +:+ t) with (String c (s +:+ t)). cbn [String.length].
  by rewrite IH.
Qed.

(** On a string of digits [int] reads the number the digits stand for. *)
Lemma int_digits_value acc prev s :
  Py.all_chars Py.is_digit s = true -> s <> "" \/ prev = true ->
  Py.int_digits (Z.of_N acc) prev s = Some (Z.of_N (digits_value acc s)).
Proof.
  revert acc prev. induction s as [|c t IH]; intros acc prev Hs Hne.
  - destruct Hne as [?| ->]; done.
  - cbn in Hs |- *. apply andb_true_iff in Hs as [-> Ht].
    replace (10 * Z.of_N acc + Py.digit_value c)
      with (Z.of_N (10 * acc + N.of_nat (Py.code c - 48)))
      by (unfold Py.digit_value; lia).
    apply IH; auto.
Qed.

Lemma int_digit_string s :
  s <> "" -> Py.all_chars Py.is_digit s = true ->
  (String.length s <= Py.int_max_str_digits)%nat ->
  Py.int s = Ok (Z.of_N (digits_value 0 s)).
Proof.
  intros Hne Hs Hlen. unfold Py.int. rewrite (strip_digits s Hs).
  destruct s as [|c t]; [done|].
  assert (Py.is_digit c = true) as Hc
    by (cbn in Hs; by apply andb_true_iff in Hs as [? _]).
  destruct (Ascii.eqb_spec c "-") as [->|_]; [done|].
  destruct (Ascii.eqb_spec c "+") as [->|_]; [done|].
  pose proof (int_digits_value 0 false (String c t) Hs) as E.
  change (Z.of_N 0) with 0 in E. rewrite E by by left.
  pose proof (count_digits_le (String c t)).
  destruct (Nat.ltb_spec Py.int_max_str_digits (Py.count_digits (String c t)));
    [lia|]. f_equal. lia.
Qed.

Lemma zfill_pretty_N (x : N) w :
  Py.zfill (pretty x) w = Py.zeros (w - String.length (pretty x)) +:+ pretty x.
Proof. apply zfill_unsigned, pretty_N_unsigned. Qed.

Lemma zfill_pretty_N_length (x : N) w :
  String.length (Py.zfill (pretty x) w)
  = (w `max` String.length (pretty x))%nat.
Proof. rewrite zfill_pretty_N, string_app_length, zeros_length. lia. Qed.

Lemma zfill_pretty_N_digits (x : N) w :
  Py.all_chars Py.is_digit (Py.zfill (pretty x) w) = true.
Proof.
  by rewrite zfill_pretty_N, all_chars_app, zeros_digits, pretty_N_digits.
Qed.

(** Reading a padded numeral back gives the number. *)
Lemma int_zfill_pretty_N (x : N) w :
  (String.length (Py.zfill (pretty x) w) <= Py.int_max_str_digits)%nat ->
  Py.int (Py.zfill (pretty x) w) = Ok (Z.of_N x).
Proof.
  intros Hlen. rewrite int_digit_string; [..|done].
  - rewrite zfill_pretty_N, digits_value_zeros. by rewrite pretty_N_value.
  - intros E. apply (f_equal String.length) in E.
    rewrite zfill_pretty_N_length in E. cbn in E.
    pose proof (pretty_N_nonempty x). destruct (pretty x); [done|cbn in E; lia].
  - apply zfill_pretty_N_digits.
Qed.

End numeral_facts.

(** ** The index and the datasets of [TUH] *)

Section index_facts.

Variable _get_info : string -> result (option datetime).

Lemma _parse_description_path file_path d :
  _parse_description_from_file_path _get_info file_path = Ok d ->
  d_path d = normpath file_path.
Proof.
  unfold _parse_description_from_file_path.
  destruct (_get_info _) as [info|]; [|done]. cbn [bind].
  destruct (unpack3 _) as [[[sub ses] seg]|]; [|done]. cbn [bind].
  destruct info as [t|]; [|done]. cbn [bind].
  destruct (Py.int _) as [s|]; [|done]. cbn [bind].
  destruct (Py.int _) as [g|]; [|done]. cbn [bind].
  by intros [= <-].
Qed.

Lemma _create_chronological_description_ok file_paths descriptions :
  _create_chronological_description _get_info file_paths = Ok descriptions ->
  exists parsed,
    Forall2 (fun p d => _parse_description_from_file_path _get_info p = Ok d)
            file_paths parsed /\
    parsed <> [] /\ descriptions = sort_values parsed.
Proof.
  unfold _create_chronological_description.
  destruct (for_each _ _) as [parsed|] eqn:E; [|done]. cbn [bind].
  apply for_each_ok in E. destruct parsed as [|d l]; [done|]. cbn [bind].
  intros [= <-]. by exists (d :: l).
Qed.

End index_facts.

(** X3: the index holds one descriptor for each file of the listing, no
    file is left out and none comes twice: the descriptors are those of
    the files, reordered, and the paths of the index are the normalised
    paths of the listing. A listing without files gives no index. *)
Theorem index_one_descriptor_per_file
    (_get_info : string -> result (option datetime))
    (file_paths : list string) (descriptions : list Descriptor) :
  _create_chronological_description _get_info file_paths = Ok descriptions ->
  file_paths <> [] /\
  length descriptions = length file_paths /\
  d_path <$> descriptions ≡ₚ normpath <$> file_paths /\
  exists parsed,
    Forall2 (fun p d => _parse_description_from_file_path _get_info p = Ok d)
            file_paths parsed /\
    descriptions ≡ₚ parsed.
Proof.
  intros Hidx.
  apply _create_chronological_description_ok in Hidx
    as (parsed & Hparsed & Hne & ->).
  pose proof (sort_values_perm parsed) as Hperm.
  assert (d_path <$> parsed = normpath <$> file_paths) as Hpaths.
  { clear Hne Hperm. induction Hparsed as [|p d ps ds Hp _ IH]; [done|].
    cbn. f_equal; [by eapply _parse_description_path|done]. }
  split_and!.
  - intros ->. by apply Forall2_nil_inv_l in Hparsed.
  - rewrite Hperm. symmetry. by eapply Forall2_length.
  - by rewrite Hperm, Hpaths.
  - by exists parsed.
Qed.

Lemma index_one_descriptor_per_file_witness :
  let file_paths := ["edf/train/normal/01_tcp_ar/aaaaaaab_s007_t000.edf";
                     "edf//train/./normal/01_tcp_ar/aaaaaaab_s003_t000.edf"] in
  exists descriptions,
    _create_chronological_description example_info file_paths
      = Ok descriptions /\
    d_path <$> descriptions ≡ₚ normpath <$> file_paths.
Proof.
  intros file_paths. eexists. split; [reflexivity|].
  apply (index_one_descriptor_per_file example_info file_paths). reflexivity.
Defined.

Section selection_outcomes.

Context `{Mne}.
Variable _get_info : string -> result (option datetime).
Variable fs : files.

Lemma _create_chronological_description_length file_paths descriptions :
  _create_chronological_description _get_info file_paths = Ok descriptions ->
  length descriptions = length file_paths.
Proof.
  intros Hidx.
  apply _create_chronological_description_ok in Hidx
    as (parsed & Hparsed & _ & ->).
  rewrite (sort_values_perm parsed). symmetry. by eapply Forall2_length.
Qed.

Lemma numbered_length {A} (l : list A) : length (numbered l) = length l.
Proof. unfold numbered. apply length_imap. Qed.

Lemma TUH_init_reports file_paths ids reports datasets :
  TUH_init _get_info fs file_paths ids reports = Ok datasets ->
  reports = false.
Proof.
  intros (descriptions & cols & _ & _ & _ & Hne & Hloop)%TUH_init_ok.
  destruct Hloop as [|c ds cols dss Hc _]; [done|].
  by apply _create_dataset_ok in Hc as [? _].
Qed.

End selection_outcomes.

(** X4: [TUH] ends well only on a selection that names each recording at
    most once and within the index. With [recording_ids] a list, its
    labels are pairwise distinct, each is a place of the index (from 0 to
    the number of files less one), and one dataset is made for each label;
    a single integer never gives a dataset; without [recording_ids] there
    is one dataset for each file. The result is never empty. *)
Theorem TUH_init_selection `{Mne}
    (_get_info : string -> result (option datetime)) (fs : files)
    (file_paths : list string) (ids : recording_ids) (reports : bool)
    (datasets : list TUHDataset) :
  TUH_init _get_info fs file_paths ids reports = Ok datasets ->
  datasets <> [] /\
  match ids with
  | AllRecordings => length datasets = length file_paths
  | OneId _ => False
  | Ids l =>
      NoDup l /\
      Forall (fun i => 0 <= i < Z.of_nat (length file_paths)) l /\
      length datasets = length l
  end.
Proof.
  intros (descriptions & cols & Hidx & Hcols & Hnodup & Hne & Hloop)%TUH_init_ok.
  apply _create_chronological_description_length in Hidx.
  apply Forall2_length in Hloop. split; [done|].
  destruct ids as [|i|l]; [|done|].
  - subst cols. by rewrite <- Hloop, numbered_length.
  - apply select_columns_ok in Hcols as [Hl Hcolumn]. rewrite Hl in Hnodup.
    split_and!; [done| |].
    + apply Forall_forall. intros i Hi.
      apply list_elem_of_lookup_1 in Hi as [k Hk].
      destruct (Forall2_lookup_l _ _ _ _ _ Hcolumn Hk) as (d & _ & Hd).
      apply column_ok in Hd as [Hi Hd]. apply lookup_lt_Some in Hd. lia.
    + by rewrite <- Hloop, <- Hl, length_fmap.
Qed.

Lemma TUH_init_selection_witness :
  let file_paths := ["edf/train/normal/01_tcp_ar/aaaaaaab_s007_t000.edf";
                     "edf/train/normal/01_tcp_ar/aaaaaaab_s003_t000.edf";
                     "edf/train/normal/01_tcp_ar/aaaaaaaa_s001_t000.edf"] in
  exists datasets,
    @TUH_init example_mne example_info example_files file_paths
      (Ids [2; 0]) false = Ok datasets /\
    NoDup [2; 0] /\ length datasets = 2%nat.
Proof.
  intros file_paths. eexists. split; [reflexivity|].
  destruct (@TUH_init_selection example_mne example_info example_files
              file_paths (Ids [2; 0]) false _ eq_refl) as (_ & Hnodup & _ & Hlen).
  by split.
Defined.

(** X5: with [add_physician_reports] no dataset is ever made: the reader
    of the reports is not defined, so the first recording that reaches it
    raises, and a selection that reaches none is refused for being
    empty. *)
Theorem physician_reports_never_load `{Mne}
    (_get_info : string -> result (option datetime)) (fs : files)
    (file_paths : list string) (ids : recording_ids) :
  is_ok (TUH_init _get_info fs file_paths ids true) = false /\
  is_ok (TUHAbnormal_init _get_info fs file_paths ids true) = false.
Proof.
  assert (is_ok (TUH_init _get_info fs file_paths ids true) = false) as Hinit.
  { destruct (TUH_init _ _ _ _ _) as [datasets|] eqn:E; [|done].
    by apply TUH_init_reports in E. }
  split; [done|]. unfold TUHAbnormal_init.
  by destruct (TUH_init _ _ _ _ _).
Qed.

(** X6: every dataset [TUH] has made holds the age and the sex read from
    the header of its own file, and its recording carries the date of its
    descriptor, a valid calendar date, with the time of day the file
    gives; a file without a measurement date is never loaded. *)
Theorem TUH_datasets_consistent `{Mne}
    (_get_info : string -> result (option datetime)) (fs : files)
    (file_paths : list string) (ids : recording_ids) (reports : bool)
    (datasets : list TUHDataset) :
  TUH_init _get_info fs file_paths ids reports = Ok datasets ->
  Forall (fun ds =>
            let d := t_description ds in
            _parse_age_and_gender_from_edf_header fs (d_path d)
              = Ok (t_age ds, t_gender ds) /\
            check_date (d_year d) (d_month d) (d_day d) = Ok tt /\
            exists raw0 t,
              read_raw_edf (d_path d) = Ok raw0 /\
              info_meas_date raw0 = Some t /\
              set_meas_date raw0
                (Datetime (d_year d) (d_month d) (d_day d) (dt_seconds t))
                = Ok (t_raw ds))
         datasets.
Proof.
  intros (descriptions & cols & _ & _ & _ & _ & Hloop)%TUH_init_ok.
  induction Hloop as [|c ds cols dss Hc _ IH]; constructor; [|done].
  apply _create_dataset_ok in Hc as (_ & -> & Hheader & Hdate & Hraw).
  by split_and!.
Qed.

Lemma TUH_datasets_consistent_witness :
  let file_paths := ["edf/train/normal/01_tcp_ar/aaaaaaab_s007_t000.edf"] in
  exists datasets,
    @TUH_init example_mne example_info example_files file_paths
      AllRecordings false = Ok datasets /\
    Forall (fun ds =>
              let d := t_description ds in
              _parse_age_and_gender_from_edf_header example_files (d_path d)
                = Ok (t_age ds, t_gender ds) /\
              check_date (d_year d) (d_month d) (d_day d) = Ok tt /\
              exists raw0 t,
                @read_raw_edf example_mne (d_path d) = Ok raw0 /\
                @info_meas_date example_mne raw0 = Some t /\
                @set_meas_date example_mne raw0
                  (Datetime (d_year d) (d_month d) (d_day d) (dt_seconds t))
                  = Ok (t_raw ds))
           datasets.
Proof.
  intros file_paths. eexists. split; [reflexivity|].
  apply (@TUH_datasets_consistent example_mne example_info example_files
           file_paths AllRecordings false).
  reflexivity.
Defined.

(** ** What one conversion records *)

Section convert_outcome_facts.

Context `{Mne}.

Lemma _convert_ok_info ds dir desc t row :
  _convert_tuh_recording_to_bids ds dir (Some desc) = (t, Ok row) ->
  SEX_TO_MNE (Py.lower (gender desc)) = Ok (sex (row_info row)) /\
  first_of_month_minus_4_weeks (year desc - age desc) (month desc)
    = Ok (birthday (row_info row)) /\
  si_train (row_info row) = train desc /\
  si_pathological (row_info row) = pathological desc /\
  handedness (row_info row) = None.
Proof.
  unfold _convert_tuh_recording_to_bids.
  destruct (pick_types_eeg _) as [r1|]; [|done]. rewrite tbind_lift_ok.
  destruct (reference_of_path _) as [ref|]; [|done]. rewrite tbind_lift_ok.
  destruct (rename_channels _ _) as [r2|]; [|done]. rewrite tbind_lift_ok.
  destruct (pick_channels _ _) as [r3|]; [|done]. rewrite tbind_lift_ok.
  destruct (set_montage _) as [r4|]; [|done]. rewrite tbind_lift_ok.
  destruct (first_of_month_minus_4_weeks _ _) as [b|]; [|done].
  rewrite tbind_lift_ok.
  destruct (SEX_TO_MNE _) as [sx|]; [|done]. rewrite tbind_lift_ok.
  destruct (check_bids_path _) as [[]|]; [|done]. rewrite tbind_lift_ok.
  destruct (write_raw_bids _ _ _ _) as [[]|]; [|done]. rewrite tbind_lift_ok.
  cbn. by intros [= <- <-].
Qed.

Lemma SEX_TO_MNE_ok s code :
  SEX_TO_MNE s = Ok code ->
  (s = "n/a" /\ code = 0) \/ (s = "m" /\ code = 1) \/ (s = "f" /\ code = 2).
Proof.
  unfold SEX_TO_MNE. repeat case_bool_decide; intros [= <-]; auto.
Qed.

Lemma lower_char_inv c :
  (Py.lower_char c = "m"%char -> c = "M"%char \/ c = "m"%char) /\
  (Py.lower_char c = "f"%char -> c = "F"%char \/ c = "f"%char).
Proof.
  destruct c as [[] [] [] [] [] [] [] []]; vm_compute;
    split; intros E; try discriminate E; auto.
Qed.

Lemma lower_one_char g c :
  Py.lower g = String c "" ->
  exists c', g = String c' "" /\ Py.lower_char c' = c.
Proof.
  destruct g as [|c' [|c'' g]]; try done. cbn. intros [= <-]. by eexists.
Qed.

Lemma sex_code_gender g code :
  SEX_TO_MNE (Py.lower g) = Ok code ->
  (g ∈ ["M"; "m"] /\ code = 1) \/ (g ∈ ["F"; "f"] /\ code = 2) \/
  (Py.lower g = "n/a" /\ code = 0).
Proof.
  intros [[E ->]|[[E ->]|[E ->]]]%SEX_TO_MNE_ok; [by auto|left|right; left].
  - apply lower_one_char in E as (c & -> & [-> | ->]%lower_char_inv).
    + split; [apply list_elem_of_here|done].
    + split; [apply list_elem_of_further, list_elem_of_here|done].
  - apply lower_one_char in E as (c & -> & [-> | ->]%lower_char_inv).
    + split; [apply list_elem_of_here|done].
    + split; [apply list_elem_of_further, list_elem_of_here|done].
Qed.

End convert_outcome_facts.

(** X7: a recording is converted only when its sex is known to the
    table [SEX_TO_MNE]: the sex code written is 1 for ["M"] or ["m"], 2
    for ["F"] or ["f"], and 0 only for ["n/a"] in any letter case. Any
    other value, the default ["X"] of the header extractor included,
    makes the conversion raise before anything is written. *)
Theorem convert_sex_code `{Mne} (ds : BaseDataset) (dir : string)
    (desc : Recording) :
  (forall t row,
     _convert_tuh_recording_to_bids ds dir (Some desc) = (t, Ok row) ->
     (gender desc ∈ ["M"; "m"] /\ sex (row_info row) = 1) \/
     (gender desc ∈ ["F"; "f"] /\ sex (row_info row) = 2) \/
     (Py.lower (gender desc) = "n/a" /\ sex (row_info row) = 0)) /\
  (Py.lower (gender desc) ∉ ["n/a"; "m"; "f"] ->
   exists e, _convert_tuh_recording_to_bids ds dir (Some desc) = ([], Raise e)).
Proof.
  split.
  - intros t row Hrow. apply _convert_ok_info in Hrow as (Hsex & _).
    by apply sex_code_gender.
  - intros Hunknown.
    destruct (_convert_tuh_recording_to_bids ds dir (Some desc))
      as [t [row|e]] eqn:E.
    + apply _convert_ok_info in E as (Hsex & _). exfalso. apply Hunknown.
      apply SEX_TO_MNE_ok in Hsex as [[-> _]|[[-> _]|[-> _]]].
      * apply list_elem_of_here.
      * apply list_elem_of_further, list_elem_of_here.
      * do 2 apply list_elem_of_further. apply list_elem_of_here.
    + apply _convert_raise in E as ->. by exists e.
Qed.

Lemma convert_sex_code_witness :
  let ds := example_recording
              "edf/train/normal/01_tcp_ar/aaaaaaab_s003_t000.edf"
              1 "aaaaaaab" 3 0 in
  let unknown := {| path := path (description ds); version := "V3.0";
                    year := 2012; month := 3; day := 14; subject := 1;
                    subject_orig := "aaaaaaab"; session := 3;
                    segment := RunInt 0; age := 34; gender := "X";
                    train := true; pathological := false |} in
  (exists t row,
     @_convert_tuh_recording_to_bids example_mne ds "bids"
       (Some (description ds)) = (t, Ok row) /\
     sex (row_info row) = 1) /\
  exists e,
    @_convert_tuh_recording_to_bids example_mne ds "bids" (Some unknown)
    = ([], Raise e).
Proof.
  intros ds unknown. split.
  - eexists _, _. split; [reflexivity|].
    destruct (proj1 (@convert_sex_code example_mne ds "bids" (description ds))
                _ _ eq_refl) as [[_ E]|[[Hg _]|[Hg _]]]; [exact E|..].
    + exfalso. revert Hg. apply (bool_decide_unpack _). vm_compute. exact I.
    + discriminate Hg.
  - apply (proj2 (@convert_sex_code example_mne ds "bids" unknown)).
    apply (bool_decide_unpack _). vm_compute. exact I.
Defined.

(** ** The birthday made up for a recording *)

Section birthday_facts.

Lemma check_date_ok y m d :
  check_date y m d = Ok tt <->
  1 <= y <= 9999 /\ 1 <= m <= 12 /\ 1 <= d <= days_in_month y m.
Proof.
  unfold check_date.
  destruct (Z.leb_spec 1 y), (Z.leb_spec y 9999); cbn; try (split; [done|lia]).
  destruct (Z.leb_spec 1 m), (Z.leb_spec m 12); cbn; try (split; [done|lia]).
  destruct (Z.leb_spec 1 d), (Z.leb_spec d (days_in_month y m)); cbn;
    try (split; [done|lia]).
  split; [lia|done].
Qed.

Lemma first_of_month_minus_4_weeks_ok y m b :
  first_of_month_minus_4_weeks y m = Ok b ->
  1 <= y <= 9999 /\ 1 <= m <= 12 /\
  ((m = 1 /\ 2 <= y /\ b = (y - 1, 12, 4)) \/
   (1 < m /\ b = (y, m - 1, days_in_month y (m - 1) - 27))).
Proof.
  unfold first_of_month_minus_4_weeks.
  destruct (check_date y m 1) as [[]|] eqn:Hc; [|done]. cbn [bind].
  apply check_date_ok in Hc as (Hy & Hm & _).
  destruct (Z.eqb_spec m 1) as [->|Hm1].
  - destruct (Z.ltb_spec (y - 1) 1); [done|]. intros [= <-].
    split_and!; try lia. left. split_and!; [done|lia|done].
  - destruct (Z.ltb_spec y 1); [lia|]. intros [= <-].
    split_and!; try lia. right. split; [lia|done].
Qed.

Lemma is_leap_spec y :
  is_leap y = true <-> y mod 4 = 0 /\ (y mod 100 <> 0 \/ y mod 400 = 0).
Proof.
  unfold is_leap.
  destruct (Z.eqb_spec (y mod 4) 0), (Z.eqb_spec (y mod 100) 0),
    (Z.eqb_spec (y mod 400) 0); cbn; split; try done; try lia; tauto.
Qed.

(** A year has 365 days, and one more when it is a leap year. *)
Lemma days_before_year_succ y :
  days_before_year (y + 1)
  = days_before_year y + 365 + (if is_leap y then 1 else 0).
Proof.
  unfold days_before_year. cbv zeta.
  replace (y + 1 - 1) with y by lia.
  destruct (is_leap y) eqn:E.
  - apply is_leap_spec in E. Z.div_mod_to_equations. lia.
  - assert (~ (y mod 4 = 0 /\ (y mod 100 <> 0 \/ y mod 400 = 0))) as E'
      by (rewrite <- is_leap_spec; congruence).
    Z.div_mod_to_equations. lia.
Qed.

Lemma days_before_month_succ y m :
  1 <= m < 12 ->
  days_before_month y (m + 1) = days_before_month y m + days_in_month y m.
Proof.
  intros Hm.
  assert (m = 1 \/ m = 2 \/ m = 3 \/ m = 4 \/ m = 5 \/ m = 6 \/ m = 7 \/
          m = 8 \/ m = 9 \/ m = 10 \/ m = 11) as Hc by lia.
  unfold days_before_month, days_in_month.
  repeat (destruct Hc as [->|Hc]; [destruct (is_leap y); reflexivity|]).
  subst m. destruct (is_leap y); reflexivity.
Qed.

(** The day [first_of_month_minus_4_weeks] gives is a day of the calendar,
    28 days before the first of the month. *)
Lemma first_of_month_minus_4_weeks_ordinal y m b_year b_month b_day :
  first_of_month_minus_4_weeks y m = Ok (b_year, b_month, b_day) ->
  check_date b_year b_month b_day = Ok tt /\
  ymd2ord b_year b_month b_day + 28 = ymd2ord y m 1.
Proof.
  intros (Hy & Hm & [(-> & Hy2 & [= -> -> ->])|(Hm1 & [= -> -> ->])])
    %first_of_month_minus_4_weeks_ok.
  - split; [apply check_date_ok; cbn; lia|].
    pose proof (days_before_year_succ (y - 1)) as E.
    replace (y - 1 + 1) with y in E by lia.
    unfold ymd2ord. rewrite E.
    change (days_before_month (y - 1) 12)
      with (334 + if is_leap (y - 1) then 1 else 0).
    change (days_before_month y 1) with 0.
    destruct (is_leap (y - 1)); lia.
  - split.
    + apply check_date_ok. split_and!; try lia.
      unfold days_in_month. repeat case_match; lia.
    + pose proof (days_before_month_succ y (m - 1) ltac:(lia)) as E.
      replace (m - 1 + 1) with m in E by lia.
      unfold ymd2ord. rewrite E. lia.
Qed.

End birthday_facts.

(** X8: the birthday recorded for a recording is a day of the calendar,
    exactly 28 days before the first day of the recording's month in the
    year [year - age]; a conversion that ends well has [year - age]
    between 1 and 9999 and a month between 1 and 12. *)
Theorem birthday_four_weeks_before `{Mne} (ds : BaseDataset) (dir : string)
    (desc : Recording) (t : list Event) (row : SummaryRow) :
  _convert_tuh_recording_to_bids ds dir (Some desc) = (t, Ok row) ->
  let '(b_year, b_month, b_day) := birthday (row_info row) in
  check_date b_year b_month b_day = Ok tt /\
  ymd2ord b_year b_month b_day + 28
  = ymd2ord (year desc - age desc) (month desc) 1 /\
  1 <= year desc - age desc <= 9999 /\ 1 <= month desc <= 12.
Proof.
  intros Hrow. apply _convert_ok_info in Hrow as (_ & Hb & _).
  destruct (birthday (row_info row)) as [[b_year b_month] b_day].
  pose proof (first_of_month_minus_4_weeks_ok _ _ _ Hb) as (? & ? & _).
  apply first_of_month_minus_4_weeks_ordinal in Hb as [? ?].
  split_and!; first [done|lia].
Qed.

Lemma birthday_four_weeks_before_witness :
  let ds := example_recording
              "edf/train/normal/01_tcp_ar/aaaaaaab_s003_t000.edf"
              1 "aaaaaaab" 3 0 in
  exists t row,
    @_convert_tuh_recording_to_bids example_mne ds "bids"
      (Some (description ds)) = (t, Ok row) /\
    birthday (row_info row) = (1978, 2, 1) /\
    ymd2ord 1978 2 1 + 28 = ymd2ord (2012 - 34) 3 1.
Proof.
  intros ds. eexists _, _. split; [reflexivity|]. split; [reflexivity|].
  exact (proj1 (proj2 (@birthday_four_weeks_before example_mne ds "bids"
                         (description ds) _ _ eq_refl))).
Defined.

(** X9: the birthday stands for the age of the description: on any day
    of the recording's month, someone born on the recorded birthday is
    [age] whole years old (and, for the default age -1 of a header
    without an age, not yet born). *)
Theorem birthday_gives_age `{Mne} (ds : BaseDataset) (dir : string)
    (desc : Recording) (t : list Event) (row : SummaryRow) (d : Z) :
  _convert_tuh_recording_to_bids ds dir (Some desc) = (t, Ok row) ->
  age_in_years (birthday (row_info row)) (year desc) (month desc) d
  = age desc.
Proof.
  intros Hrow. apply _convert_ok_info in Hrow as (_ & Hb & _).
  apply first_of_month_minus_4_weeks_ok in Hb
    as (_ & Hm & [(Hm1 & _ & ->)|(Hm1 & ->)]); unfold age_in_years.
  - rewrite Hm1. cbn. lia.
  - destruct (Z.ltb_spec (month desc) (month desc - 1)); [lia|].
    destruct (Z.eqb_spec (month desc) (month desc - 1)); [lia|]. cbn. lia.
Qed.

Lemma birthday_gives_age_witness :
  let ds := example_recording
              "edf/train/normal/01_tcp_ar/aaaaaaab_s003_t000.edf"
              1 "aaaaaaab" 3 0 in
  exists t row,
    @_convert_tuh_recording_to_bids example_mne ds "bids"
      (Some (description ds)) = (t, Ok row) /\
    age_in_years (birthday (row_info row)) 2012 3 14 = 34.
Proof.
  intros ds. eexists _, _. split; [reflexivity|].
  exact (@birthday_gives_age example_mne ds "bids" (description ds) _ _ 14
           eq_refl).
Defined.

(** ** The labels of a BIDS path *)

Section label_round_trip.

Lemma pretty_Z_nonneg (z : Z) : 0 <= z -> pretty z = pretty (Z.to_N z).
Proof. by destruct z. Qed.

Lemma mrn_of_N desc :
  mrn_of desc = Py.zfill (pretty (N.of_nat (subject desc))) 4.
Proof. reflexivity. Qed.

Lemma session_nb_of_N desc :
  0 <= session desc ->
  session_nb_of desc = Py.zfill (pretty (Z.to_N (session desc))) 3.
Proof. intros Hs. unfold session_nb_of. by rewrite pretty_Z_nonneg. Qed.

End label_round_trip.

(** X10: the subject and session labels of a BIDS path are decimal
    numerals padded with zeros, of at least four and three digits, and
    they read back as the numbers they were made of: [int] of the subject
    label is the subject code and [int] of the session label is the
    session (as long as a label stays within the 4300 digits [int]
    converts), so that padding the number read back names the same
    participant. *)
Theorem bids_labels_read_back (desc : Recording) :
  0 <= session desc ->
  (String.length (mrn_of desc) <= Py.int_max_str_digits)%nat ->
  (String.length (session_nb_of desc) <= Py.int_max_str_digits)%nat ->
  Py.int (mrn_of desc) = Ok (Z.of_nat (subject desc)) /\
  Py.int (session_nb_of desc) = Ok (session desc) /\
  Py.zfill (pretty (Z.of_nat (subject desc))) 4 = mrn_of desc /\
  Py.all_chars Py.is_digit (mrn_of desc) = true /\
  Py.all_chars Py.is_digit (session_nb_of desc) = true /\
  (4 <= String.length (mrn_of desc))%nat /\
  (3 <= String.length (session_nb_of desc))%nat.
Proof.
  intros Hs. rewrite (session_nb_of_N desc Hs), mrn_of_N. intros Hm Hn.
  split_and!.
  - rewrite (int_zfill_pretty_N _ _ Hm). f_equal. lia.
  - rewrite (int_zfill_pretty_N _ _ Hn). f_equal. lia.
  - rewrite pretty_Z_nonneg by lia. do 2 f_equal. lia.
  - apply zfill_pretty_N_digits.
  - apply zfill_pretty_N_digits.
  - rewrite zfill_pretty_N_length. lia.
  - rewrite zfill_pretty_N_length. lia.
Qed.

Lemma bids_labels_read_back_witness :
  let desc := description
                (example_recording
                   "edf/train/normal/01_tcp_ar/aaaaaaab_s003_t000.edf"
                   12 "aaaaaaab" 3 0) in
  mrn_of desc = "0012" /\ session_nb_of desc = "003" /\
  Py.int (mrn_of desc) = Ok 12 /\ Py.int (session_nb_of desc) = Ok 3.
Proof.
  intros desc.
  destruct (bids_labels_read_back desc) as (Hm & Hn & _);
    [done|vm_compute; lia..|].
  by split_and!.
Defined.

(** ** The subject codes *)

Section category_facts.

Lemma string_leb_false x y : String.leb x y = false -> String.leb y x = true.
Proof.
  unfold String.leb. rewrite (cmp_opp (cmp := String.compare) x y).
  by destruct (String.compare x y).
Qed.

Lemma string_leb_lt x y :
  String.leb x y = true -> x <> y -> String.compare x y = Lt.
Proof.
  unfold String.leb. destruct (String.compare x y) eqn:E; try done.
  by apply cmp_eq in E.
Qed.

Lemma string_leb_trans x y z :
  String.leb x y = true -> String.leb y z = true -> String.leb x z = true.
Proof.
  intros Hxy Hyz. destruct (decide (x = y)) as [->|Hne]; [done|].
  destruct (decide (y = z)) as [<-|Hne']; [done|].
  unfold String.leb.
  by rewrite (cmp_trans x y z (string_leb_lt _ _ Hxy Hne)
                (string_leb_lt _ _ Hyz Hne')).
Qed.

(** The categories come in strictly increasing order. *)
Lemma categories_sorted values :
  StronglySorted (fun a b => String.compare a b = Lt) (categories values).
Proof.
  unfold categories.
  assert (StronglySorted (fun a b => String.leb a b = true)
            (stable_sort String.leb values)) as Hs.
  { apply Sorted_StronglySorted.
    - intros x y z. apply string_leb_trans.
    - apply stable_sort_Sorted, string_leb_false. }
  induction Hs as [|x l Hl IH Hx]; [constructor|]. cbn.
  destruct (decide_rel elem_of x l) as [Hin|Hin]; [done|].
  constructor; [done|]. apply Forall_forall. intros y Hy.
  rewrite elem_of_remove_dups in Hy. rewrite Forall_forall in Hx. apply string_leb_lt; [by apply Hx|].
  by intros ->.
Qed.

Lemma index_of_lookup v l : v ∈ l -> l !! index_of v l = Some v.
Proof.
  induction l as [|x l IH]; [by intros ?%elem_of_nil|].
  intros Hv. cbn [index_of]. case_bool_decide as Hx; [by subst|].
  apply elem_of_cons in Hv as [?|Hv]; [congruence|]. by apply IH.
Qed.

(** In a list in strictly increasing order the places follow the order. *)
Lemma index_of_lt l a b :
  StronglySorted (fun a b => String.compare a b = Lt) l ->
  a ∈ l -> b ∈ l ->
  (index_of a l < index_of b l)%nat <-> String.compare a b = Lt.
Proof.
  induction 1 as [|x l Hl IH Hx]; [by intros ?%elem_of_nil|].
  rewrite Forall_forall in Hx.
  assert (String.compare x x = Eq) as Hxx by (by apply cmp_eq).
  intros Ha Hb. cbn [index_of].
  case_bool_decide as Hxa; case_bool_decide as Hxb.
  - rewrite <- Hxa, <- Hxb, Hxx. split; [lia|done].
  - apply elem_of_cons in Hb as [?|Hb]; [congruence|].
    rewrite <- Hxa, (Hx b Hb). split; [done|lia].
  - apply elem_of_cons in Ha as [?|Ha]; [congruence|].
    rewrite <- Hxb, (cmp_opp (cmp := String.compare) x a), (Hx a Ha). cbn.
    split; [lia|done].
  - apply elem_of_cons in Ha as [?|Ha]; [congruence|].
    apply elem_of_cons in Hb as [?|Hb]; [congruence|].
    rewrite <- (IH Ha Hb). lia.
Qed.

End category_facts.

(** X11: the subject code of a recording is the place of its raw subject
    id among the distinct raw ids of the corpus in increasing order: the
    code leads back to the raw id kept in [subject_orig], and the codes
    follow the order of the raw ids. *)
Theorem subject_code_is_rank `{Mne} (concat_ds : list TUHAbnormalDataset)
    (i : nat) (a : BaseDataset) :
  canonical_datasets concat_ds !! i = Some a ->
  categories (raw_subject <$> concat_ds) !! subject (description a)
  = Some (subject_orig (description a)) /\
  forall j b,
    canonical_datasets concat_ds !! j = Some b ->
    (subject (description a) < subject (description b))%nat <->
    String.compare (subject_orig (description a))
                   (subject_orig (description b)) = Lt.
Proof.
  unfold canonical_datasets.
  intros (da & ca & -> & Hda & Hca)%lookup_zip_with_Some.
  set (values := raw_subject <$> concat_ds) in *.
  assert (forall k d c, concat_ds !! k = Some d -> cat_codes values !! k = Some c ->
            c = index_of (raw_subject d) (categories values) /\
            raw_subject d ∈ categories values) as Hcode.
  { intros k d c Hd. unfold cat_codes, values.
    rewrite !list_lookup_fmap, Hd. cbn. intros [= <-]. split; [done|].
    apply categories_elem_of, list_elem_of_fmap. exists d. split; [done|].
    by eapply list_elem_of_lookup_2. }
  destruct (Hcode i da ca Hda Hca) as [-> Hin]. cbn. split.
  - by apply index_of_lookup.
  - intros j b (db & cb & -> & Hdb & Hcb)%lookup_zip_with_Some. cbn.
    destruct (Hcode j db cb Hdb Hcb) as [-> Hin'].
    apply index_of_lt; [apply categories_sorted|done..].
Qed.

Lemma subject_code_is_rank_witness :
  let concat_ds :=
    [example_tuab "edf/train/normal/01_tcp_ar/aaaaaaab_s003_t000.edf"
       "aaaaaaab" 3 0;
     example_tuab "edf/train/normal/01_tcp_ar/aaaaaaaa_s001_t000.edf"
       "aaaaaaaa" 1 0] in
  exists a b,
    @canonical_datasets example_mne concat_ds = [a; b] /\
    subject (description a) = 1%nat /\ subject (description b) = 0%nat /\
    categories (raw_subject <$> concat_ds) !! 1%nat = Some "aaaaaaab".
Proof.
  intros concat_ds. eexists _, _. split_and!; [reflexivity..|].
  exact (proj1 (@subject_code_is_rank example_mne concat_ds 0 _ eq_refl)).
Defined.

(** ** What the conversion of a corpus writes *)

Section corpus_write_facts.

Context `{Mne}.

(** One pass of the loop: nothing is written and the pass raises, or one
    recording is written, under the path of the row, and its row is
    returned. *)
Lemma convert_row_outcome dir ds desc tx r :
  convert_row dir (ds, desc) = (tx, r) ->
  (tx = [] /\ is_ok r = false) \/
  exists raw row,
    r = Ok row /\
    tx = [WroteRecording (bids_path_of dir desc) raw 60 (row_info row)] /\
    row_session row = session desc /\
    participant_id (row_info row) = mrn_of desc /\
    si_subject (row_info row) = subject_orig desc /\
    si_pathological (row_info row) = pathological desc /\
    si_train (row_info row) = train desc /\
    SEX_TO_MNE (Py.lower (gender desc)) = Ok (sex (row_info row)).
Proof.
  unfold convert_row. case_bool_decide; [|intros [= <- <-]; by left].
  rewrite tbind_lift_ok. destruct r as [row|e]; intros Hrow.
  - right. pose proof (_convert_ok_info _ _ _ _ _ Hrow) as (? & _ & ? & ? & _).
    apply _convert_ok in Hrow as (raw & info & -> & -> & ? & ? & _).
    eexists raw, _. by split_and!.
  - left. by apply _convert_raise in Hrow.
Qed.

(** What holds of the writes of every pass holds of the writes of the
    loop, however it ends. *)
Lemma tfor_each_trace {A B} (f : A -> traced B) (P : Event -> Prop) l t r :
  (forall x, x ∈ l -> Forall P (f x).1) ->
  tfor_each f l = (t, r) -> Forall P t.
Proof.
  revert t r. induction l as [|x l IH]; intros t r HP; cbn [tfor_each].
  - by intros [= <- _].
  - pose proof (HP x (list_elem_of_here _ _)) as Hx.
    assert (forall y, y ∈ l -> Forall P (f y).1) as Hl
      by (intros y Hy; by apply HP, list_elem_of_further).
    destruct (f x) as [tx [y|e]]; cbn [tbind fst] in *.
    + destruct (tfor_each f l) as [tl [ys|e]] eqn:El; cbn [tbind lift];
        intros [= <- _]; rewrite ?app_nil_r; apply Forall_app; eauto.
    + by intros [= <- _].
Qed.

Lemma tfor_each_results {A B} (f : A -> traced B) (Q : B -> Prop) l t ys :
  (forall x tx y, x ∈ l -> f x = (tx, Ok y) -> Q y) ->
  tfor_each f l = (t, Ok ys) -> Forall Q ys.
Proof.
  intros HQ (ts & Hloop & _)%tfor_each_ok.
  induction Hloop as [|x tx y l ts ys Hx _ IH]; constructor.
  - eapply HQ; [apply list_elem_of_here|done].
  - apply IH. intros x' tx' y' Hin. apply HQ. by apply list_elem_of_further.
Qed.

Lemma filter_none {A} (P : A -> Prop) `{!forall x, Decision (P x)} l :
  Forall (fun x => ~ P x) l -> filter P l = [].
Proof.
  induction 1 as [|x l Hx _ IH]; [done|]. by rewrite filter_cons_False.
Qed.

Lemma split_not_pathological_ok (concat_ds l : list BaseDataset) :
  split_not_pathological concat_ds = Ok l ->
  l = filter (fun ds => pathological (description ds) = false) concat_ds.
Proof.
  unfold split_not_pathological. destruct (filter _ _); [done|].
  by intros [= <-].
Qed.

End corpus_write_facts.

(** X12: with [healthy_only] no pathological recording is converted:
    every recording written, and every row of the table written, is of a
    recording that is not pathological, however the conversion ends; a
    corpus without any such recording is refused with [KeyError] before
    anything is written. *)
Theorem healthy_only_converts_normal `{Mne} (concat_ds : list BaseDataset)
    (dir : string) (reset csf : bool) :
  (forall trace r,
     convert_tuab_to_bids concat_ds dir true reset csf = (trace, r) ->
     Forall (fun ev =>
               Forall (fun info => si_pathological info = false)
                      (event_infos ev)) trace) /\
  (Forall (fun ds => pathological (description ds) = true) concat_ds ->
   convert_tuab_to_bids concat_ds dir true reset csf
   = ([], Raise (KeyError "False"))).
Proof.
  split.
  - intros trace r. unfold convert_tuab_to_bids.
    destruct (split_not_pathological concat_ds) as [normal|] eqn:Hsplit;
      [|by intros [= <- _]].
    apply split_not_pathological_ok in Hsplit. rewrite tbind_lift_ok.
    destruct (converted_description _ _ _) as [rows|] eqn:Hrows;
      [|by intros [= <- _]].
    rewrite tbind_lift_ok.
    assert (Forall (fun desc => pathological desc = false) rows) as Hnormal.
    { apply (converted_description_keeps pathological) in Hrows; [|done..].
      assert (Forall (fun b => b = false) (pathological <$> rows)) as Hb.
      { rewrite Hrows, Hsplit, <- list_fmap_compose, Forall_fmap.
        apply Forall_forall. by intros ds [? _]%list_elem_of_filter. }
      by rewrite Forall_fmap in Hb. }
    assert (forall p, p ∈ zip normal rows -> pathological p.2 = false) as Hzip.
    { intros [ds desc] Hp. apply elem_of_zip_r in Hp.
      rewrite Forall_forall in Hnormal. by apply Hnormal. }
    destruct (tfor_each _ _) as [t [summary|e]] eqn:Hloop; cbn [tbind emit].
    + intros [= <- _]. apply Forall_app. split.
      * eapply tfor_each_trace; [|exact Hloop]. intros [ds desc] Hp.
        destruct (convert_row dir (ds, desc)) as [tx rx] eqn:Hrow.
        apply convert_row_outcome in Hrow
          as [[-> _]|(raw & row & _ & -> & _ & _ & _ & Hpath & _)];
          [constructor|].
        repeat constructor. cbn. rewrite Hpath. by apply (Hzip (ds, desc)).
      * repeat constructor. cbn. apply Forall_fmap.
        eapply tfor_each_results; [|exact Hloop]. intros [ds desc] tx row Hp Hrow.
        apply convert_row_outcome in Hrow
          as [[_ ?]|(raw & row' & [= <-] & _ & _ & _ & _ & Hpath & _)];
          [done|].
        cbn. rewrite Hpath. by apply (Hzip (ds, desc)).
    + intros [= <- _]. eapply tfor_each_trace; [|exact Hloop].
      intros [ds desc] Hp.
      destruct (convert_row dir (ds, desc)) as [tx rx] eqn:Hrow.
      apply convert_row_outcome in Hrow
        as [[-> _]|(raw & row & _ & -> & _ & _ & _ & Hpath & _)];
        [constructor|].
      repeat constructor. cbn. rewrite Hpath. by apply (Hzip (ds, desc)).
  - intros Hall. unfold convert_tuab_to_bids, split_not_pathological.
    rewrite filter_none; [done|].
    eapply Forall_impl; [exact Hall|]. cbn. by intros ds ->.
Qed.

Lemma healthy_only_converts_normal_witness :
  let normal := example_recording
                  "edf/train/normal/01_tcp_ar/aaaaaaab_s003_t000.edf"
                  1 "aaaaaaab" 3 0 in
  let abnormal :=
    @Build_BaseDataset example_mne example_raw
      {| path := "edf/train/abnormal/01_tcp_ar/aaaaaaaa_s001_t000.edf";
         version := "V3.0"; year := 2012; month := 3; day := 14;
         subject := 0; subject_orig := "aaaaaaaa"; session := 1;
         segment := RunInt 0; age := 34; gender := "M"; train := true;
         pathological := true |} in
  (exists bids_path raw info rows,
     @convert_tuab_to_bids example_mne [abnormal; normal] "bids" true true true
     = ([WroteRecording bids_path raw 60 info;
         WroteTable "bids/participants_extra.csv" rows], Ok tt) /\
     si_subject info = "aaaaaaab" /\ si_pathological info = false) /\
  @convert_tuab_to_bids example_mne [abnormal] "bids" true true true
  = ([], Raise (KeyError "False")).
Proof.
  intros normal abnormal. split.
  - eexists _, _, _, _. split; [reflexivity|]. split; [reflexivity|].
    pose proof (proj1 (@healthy_only_converts_normal example_mne
                         [abnormal; normal] "bids" true true) _ _ eq_refl)
      as Hall.
    apply Forall_cons in Hall as [Hinfo _].
    by apply Forall_cons in Hinfo as [? _].
  - apply (proj2 (@healthy_only_converts_normal example_mne [abnormal] "bids"
                    true true)).
    by repeat constructor.
Defined.

(** ** The first session of a subject *)

Section first_session_facts.

Context `{Mne}.

(** With the defaults of the converter the description converted is the
    reindexed one, every run named ['001']. *)
Lemma converted_description_default (concat_ds : list BaseDataset) rows :
  converted_description concat_ds true true = Ok rows ->
  rows = reset_sessions
           (set_segment (RunStr "001") <$> (description <$> concat_ds)).
Proof.
  unfold converted_description, collapse_split_files.
  destruct (array_bool _) as [[]|]; cbn [bind]; try done. by intros [= <-].
Qed.

Lemma reset_sessions_first_session description r :
  r ∈ description ->
  exists r0, r0 ∈ reset_sessions description /\
             subject r0 = subject r /\ session r0 = 1.
Proof.
  intros Hr. pose proof (reset_sessions_contiguous description (subject r)) as Hc.
  assert (r ∈ filter (fun r' => subject r' = subject r) description) as Hf
    by (by apply list_elem_of_filter).
  destruct (filter _ description) as [|x l] eqn:Ef;
    [by apply elem_of_nil in Hf|].
  cbn [length] in Hc. rewrite <- cons_seq in Hc. rewrite fmap_cons in Hc.
  destruct (filter _ (reset_sessions description)) as [|r0 l0] eqn:E0; [done|].
  injection Hc as Hs _. exists r0.
  pose proof (list_elem_of_here r0 l0) as H0. rewrite <- E0 in H0.
  apply list_elem_of_filter in H0 as [? ?]. done.
Qed.

End first_session_facts.

(** X13: the conversion with its defaults (sessions reindexed, split
    files taken as one) gives every subject of the corpus a first
    session: when it ends well, a recording has been written under
    session ['001'] and run ['001'] for the subject label of every
    dataset, which is what the processing pipelines read. *)
Theorem every_subject_has_first_session `{Mne} (concat_ds : list BaseDataset)
    (dir : string) (trace : list Event) (ds : BaseDataset) :
  convert_tuab_to_bids concat_ds dir false true true = (trace, Ok tt) ->
  ds ∈ concat_ds ->
  exists raw info,
    WroteRecording {| bp_subject := mrn_of (description ds);
                      bp_session := "001"; bp_task := "rest";
                      bp_run := RunStr "001"; bp_root := dir;
                      bp_datatype := "eeg" |} raw 60 info ∈ trace /\
    participant_id info = mrn_of (description ds).
Proof.
  intros (rows & writes & summary & Hrows & -> & Hw)%convert_tuab_to_bids_ok Hds.
  pose proof (converted_description_default _ _ Hrows) as Hdef.
  destruct (reset_sessions_first_session
              (set_segment (RunStr "001") <$> (description <$> concat_ds))
              (set_segment (RunStr "001") (description ds)))
    as (r0 & Hr0 & Hsub & Hses).
  { by do 2 apply list_elem_of_fmap_2. }
  rewrite <- Hdef in Hr0.
  assert (segment r0 = RunStr "001") as Hseg.
  { assert (Forall (fun g => g = RunStr "001") (segment <$> rows)) as Hall.
    { rewrite Hdef, (reset_sessions_fmap segment) by done.
      rewrite <- list_fmap_compose. apply Forall_fmap, Forall_forall. done. }
    rewrite Forall_fmap, Forall_forall in Hall. by apply Hall. }
  apply list_elem_of_lookup_1 in Hr0 as [i Hi].
  destruct (Forall3_lookup_l _ _ _ _ _ _ Hw Hi)
    as (ev & row & Hev & _ & (raw & -> & _ & _ & Hid & _)).
  exists raw, (row_info row). split.
  - apply elem_of_app. left. apply list_elem_of_lookup_2 in Hev.
    replace (bids_path_of dir r0) with
      {| bp_subject := mrn_of (description ds); bp_session := "001";
         bp_task := "rest"; bp_run := RunStr "001"; bp_root := dir;
         bp_datatype := "eeg" |} in Hev; [done|].
    unfold bids_path_of, mrn_of, session_nb_of. rewrite Hseg, Hses, Hsub. done.
  - rewrite Hid. unfold mrn_of. by rewrite Hsub.
Qed.

Lemma every_subject_has_first_session_witness :
  let first := example_recording
                 "edf/train/normal/01_tcp_ar/aaaaaaab_s003_t000.edf"
                 1 "aaaaaaab" 3 0 in
  let second := example_recording
                  "edf/train/normal/01_tcp_ar/aaaaaaab_s007_t000.edf"
                  1 "aaaaaaab" 7 0 in
  exists trace raw info,
    @convert_tuab_to_bids example_mne [first; second] "bids" false true true
    = (trace, Ok tt) /\
    WroteRecording {| bp_subject := "0001"; bp_session := "001";
                      bp_task := "rest"; bp_run := RunStr "001";
                      bp_root := "bids"; bp_datatype := "eeg" |} raw 60 info
      ∈ trace.
Proof.
  intros first second.
  destruct (@every_subject_has_first_session example_mne [first; second]
              "bids" _ second eq_refl) as (raw & info & Hin & _).
  { apply list_elem_of_further, list_elem_of_here. }
  eexists _, raw, info. split; [reflexivity|exact Hin].
Defined.

(** ** The whole conversion and the headers of the corpus *)

Section run_facts.

Context `{Mne}.
Variable _get_info : string -> result (option datetime).
Variable fs : files.

Lemma header_gender_class file_path a g :
  _parse_age_and_gender_from_edf_header fs file_path = Ok (a, g) ->
  g ∈ ["X"; "F"; "|"; "M"].
Proof.
  unfold _parse_age_and_gender_from_edf_header.
  destruct (_read_edf_header fs file_path) as [header|]; [|done]. cbn [bind].
  destruct (decode_ascii _) as [patient_id|]; [|done]. cbn [bind].
  destruct (match Re.findall Re.age_pattern patient_id with
            | [a] => Py.int a
            | _ => Ok (-1)
            end) as [n|]; [|done].
  cbn [bind]. intros [= _ <-].
  apply gender_or_default, findall_gender_class.
Qed.

Lemma numbered_snd {A} (l : list A) : (numbered l).*2 = l.
Proof.
  unfold numbered. rewrite <- (list_fmap_id l) at 2.
  rewrite fmap_imap. generalize (@id nat). intros _.
  induction l as [|d l IH] using rev_ind; [done|].
  rewrite imap_app, fmap_app. cbn. by rewrite IH, list_fmap_id.
Qed.

Lemma TUHAbnormal_init_ok file_paths ids reports concat_ds :
  TUHAbnormal_init _get_info fs file_paths ids reports = Ok concat_ds ->
  exists datasets,
    TUH_init _get_info fs file_paths ids reports = Ok datasets /\
    a_dataset <$> concat_ds = datasets /\
    Forall (fun a =>
              _parse_additional_description_from_file_path
                (d_path (t_description (a_dataset a)))
              = Ok (a_train a, a_pathological a)) concat_ds.
Proof.
  unfold TUHAbnormal_init.
  destruct (TUH_init _ _ _ _ _) as [datasets|]; [|done]. cbn [bind].
  intros Hloop%for_each_ok. exists datasets. split; [done|].
  induction Hloop as [|ds a datasets concat_ds Ha _ [IH1 IH2]]; [done|].
  destruct (_parse_additional_description_from_file_path _)
    as [[tr pa]|] eqn:E; [|done].
  cbn [bind] in Ha. injection Ha as <-. cbn.
  split; [by f_equal|]. by constructor.
Qed.

(** The datasets made without a selection are those of the index, one
    for each file. *)
Lemma TUH_init_all_ok file_paths reports datasets :
  TUH_init _get_info fs file_paths AllRecordings reports = Ok datasets ->
  d_path <$> (t_description <$> datasets) ≡ₚ normpath <$> file_paths /\
  Forall (fun ds =>
            _parse_age_and_gender_from_edf_header fs
              (d_path (t_description ds)) = Ok (t_age ds, t_gender ds))
         datasets.
Proof.
  intros (descriptions & cols & Hidx & -> & _ & _ & Hloop)%TUH_init_ok.
  assert (Forall2 (fun d ds =>
            t_description ds = d /\
            _parse_age_and_gender_from_edf_header fs (d_path d)
            = Ok (t_age ds, t_gender ds))
            ((numbered descriptions).*2) datasets) as Hds.
  { induction Hloop as [|c ds cols dss Hc _ IH]; [constructor|].
    rewrite fmap_cons. constructor; [|done].
    by apply _create_dataset_ok in Hc as (_ & ? & ? & _). }
  rewrite numbered_snd in Hds.
  assert (t_description <$> datasets = descriptions) as Hdesc.
  { clear -Hds. induction Hds as [|d ds l k [? _] _ IH]; [done|].
    cbn. by f_equal. }
  split.
  - rewrite Hdesc.
    apply _create_chronological_description_ok in Hidx
      as (parsed & Hparsed & _ & ->).
    rewrite (sort_values_perm parsed). clear -Hparsed.
    induction Hparsed as [|p d ps ds Hp _ IH]; [done|].
    cbn. rewrite IH. by rewrite (_parse_description_path _ _ _ Hp).
  - clear -Hds. induction Hds as [|d ds l k [<- ?] _ IH]; by constructor.
Qed.

(** The rows a conversion of the corpus has converted have a sex the
    table [SEX_TO_MNE] knows. *)
Lemma convert_tuab_to_bids_sexes (concat_ds : list BaseDataset) dir reset csf
    trace :
  convert_tuab_to_bids concat_ds dir false reset csf = (trace, Ok tt) ->
  Forall (fun ds => is_ok (SEX_TO_MNE (Py.lower (gender (description ds))))
                    = true) concat_ds.
Proof.
  unfold convert_tuab_to_bids. rewrite tbind_lift_ok.
  destruct (converted_description _ _ _) as [rows|] eqn:Hrows; [|done].
  rewrite tbind_lift_ok.
  destruct (tfor_each _ _) as [t [summary|]] eqn:Hloop; [|done]. intros _.
  pose proof (converted_description_length _ _ _ _ Hrows) as Hlen.
  apply (converted_description_keeps gender) in Hrows; [|done..].
  assert (Forall (fun desc => is_ok (SEX_TO_MNE (Py.lower (gender desc)))
                              = true) rows) as Hsex.
  { apply tfor_each_ok in Hloop as (ts & Hloop & _).
    apply Forall3_length_lm in Hloop as Hlen'.
    assert (Forall (fun desc => is_ok (SEX_TO_MNE (Py.lower (gender desc)))
                                = true)
                   ((zip concat_ds rows).*2)) as Hzip.
    { apply Forall_fmap. clear -Hloop.
      induction Hloop as [|[ds desc] tx row l ts ys Hp _ IH];
        constructor; [|done].
      apply convert_row_outcome in Hp
        as [[_ ?]|(raw & row' & _ & _ & _ & _ & _ & _ & _ & Hs)]; [done|].
      cbn. by rewrite Hs. }
    by rewrite snd_zip in Hzip by lia. }
  assert (Forall (fun g => is_ok (SEX_TO_MNE (Py.lower g)) = true)
                 (gender <$> rows)) as Hg by (by apply Forall_fmap).
  rewrite Hrows, <- list_fmap_compose in Hg. by apply Forall_fmap in Hg.
Qed.

End run_facts.

Section run_outcome_facts.

Context `{Mne}.

Lemma canonical_datasets_lookup (concat_ds : list TUHAbnormalDataset) i a :
  concat_ds !! i = Some a ->
  exists c, canonical_datasets concat_ds !! i = Some (with_subject_code a c).
Proof.
  intros Ha. unfold canonical_datasets, cat_codes.
  eexists. apply lookup_zip_with_Some. eexists _, _. split_and!; [done..|].
  by rewrite !list_lookup_fmap, Ha.
Qed.

Lemma known_sex_of_header g :
  g ∈ ["X"; "F"; "|"; "M"] -> is_ok (SEX_TO_MNE (Py.lower g)) = true ->
  g ∈ ["F"; "M"].
Proof.
  intros Hg Hsex.
  repeat (apply elem_of_cons in Hg as [->|Hg]);
    try discriminate Hsex; try by apply elem_of_nil in Hg.
  - apply list_elem_of_here.
  - apply list_elem_of_further, list_elem_of_here.
Qed.

End run_outcome_facts.

(** X14: the whole conversion ends well only on a corpus whose every
    file names the sex of the patient: when [run_tuab_bidsification] has
    ended without raising, the header of every file of the listing gave
    exactly one sex token, [F] or [M]. A file whose header gives the
    default ["X"] or a lone [|] makes the conversion raise. *)
Theorem run_needs_sex_in_every_header `{Mne}
    (_get_info : string -> result (option datetime)) (fs : files)
    (file_paths : list string) (dir : string) (trace : list Event) :
  run_tuab_bidsification _get_info fs file_paths dir = (trace, Ok tt) ->
  Forall (fun p =>
            exists a g,
              _parse_age_and_gender_from_edf_header fs (normpath p)
                = Ok (a, g) /\
              g ∈ ["F"; "M"])
         file_paths.
Proof.
  unfold run_tuab_bidsification.
  destruct (TUHAbnormal_init _ _ _ _ _) as [concat_ds|] eqn:Hinit; [|done].
  rewrite tbind_lift_ok. intros Hconv%convert_tuab_to_bids_sexes.
  apply TUHAbnormal_init_ok in Hinit as (datasets & Hinit & Hds & _).
  apply TUH_init_all_ok in Hinit as [Hperm Hheaders].
  assert (Forall (fun ds => t_gender ds ∈ ["F"; "M"]) datasets) as Hsex.
  { apply Forall_forall. intros ds Hin.
    rewrite Forall_forall in Hheaders. specialize (Hheaders ds Hin).
    apply header_gender_class in Hheaders. apply known_sex_of_header; [done|].
    rewrite <- Hds in Hin.
    apply list_elem_of_fmap in Hin as (a & -> & Ha).
    apply list_elem_of_lookup_1 in Ha as [i Hi].
    destruct (canonical_datasets_lookup _ _ _ Hi) as [c Hc].
    rewrite Forall_forall in Hconv.
    by apply (Hconv _ (list_elem_of_lookup_2 _ _ _ Hc)). }
  apply Forall_forall. intros p Hp.
  assert (normpath p ∈ d_path <$> (t_description <$> datasets)) as Hin
    by (rewrite Hperm; by apply list_elem_of_fmap_2).
  apply list_elem_of_fmap in Hin as (d & Hd & Hin).
  apply list_elem_of_fmap in Hin as (ds & -> & Hin).
  rewrite Forall_forall in Hheaders, Hsex. rewrite Hd.
  exists (t_age ds), (t_gender ds). auto.
Qed.

Lemma run_needs_sex_in_every_header_witness :
  let file_paths := ["edf/train/normal/01_tcp_ar/aaaaaaab_s007_t000.edf";
                     "edf/train/normal/01_tcp_ar/aaaaaaaa_s001_t000.edf"] in
  exists trace,
    @run_tuab_bidsification example_mne example_info example_files
      file_paths "bids" = (trace, Ok tt) /\
    Forall (fun p =>
              exists a g,
                _parse_age_and_gender_from_edf_header example_files
                  (normpath p) = Ok (a, g) /\
                g ∈ ["F"; "M"])
           file_paths.
Proof.
  intros file_paths.
  remember (@run_tuab_bidsification example_mne example_info example_files
              file_paths "bids") as out eqn:Hrun.
  assert (out.2 = Ok tt) as Hok by (rewrite Hrun; vm_compute; reflexivity).
  destruct out as [trace r]. cbn in Hok. subst r. symmetry in Hrun.
  exists trace. split; [reflexivity|].
  exact (@run_needs_sex_in_every_header example_mne example_info
           example_files file_paths "bids" trace Hrun).
Defined.

(** ** Strings, their pieces and the components of a path *)

Section string_facts.

Lemma string_app_cons c (s t : string) : String c s +:+ t = String c (s +:+ t).
Proof. reflexivity. Qed.

Lemma string_app_nil_r (s : string) : s +:+ "" = s.
Proof.
  induction s as [|c s IH]; [done|]. by rewrite string_app_cons, IH.
Qed.

Lemma string_app_assoc (s t u : string) : (s +:+ t) +:+ u = s +:+ (t +:+ u).
Proof.
  induction s as [|c s IH]; [done|]. by rewrite !string_app_cons, IH.
Qed.

Lemma rev_app_append s t u :
  String.rev_app s (t +:+ u) = String.rev_app s t +:+ u.
Proof.
  revert t. induction s as [|c s IH]; intros t; [done|].
  cbn [String.rev_app]. by rewrite <- IH.
Qed.

Lemma string_rev_cons c s : String.rev (String c s) = String.rev s +:+ String c "".
Proof.
  unfold String.rev. cbn [String.rev_app].
  by rewrite <- rev_app_append.
Qed.

(** A character that does not occur in a string *)
Lemma contains_char_cons a c t :
  Py.contains (String a "") (String c t) = false <->
  c <> a /\ Py.contains (String a "") t = false.
Proof.
  cbn [Py.contains String.prefix]. destruct (ascii_dec a c) as [->|Hne].
  - rewrite prefix_nil. cbn. split; [done|]. by intros [? _].
  - cbn. split; [intros ?; split; [congruence|done]|by intros [_ ?]].
Qed.

Lemma contains_char_app a s t :
  Py.contains (String a "") (s +:+ t) = false <->
  Py.contains (String a "") s = false /\ Py.contains (String a "") t = false.
Proof.
  induction s as [|c s IH].
  - change ("" +:+ t) with t. split; [by intros ->|by intros [_ ?]].
  - rewrite string_app_cons, !contains_char_cons, IH. tauto.
Qed.

Lemma digits_without_char a s :
  Py.is_digit a = false -> Py.all_chars Py.is_digit s = true ->
  Py.contains (String a "") s = false.
Proof.
  intros Ha. induction s as [|c s IH]; [done|]. cbn [Py.all_chars].
  intros [Hc Hs]%andb_true_iff. apply contains_char_cons.
  split; [|by apply IH]. intros ->. congruence.
Qed.

Lemma split_go_app_sep sep cur s t :
  Py.split_go sep cur (s +:+ String sep t)
  = Py.split_go sep cur s ++ Py.split t sep.
Proof.
  revert cur. induction s as [|c s IH]; intros cur.
  - change ("" +:+ String sep t) with (String sep t). cbn [Py.split_go].
    by rewrite Ascii.eqb_refl.
  - rewrite string_app_cons. cbn [Py.split_go].
    destruct (Ascii.eqb c sep); [|apply IH]. by rewrite IH.
Qed.

Lemma split_go_no_sep sep cur s :
  Py.contains (String sep "") s = false ->
  Py.split_go sep cur s = [String.rev cur +:+ s].
Proof.
  revert cur. induction s as [|c s IH]; intros cur Hs.
  - cbn. by rewrite string_app_nil_r.
  - apply contains_char_cons in Hs as [Hc Hs]. cbn [Py.split_go].
    destruct (Ascii.eqb_spec c sep); [done|].
    by rewrite (IH _ Hs), string_rev_cons, string_app_assoc.
Qed.

(** A string without the separator is one piece. *)
Lemma split_no_sep sep s :
  Py.contains (String sep "") s = false -> Py.split s sep = [s].
Proof. apply split_go_no_sep. Qed.

(** The pieces of a string with a separator in it are the pieces of what
    is before it, then those of what is after it. *)
Lemma split_app_sep sep s t :
  Py.split (s +:+ String sep t) sep = Py.split s sep ++ Py.split t sep.
Proof. apply split_go_app_sep. Qed.

Lemma join_cons sep x y l :
  Py.join sep (x :: y :: l) = x +:+ sep +:+ Py.join sep (y :: l).
Proof. reflexivity. Qed.

Lemma join_snoc sep l x :
  l <> [] -> Py.join sep (l ++ [x]) = Py.join sep l +:+ sep +:+ x.
Proof.
  induction l as [|y l IH]; [done|]. intros _. destruct l as [|z l]; [done|].
  change ((y :: z :: l) ++ [x]) with (y :: z :: (l ++ [x])).
  rewrite !join_cons. change (z :: l ++ [x]) with ((z :: l) ++ [x]).
  rewrite IH by done. by rewrite !string_app_assoc.
Qed.

(** Names without a [/] joined by [/] split into the names again. *)
Lemma split_join comps :
  comps <> [] -> Forall (fun c => Py.contains "/" c = false) comps ->
  Py.split (Py.join "/" comps) "/" = comps.
Proof.
  induction comps as [|x l IH]; [done|]. intros _ [Hx Hl]%Forall_cons.
  destruct l as [|y l]; [by apply split_no_sep|].
  rewrite join_cons. change ("/" +:+ ?s) with (String "/" s).
  rewrite split_app_sep, (split_no_sep _ _ Hx), IH by done. done.
Qed.

End string_facts.

Section normpath_facts.

Lemma normpath_step_plain n acc comp :
  plain_component comp -> normpath_step n acc comp = comp :: acc.
Proof.
  intros (_ & H1 & H2 & H3). unfold normpath_step.
  by rewrite !bool_decide_eq_false_2 by done.
Qed.

Lemma normpath_step_skip n acc comp :
  comp = "" \/ comp = "." -> normpath_step n acc comp = acc.
Proof. by intros [-> | ->]. Qed.

Lemma fold_normpath_plain n comps acc :
  Forall plain_component comps ->
  fold_left (normpath_step n) comps acc = rev comps ++ acc.
Proof.
  revert acc. induction comps as [|c l IH]; intros acc; [done|].
  intros [Hc Hl]%Forall_cons. cbn [fold_left rev].
  by rewrite (normpath_step_plain _ _ _ Hc), IH, <- app_assoc.
Qed.

Lemma string_app_nonempty (s t : string) : t <> "" -> s +:+ t <> "".
Proof. intros Ht. destruct s; [done|]. by rewrite string_app_cons. Qed.

(** The normalised path of a file in a directory ends with the name of
    the file. *)
Lemma normpath_ends_with_name dir name :
  plain_component name ->
  normpath (dir +:+ "/" +:+ name) = name \/
  exists q, normpath (dir +:+ "/" +:+ name) = q +:+ "/" +:+ name.
Proof.
  intros Hname. pose proof Hname as (Hsep & Hne & _).
  unfold normpath.
  rewrite bool_decide_eq_false_2 by (by apply string_app_nonempty).
  generalize (if String.prefix "/" (dir +:+ "/" +:+ name)
              then if String.prefix "//" (dir +:+ "/" +:+ name)
                      && negb (String.prefix "///" (dir +:+ "/" +:+ name))
                   then 2%nat else 1%nat
              else 0%nat).
  intros n. cbv zeta.
  change ("/" +:+ name) with (String "/" name).
  rewrite split_app_sep, (split_no_sep _ _ Hsep), fold_left_app.
  cbn [fold_left]. rewrite (normpath_step_plain _ _ _ Hname). cbn [rev].
  set (l := rev (fold_left (normpath_step n) (Py.split dir "/") [])).
  destruct (decide (l = [])) as [->|Hl].
  - change (Py.join "/" ([] ++ [name])) with name.
    destruct n as [|[|n]].
    + rewrite bool_decide_eq_false_2 by done. by left.
    + rewrite bool_decide_eq_false_2 by done. right. by exists "".
    + rewrite bool_decide_eq_false_2 by done. right. by exists "/".
  - rewrite (join_snoc _ _ _ Hl).
    assert (forall p : string, p +:+ "/" +:+ name <> "") as Hp
      by (intros p; by apply string_app_nonempty).
    destruct n as [|[|n]].
    + rewrite bool_decide_eq_false_2 by done. right. by eexists.
    + rewrite bool_decide_eq_false_2 by done. right.
      exists ("/" +:+ Py.join "/" l). by rewrite !string_app_assoc.
    + rewrite bool_decide_eq_false_2 by done. right.
      exists ("//" +:+ Py.join "/" l). by rewrite !string_app_assoc.
Qed.

Lemma normpath_last_component dir name :
  plain_component name ->
  List.last (Py.split (normpath (dir +:+ "/" +:+ name)) "/") "" = name.
Proof.
  intros Hname. pose proof Hname as (Hsep & _).
  destruct (normpath_ends_with_name dir name Hname) as [->|[q ->]].
  - by rewrite (split_no_sep _ _ Hsep).
  - change ("/" +:+ name) with (String "/" name).
    rewrite split_app_sep, (split_no_sep _ _ Hsep). apply last_last.
Qed.

(** Without a [.] in the stem, removing [".edf"] from the name of a file
    removes its extension. *)
Lemma replace_edf_suffix stem :
  Py.contains "." stem = false -> Py.replace (stem +:+ ".edf") ".edf" "" = stem.
Proof.
  unfold Py.replace. induction stem as [|c t IH]; [done|].
  intros [Hc Ht]%contains_char_cons. rewrite string_app_cons.
  cbn [Py.replace_from String.prefix].
  destruct (ascii_dec "." c) as [<-|_]; [done|]. by rewrite (IH Ht).
Qed.

End normpath_facts.

(** X15: a file named after the convention of the corpus,
    [<subject>_s<session>_t<segment>.edf] with the numbers padded to
    three digits, in any directory, is given the descriptor its name
    stands for: the subject id, the session and the segment as numbers,
    the date of the header probe and the normalised path. The subject id
    may be any name without [/], [_] and [.]. *)
Theorem descriptor_of_tuab_file_name
    (_get_info : string -> result (option datetime))
    (dir sub : string) (s t : N) (d : datetime) :
  let name := sub +:+ "_s" +:+ Py.zfill (pretty s) 3
                  +:+ "_t" +:+ Py.zfill (pretty t) 3 +:+ ".edf" in
  let file_path := dir +:+ "/" +:+ name in
  Py.contains "/" sub = false -> Py.contains "_" sub = false ->
  Py.contains "." sub = false ->
  (String.length (pretty s) <= Py.int_max_str_digits)%nat ->
  (String.length (pretty t) <= Py.int_max_str_digits)%nat ->
  _get_info (normpath file_path) = Ok (Some d) ->
  _parse_description_from_file_path _get_info file_path
  = Ok {| d_path := normpath file_path; d_version := "V3.0";
          d_year := dt_year d; d_month := dt_month d; d_day := dt_day d;
          d_subject := sub; d_session := Z.of_N s; d_segment := Z.of_N t |}.
Proof.
  intros name file_path Hslash Hunder Hdot Hs Ht Hinfo.
  set (sss := Py.zfill (pretty s) 3) in *.
  set (ttt := Py.zfill (pretty t) 3) in *.
  assert (forall a, Py.is_digit a = false ->
            Py.contains (String a "") sss = false /\
            Py.contains (String a "") ttt = false) as Hdigits.
  { intros a Ha. split; apply digits_without_char; try done;
      apply zfill_pretty_N_digits. }
  set (stem := sub +:+ "_s" +:+ sss +:+ "_t" +:+ ttt).
  assert (name = stem +:+ ".edf") as Hname
    by (unfold name, stem; by rewrite !string_app_assoc).
  assert (plain_component name) as Hplain.
  { split_and!.
    - unfold name. destruct (Hdigits "/"%char eq_refl) as [? ?].
      rewrite !contains_char_app. by split_and!.
    - rewrite Hname. by apply string_app_nonempty.
    - intros E. apply (f_equal String.length) in E.
      rewrite Hname, !string_app_length in E. cbn in E. lia.
    - intros E. apply (f_equal String.length) in E. unfold name in E.
      rewrite !string_app_length in E. cbn in E. lia. }
  assert (Py.replace name ".edf" "" = stem) as Hstem.
  { rewrite Hname. apply replace_edf_suffix. unfold stem.
    destruct (Hdigits "."%char eq_refl) as [? ?].
    rewrite !contains_char_app. by split_and!. }
  assert (Py.split stem "_" = [sub; "s" +:+ sss; "t" +:+ ttt]) as Hsplit.
  { unfold stem. destruct (Hdigits "_"%char eq_refl) as [? ?].
    change ("_s" +:+ ?x) with (String "_" ("s" +:+ x)).
    change ("_t" +:+ ?x) with (String "_" ("t" +:+ x)).
    rewrite split_app_sep, (split_no_sep _ sub) by done.
    rewrite <- string_app_assoc, split_app_sep.
    rewrite !split_no_sep; [done|..]; by apply contains_char_app. }
  unfold _parse_description_from_file_path. fold file_path.
  rewrite Hinfo. cbn [bind].
  unfold file_path at 1. rewrite (normpath_last_component _ _ Hplain).
  rewrite Hstem, Hsplit. cbn [unpack3 bind].
  change (Py.drop 1 ("s" +:+ sss)) with sss.
  change (Py.drop 1 ("t" +:+ ttt)) with ttt.
  unfold sss, ttt. rewrite !int_zfill_pretty_N; [done|..];
    rewrite zfill_pretty_N_length; unfold Py.int_max_str_digits in *; lia.
Qed.

Lemma descriptor_of_tuab_file_name_witness :
  _parse_description_from_file_path example_info
    "tuab//edf/train/./normal/01_tcp_ar/aaaaaaav_s004_t000.edf"
  = Ok {| d_path := "tuab/edf/train/normal/01_tcp_ar/aaaaaaav_s004_t000.edf";
          d_version := "V3.0"; d_year := 2012; d_month := 3; d_day := 14;
          d_subject := "aaaaaaav"; d_session := 4; d_segment := 0 |}.
Proof.
  apply (descriptor_of_tuab_file_name example_info
           "tuab//edf/train/./normal/01_tcp_ar" "aaaaaaav" 4 0
           (Datetime 2012 3 14 0));
    try reflexivity; vm_compute; lia.
Defined.

Section plain_path_facts.

Lemma join_head c r l :
  exists rest, Py.join "/" (String c r :: l) = String c rest.
Proof.
  destruct l as [|y l]; [by exists r|].
  rewrite join_cons, string_app_cons. by eexists.
Qed.

Lemma plain_no_slash comps :
  Forall plain_component comps ->
  Forall (fun c => Py.contains "/" c = false) comps.
Proof. intros H. eapply Forall_impl; [exact H|]. by intros c [? _]. Qed.

(** A path made of plain components is its own normal form, and its
    tokens are its components (after one empty token for the root). *)
Lemma normpath_plain (root : string) comps :
  root = "" \/ root = "/" -> comps <> [] -> Forall plain_component comps ->
  normpath (root +:+ Py.join "/" comps) = root +:+ Py.join "/" comps /\
  Py.split (root +:+ Py.join "/" comps) "/"
  = (if bool_decide (root = "") then [] else [""]) ++ comps.
Proof.
  intros Hroot Hne Hplain.
  pose proof (split_join comps Hne (plain_no_slash _ Hplain)) as Hsplit.
  pose proof (fold_normpath_plain 0 comps [] Hplain) as Hfold0.
  pose proof (fold_normpath_plain 1 comps [] Hplain) as Hfold1.
  rewrite app_nil_r in Hfold0, Hfold1.
  set (p := Py.join "/" comps) in *.
  assert (exists c rest, p = String c rest /\ c <> "/"%char) as (c & rest & Hp & Hc).
  { unfold p. destruct comps as [|x l]; [done|].
    apply Forall_inv in Hplain as (Hx & Hxne & _).
    destruct x as [|c r]; [done|]. apply contains_char_cons in Hx as [Hc _].
    destruct (join_head c r l) as [rest ->]. by exists c, rest. }
  assert (String.prefix "/" p = false) as Hprefix.
  { rewrite Hp. cbn [String.prefix]. by destruct (ascii_dec "/" c) as [<-|]. }
  destruct Hroot as [-> | ->].
  - change ("" +:+ p) with p. split; [|done].
    unfold normpath. rewrite Hprefix, Hsplit, Hfold0, rev_involutive.
    fold p. by rewrite !bool_decide_eq_false_2 by (by rewrite Hp).
  - change ("/" +:+ p) with (String "/" p).
    assert (Py.split (String "/" p) "/" = "" :: comps) as Hsplit'.
    { change (String "/" p) with ("" +:+ String "/" p).
      by rewrite split_app_sep, Hsplit. }
    split; [|done]. unfold normpath. rewrite Hsplit'.
    assert (String.prefix "//" (String "/" p) = false) as ->.
    { cbn [String.prefix]. destruct (ascii_dec "/" "/"); [|done].
      exact Hprefix. }
    assert (String.prefix "/" (String "/" p) = true) as ->.
    { cbn [String.prefix]. destruct (ascii_dec "/" "/"); [|done].
      apply prefix_nil. }
    cbn [andb fold_left].
    rewrite (normpath_step_skip 1 [] "") by by left.
    rewrite Hfold1, rev_involutive. fold p.
    by rewrite !bool_decide_eq_false_2 by done.
Qed.

End plain_path_facts.

(** X16: for a path made of plain components (relative, or from the
    root), the labels of a recording are read from the names of its
    directories: it is pathological when a component is [abnormal], and of
    the training set when a component is [train]. A path with neither
    [abnormal] nor [normal] among its components, or with neither [train]
    nor [eval], is refused by an assertion; a name that only contains such
    a word does not count. *)
Theorem labels_of_plain_path (root : string) (comps : list string) :
  root = "" \/ root = "/" -> comps <> [] -> Forall plain_component comps ->
  _parse_additional_description_from_file_path (root +:+ Py.join "/" comps)
  = if bool_decide ("abnormal" ∈ comps \/ "normal" ∈ comps)
    then if bool_decide ("train" ∈ comps \/ "eval" ∈ comps)
         then Ok (bool_decide ("train" ∈ comps),
                  bool_decide ("abnormal" ∈ comps))
         else Raise (AssertionError "No train or eval set information found.")
    else Raise (AssertionError "No pathology labels found.").
Proof.
  intros Hroot Hne Hplain.
  destruct (normpath_plain root comps Hroot Hne Hplain) as [Hnorm Hsplit].
  unfold _parse_additional_description_from_file_path.
  rewrite Hnorm, Hsplit.
  assert (forall t : string, t <> "" ->
            bool_decide
              (t ∈ (if bool_decide (root = "") then [] else [""]) ++ comps)
            = bool_decide (t ∈ comps)) as Htoken.
  { intros t Ht. apply bool_decide_ext. case_bool_decide; [done|].
    rewrite elem_of_app, list_elem_of_singleton. tauto. }
  cbv zeta. rewrite !Htoken by done.
  destruct (decide ("abnormal" ∈ comps)), (decide ("normal" ∈ comps)),
    (decide ("train" ∈ comps)), (decide ("eval" ∈ comps));
    repeat (rewrite ?bool_decide_eq_true_2, ?bool_decide_eq_false_2
              by (done || tauto));
    reflexivity.
Qed.

Lemma labels_of_plain_path_witness :
  _parse_additional_description_from_file_path
    "/tuab/edf/eval/abnormal/01_tcp_ar/aaaaaaav_s004_t000.edf"
  = Ok (false, true) /\
  _parse_additional_description_from_file_path
    "edf/train/abnormal_or_normal/01_tcp_ar/aaaaaaav_s004_t000.edf"
  = Raise (AssertionError "No pathology labels found.").
Proof.
  split.
  - apply (labels_of_plain_path "/"
             ["tuab"; "edf"; "eval"; "abnormal"; "01_tcp_ar";
              "aaaaaaav_s004_t000.edf"]); [by right|done|].
    repeat constructor; done.
  - apply (labels_of_plain_path ""
             ["edf"; "train"; "abnormal_or_normal"; "01_tcp_ar";
              "aaaaaaav_s004_t000.edf"]); [by left|done|].
    repeat constructor; done.
Defined.

(** ** Normal paths *)

Section normal_path_facts.

Lemma normpath_unfold path :
  normpath path =
  if bool_decide (path = "") then "."
  else render_path (initial_slashes path)
         (rev (fold_left (normpath_step (initial_slashes path))
                 (Py.split path "/") [])).
Proof. reflexivity. Qed.

Lemma split_go_no_slash sep cur s :
  Py.contains (String sep "") (String.rev cur) = false ->
  Forall (fun c => Py.contains (String sep "") c = false)
         (Py.split_go sep cur s).
Proof.
  revert cur. induction s as [|c s IH]; intros cur Hcur; cbn [Py.split_go].
  - by constructor.
  - destruct (Ascii.eqb_spec c sep) as [->|Hc].
    + constructor; [done|]. by apply IH.
    + apply IH. rewrite string_rev_cons. apply contains_char_app.
      split; [done|]. by apply contains_char_cons.
Qed.

Lemma split_no_slash s :
  Forall (fun c => Py.contains "/" c = false) (Py.split s "/").
Proof. by apply split_go_no_slash. Qed.

Lemma rev_replicate {A} k (x : A) : rev (replicate k x) = replicate k x.
Proof.
  induction k as [|k IH]; [done|]. cbn [replicate rev]. rewrite IH.
  clear. induction k as [|k IH]; [done|]. cbn. by rewrite IH.
Qed.

(** What [normpath] has kept so far, last component first *)
Lemma normpath_step_kept n acc comp :
  Py.contains "/" comp = false ->
  (exists k rest, acc = rev rest ++ replicate k ".." /\
                  Forall plain_component rest /\ (n <> 0%nat -> k = 0%nat)) ->
  exists k rest, normpath_step n acc comp = rev rest ++ replicate k ".." /\
                 Forall plain_component rest /\ (n <> 0%nat -> k = 0%nat).
Proof.
  intros Hcomp (k & rest & -> & Hrest & Hk). unfold normpath_step.
  destruct (decide (comp = "")) as [->|H1]; [by exists k, rest|].
  destruct (decide (comp = ".")) as [->|H2]; [by exists k, rest|].
  rewrite !bool_decide_eq_false_2 by done. cbn [orb].
  destruct (decide (comp = "..")) as [->|H3].
  - rewrite bool_decide_eq_true_2 by done. cbn [negb orb].
    destruct rest as [|x rest _] using rev_ind.
    + cbn [rev app]. destruct k as [|k].
      * cbn [replicate]. destruct n as [|n].
        -- cbn. by exists 1%nat, [].
        -- cbn. by exists 0%nat, [].
      * specialize (fun H => eq_sym (Hk H)).
        destruct n as [|n]; [|by discriminate Hk].
        rewrite (bool_decide_eq_true_2 (head _ = _)) by done.
        rewrite orb_true_r. by exists (S (S k)), [].
    + apply Forall_app in Hrest as [Hrest [Hx _]%Forall_cons].
      rewrite rev_app_distr. cbn [rev app].
      rewrite (bool_decide_eq_false_2 (_ :: _ = [])) by done.
      rewrite (bool_decide_eq_false_2 (head _ = _)).
      2: { cbn. intros [= ->]. by destruct Hx as (_ & _ & _ & ?). }
      rewrite andb_false_r. cbn. by exists k, rest.
  - rewrite (bool_decide_eq_false_2 (comp = "..")) by done. cbn [negb orb].
    exists k, (rest ++ [comp]). split_and!; [|..|done].
    + by rewrite rev_app_distr.
    + apply Forall_app. split; [done|]. by repeat constructor.
Qed.

Lemma fold_normpath_kept n comps acc :
  Forall (fun c => Py.contains "/" c = false) comps ->
  (exists k rest, acc = rev rest ++ replicate k ".." /\
                  Forall plain_component rest /\ (n <> 0%nat -> k = 0%nat)) ->
  exists k rest,
    fold_left (normpath_step n) comps acc = rev rest ++ replicate k ".." /\
    Forall plain_component rest /\ (n <> 0%nat -> k = 0%nat).
Proof.
  revert acc. induction comps as [|c l IH]; intros acc; [by intros _ ?|].
  intros [Hc Hl]%Forall_cons Hacc. cbn [fold_left].
  apply IH; [done|]. by apply normpath_step_kept.
Qed.

(** The components [normpath] keeps are those of a normal path. *)
Lemma normpath_comps_normal n path :
  normal_comps n (rev (fold_left (normpath_step n) (Py.split path "/") [])).
Proof.
  destruct (fold_normpath_kept n (Py.split path "/") [] (split_no_slash path))
    as (k & rest & -> & Hrest & Hk).
  { by exists 0%nat, []. }
  exists k, rest. split_and!; [|done..].
  by rewrite rev_app_distr, rev_replicate, rev_involutive.
Qed.

Lemma fold_normpath_dotdot k j :
  fold_left (normpath_step 0) (replicate k "..") (replicate j "..")
  = replicate (k + j) "..".
Proof.
  revert j. induction k as [|k IH]; intros j; [done|].
  cbn [replicate fold_left].
  replace (normpath_step 0 (replicate j "..") "..") with (replicate (S j) "..");
    [rewrite IH; f_equal; lia|].
  by destruct j.
Qed.

(** On the components of a normal path [normpath] keeps them all. *)
Lemma fold_normpath_normal n comps :
  normal_comps n comps ->
  fold_left (normpath_step n) comps [] = rev comps.
Proof.
  intros (k & rest & -> & Hrest & Hk). rewrite fold_left_app.
  destruct (decide (n = 0%nat)) as [->|Hn].
  - pose proof (fold_normpath_dotdot k 0) as E.
    cbn [replicate] in E. rewrite E, Nat.add_0_r.
    rewrite (fold_normpath_plain _ _ _ Hrest).
    by rewrite rev_app_distr, rev_replicate.
  - rewrite (Hk Hn). cbn [replicate fold_left app].
    by rewrite (fold_normpath_plain _ _ _ Hrest), app_nil_r.
Qed.

Lemma normal_comps_no_slash n comps :
  normal_comps n comps ->
  Forall (fun c => Py.contains "/" c = false /\ c <> "") comps.
Proof.
  intros (k & rest & -> & Hrest & _). apply Forall_app. split.
  - apply Forall_forall. by intros c [-> _]%elem_of_replicate.
  - eapply Forall_impl; [exact Hrest|]. by intros c (? & ? & _).
Qed.

Lemma initial_slashes_le path : (initial_slashes path <= 2)%nat.
Proof. unfold initial_slashes. repeat case_match; lia. Qed.

(** The path made of normal components gives these components back. *)
Lemma render_path_normal n comps :
  (n <= 2)%nat -> normal_comps n comps ->
  render_path n comps <> "" /\
  initial_slashes (render_path n comps) = n /\
  fold_left (normpath_step n) (Py.split (render_path n comps) "/") []
  = rev comps.
Proof.
  intros Hn Hnormal.
  destruct (decide (comps = [])) as [->|Hne].
  { destruct n as [|[|[|n]]]; [by split_and!..|lia]. }
  pose proof (normal_comps_no_slash _ _ Hnormal) as Hall.
  assert (Py.split (Py.join "/" comps) "/" = comps) as Hsplit.
  { apply split_join; [done|]. eapply Forall_impl; [exact Hall|].
    by intros c [? _]. }
  pose proof (fold_normpath_normal _ _ Hnormal) as Hfold.
  unfold render_path. set (p := Py.join "/" comps) in *.
  assert (exists c rest, p = String c rest /\ c <> "/"%char)
    as (c & rest & Hp & Hc).
  { unfold p. destruct comps as [|x l]; [done|].
    apply Forall_inv in Hall as [Hx Hxne].
    destruct x as [|c r]; [done|]. apply contains_char_cons in Hx as [Hc _].
    destruct (join_head c r l) as [rest ->]. by exists c, rest. }
  assert (String.prefix "/" p = false) as Hprefix.
  { rewrite Hp. cbn [String.prefix]. by destruct (ascii_dec "/" c) as [<-|]. }
  assert (forall s, String.prefix "/" (String "/" s) = true) as Hslash.
  { intros s. cbn [String.prefix]. destruct (ascii_dec "/" "/"); [|done].
    apply prefix_nil. }
  assert (forall s, String.prefix "//" (String "/" s) = String.prefix "/" s)
    as Hslash2.
  { intros s. cbn [String.prefix]. by destruct (ascii_dec "/" "/"). }
  assert (forall s, String.prefix "///" (String "/" s) = String.prefix "//" s)
    as Hslash3.
  { intros s. cbn [String.prefix]. by destruct (ascii_dec "/" "/"). }
  destruct n as [|[|[|n]]]; [| | |lia]; cbv zeta.
  - rewrite bool_decide_eq_false_2 by (by rewrite Hp).
    split_and!; [by rewrite Hp| |by rewrite Hsplit].
    unfold initial_slashes. by rewrite Hprefix.
  - change ("/" +:+ p) with (String "/" p).
    rewrite bool_decide_eq_false_2 by done. split_and!; [done|..].
    + unfold initial_slashes. by rewrite Hslash, Hslash2, Hprefix.
    + change (String "/" p) with ("" +:+ String "/" p).
      rewrite split_app_sep, Hsplit. exact Hfold.
  - change ("//" +:+ p) with (String "/" (String "/" p)).
    rewrite bool_decide_eq_false_2 by done. split_and!; [done|..].
    + unfold initial_slashes.
      by rewrite Hslash, Hslash2, Hslash, Hslash3, Hslash2, Hprefix.
    + change (String "/" (String "/" p)) with ("" +:+ String "/" ("" +:+ String "/" p)).
      rewrite !split_app_sep, Hsplit. exact Hfold.
Qed.

(** Normalising a path twice is normalising it once. *)
Lemma normpath_idempotent path : normpath (normpath path) = normpath path.
Proof.
  rewrite (normpath_unfold path). case_bool_decide; [reflexivity|].
  set (n := initial_slashes path).
  set (comps := rev (fold_left (normpath_step n) (Py.split path "/") [])).
  destruct (render_path_normal n comps) as (Hne & Hn & Hfold).
  { apply initial_slashes_le. }
  { apply normpath_comps_normal. }
  rewrite normpath_unfold, bool_decide_eq_false_2 by done.
  by rewrite Hn, Hfold, rev_involutive.
Qed.

End normal_path_facts.

(** X17: the parsers of the paths do not tell a path from its normal
    form: the descriptor (or the exception) of a path is that of its
    normalised path, and so are its labels. The path a descriptor stores
    is normalised, so the labels [TUHAbnormal] reads from the stored path
    are those of the file path of the listing, and the stored path
    describes itself. *)
Theorem parsers_ignore_normalisation
    (_get_info : string -> result (option datetime)) (file_path : string) :
  _parse_description_from_file_path _get_info (normpath file_path)
  = _parse_description_from_file_path _get_info file_path /\
  _parse_additional_description_from_file_path (normpath file_path)
  = _parse_additional_description_from_file_path file_path /\
  forall d,
    _parse_description_from_file_path _get_info file_path = Ok d ->
    _parse_description_from_file_path _get_info (d_path d) = Ok d.
Proof.
  assert (_parse_description_from_file_path _get_info (normpath file_path)
          = _parse_description_from_file_path _get_info file_path) as Hsame.
  { unfold _parse_description_from_file_path.
    by rewrite normpath_idempotent. }
  split_and!; [done| |].
  - unfold _parse_additional_description_from_file_path.
    by rewrite normpath_idempotent.
  - intros d Hd. rewrite (_parse_description_path _ _ _ Hd).
    by rewrite Hsame.
Qed.

Lemma parsers_ignore_normalisation_witness :
  let d := {| d_path := "tuab/edf/train/normal/01_tcp_ar/aaaaaaav_s004_t000.edf";
              d_version := "V3.0"; d_year := 2012; d_month := 3; d_day := 14;
              d_subject := "aaaaaaav"; d_session := 4; d_segment := 0 |} in
  _parse_description_from_file_path example_info
    "tuab//edf/eval/../train/./normal/01_tcp_ar/aaaaaaav_s004_t000.edf"
  = Ok d /\
  _parse_description_from_file_path example_info (d_path d) = Ok d.
Proof.
  intros d. split; [reflexivity|].
  apply (proj2 (proj2 (parsers_ignore_normalisation example_info
    "tuab//edf/eval/../train/./normal/01_tcp_ar/aaaaaaav_s004_t000.edf")) d).
  reflexivity.
Defined.

(** ** The channel names of the corpus *)

Section channel_name_facts.

Lemma prefix_app_inv sub s :
  String.prefix sub s = true -> exists r, s = sub +:+ r.
Proof.
  revert s. induction sub as [|a sub IH]; intros s; [by exists s|].
  destruct s as [|b s]; [done|]. cbn [String.prefix].
  destruct (ascii_dec a b) as [<-|]; [|done].
  intros [r ->]%IH. by exists r.
Qed.

(** A string without a character holds no string with that character. *)
Lemma contains_char_sub a sub s :
  Py.contains (String a "") s = false ->
  Py.contains (String a "") sub = true ->
  Py.contains sub s = false.
Proof.
  intros Hs Hsub. induction s as [|c t IH].
  - destruct sub; [done|]. reflexivity.
  - cbn [Py.contains]. pose proof Hs as [_ Ht]%contains_char_cons.
    rewrite (IH Ht), orb_false_r.
    destruct (String.prefix sub (String c t)) eqn:Hp; [|done].
    apply prefix_app_inv in Hp as [r Hr]. rewrite Hr in Hs.
    apply contains_char_app in Hs as [Hs _]. congruence.
Qed.

Lemma replace_EEG_prefix y :
  Py.contains " " y = false -> Py.replace ("EEG " +:+ y) "EEG " "" = y.
Proof.
  intros Hy. unfold Py.replace.
  change ("EEG " +:+ y) with (String "E" (String "E" (String "G" (String " " y)))).
  cbn [Py.replace_from String.prefix String.length Nat.sub].
  repeat (destruct (ascii_dec _ _); [|done]). rewrite prefix_nil.
  change ("" +:+ ?s) with s. apply replace_from_absent.
  by apply (contains_char_sub " ").
Qed.

Lemma replace_REF_suffix x :
  Py.contains "-" x = false -> Py.replace (x +:+ "-REF") "-REF" "" = x.
Proof.
  unfold Py.replace. induction x as [|c t IH]; [done|].
  intros [Hc Ht]%contains_char_cons. rewrite string_app_cons.
  cbn [Py.replace_from String.prefix].
  destruct (ascii_dec "-" c) as [<-|_]; [done|]. by rewrite (IH Ht).
Qed.

End channel_name_facts.

(** X18: a channel named ["EEG <name>-REF"], where the name holds no
    blank and no hyphen, is renamed to its name with every ["FP"] turned
    into ["Fp"] and every ["Z"] into ["z"]; when this is a name of the
    exclusion list the channel keeps the name it had. *)
Theorem rename_reference_channel (x : string) :
  Py.contains " " x = false -> Py.contains "-" x = false ->
  let out := Py.replace (Py.replace x "FP" "Fp") "Z" "z" in
  rename_tuh_channels ("EEG " +:+ x +:+ "-REF")
  = if bool_decide (out ∈ exclude) then "EEG " +:+ x +:+ "-REF" else out.
Proof.
  intros Hblank Hhyphen out. unfold rename_tuh_channels.
  assert (Py.contains "EEG" ("EEG " +:+ x +:+ "-REF") = true) as ->.
  { change ("EEG " +:+ ?y) with (String "E" (String "E" (String "G" (String " " y)))).
    cbn [Py.contains String.prefix].
    repeat (destruct (ascii_dec _ _); [|done]). by rewrite prefix_nil. }
  assert (rewrite_rules ("EEG " +:+ x +:+ "-REF") = out) as ->; [|done].
  unfold rewrite_rules. rewrite replace_EEG_prefix.
  - by rewrite (replace_REF_suffix x Hhyphen).
  - by apply contains_char_app.
Qed.

Lemma rename_reference_channel_witness :
  rename_tuh_channels "EEG FPZ-REF" = "Fpz" /\
  rename_tuh_channels "EEG EKG1-REF" = "EEG EKG1-REF".
Proof.
  split.
  - apply (rename_reference_channel "FPZ"); reflexivity.
  - apply (rename_reference_channel "EKG1"); reflexivity.
Defined.

(** ** One row for each file *)

Section run_summary_facts.

Context `{Mne}.

Lemma canonical_datasets_subject_orig (concat_ds : list TUHAbnormalDataset) :
  (fun ds => subject_orig (description ds)) <$> canonical_datasets concat_ds
  = raw_subject <$> concat_ds.
Proof.
  apply list_eq. intros i. rewrite !list_lookup_fmap.
  destruct (concat_ds !! i) as [a|] eqn:Ha.
  - destruct (canonical_datasets_lookup _ _ _ Ha) as [c ->]. done.
  - unfold canonical_datasets.
    rewrite (proj2 (lookup_zip_with_None _ _ _ _)); [done|]. by left.
Qed.

Lemma canonical_datasets_length (concat_ds : list TUHAbnormalDataset) :
  length (canonical_datasets concat_ds) = length concat_ds.
Proof.
  unfold canonical_datasets, cat_codes.
  rewrite length_zip_with, !length_fmap. lia.
Qed.

Lemma wrote_rows_subjects dir rows writes summary :
  Forall3 (wrote_row dir) rows writes summary ->
  (fun row => si_subject (row_info row)) <$> summary = subject_orig <$> rows /\
  Forall is_recording_write writes.
Proof.
  induction 1 as [|desc ev row rows writes summary
                    (raw & -> & _ & _ & _ & Hsub) _ [IH1 IH2]];
    [by split|].
  split; [cbn; by f_equal|]. by constructor.
Qed.

End run_summary_facts.

(** X19: when the whole conversion ends well it has converted every file
    of the listing once: one recording is written for each file, then the
    summary table, which has one row for each file, in the order of the
    chronological index, with the raw subject id read from the name of
    the file. *)
Theorem run_converts_every_file `{Mne}
    (_get_info : string -> result (option datetime)) (fs : files)
    (file_paths : list string) (dir : string) (trace : list Event) :
  run_tuab_bidsification _get_info fs file_paths dir = (trace, Ok tt) ->
  exists writes summary parsed,
    trace = writes ++ [WroteTable (dir +:+ "/participants_extra.csv") summary] /\
    Forall is_recording_write writes /\
    length writes = length file_paths /\
    length summary = length file_paths /\
    Forall2 (fun p d => _parse_description_from_file_path _get_info p = Ok d)
            file_paths parsed /\
    (fun row => si_subject (row_info row)) <$> summary
    = d_subject <$> sort_values parsed.
Proof.
  unfold run_tuab_bidsification.
  destruct (TUHAbnormal_init _ _ _ _ _) as [concat_ds|] eqn:Hinit; [|done].
  rewrite tbind_lift_ok.
  intros (rows & writes & summary & Hrows & -> & Hw)%convert_tuab_to_bids_ok.
  apply TUHAbnormal_init_ok in Hinit as (datasets & Hinit & Hds & _).
  apply TUH_init_datasets in Hinit as (descriptions & Hidx & Hdesc).
  pose proof (_create_chronological_description_length _ _ _ Hidx) as Hlen.
  apply _create_chronological_description_ok in Hidx
    as (parsed & Hparsed & _ & ->).
  pose proof (Forall3_length_lm _ _ _ _ Hw) as Hlw.
  pose proof (Forall3_length_lr _ _ _ _ Hw) as Hls.
  pose proof (converted_description_length _ _ _ _ Hrows) as Hlr.
  rewrite canonical_datasets_length in Hlr.
  assert (length concat_ds = length file_paths) as Hlc.
  { rewrite <- Hlen, <- Hdesc, <- Hds. by rewrite !length_fmap. }
  apply wrote_rows_subjects in Hw as [Hsub Hwrites].
  exists writes, summary, parsed. split_and!; [done|done|lia|lia|done|].
  rewrite Hsub.
  apply (converted_description_keeps subject_orig) in Hrows; [|done..].
  rewrite Hrows.
  rewrite <- list_fmap_compose.
  change (subject_orig ∘ description)
    with (fun ds : BaseDataset => subject_orig (description ds)).
  rewrite canonical_datasets_subject_orig, <- Hdesc, <- Hds.
  by rewrite <- !list_fmap_compose.
Qed.

Lemma run_converts_every_file_witness :
  let file_paths := ["edf/train/normal/01_tcp_ar/aaaaaaab_s007_t000.edf";
                     "edf/train/normal/01_tcp_ar/aaaaaaaa_s001_t000.edf"] in
  exists trace writes summary,
    @run_tuab_bidsification example_mne example_info example_files
      file_paths "bids" = (trace, Ok tt) /\
    trace = writes ++ [WroteTable "bids/participants_extra.csv" summary] /\
    length writes = 2%nat /\
    (fun row => si_subject (row_info row)) <$> summary
    = ["aaaaaaaa"; "aaaaaaab"].
Proof.
  intros file_paths.
  remember (@run_tuab_bidsification example_mne example_info example_files
              file_paths "bids") as out eqn:Hrun.
  assert (out.2 = Ok tt) as Hok by (rewrite Hrun; vm_compute; reflexivity).
  destruct out as [trace r]. cbn in Hok. subst r. symmetry in Hrun.
  destruct (@run_converts_every_file example_mne example_info example_files
              file_paths "bids" trace Hrun)
    as (writes & summary & parsed & Htrace & _ & Hlen & _ & Hparsed & Hsub).
  exists trace, writes, summary. split; [reflexivity|].
  split; [exact Htrace|]. split; [exact Hlen|].
  rewrite Hsub. clear -Hparsed.
  apply Forall2_cons_inv_l in Hparsed as (d1 & l1 & H1 & Hparsed & ->).
  apply Forall2_cons_inv_l in Hparsed as (d2 & l2 & H2 & Hparsed & ->).
  apply Forall2_nil_inv_l in Hparsed as ->.
  vm_compute in H1, H2. injection H1 as <-. injection H2 as <-. reflexivity.
Defined.

(** ** Reindexing twice *)

Section reindex_twice_facts.

Lemma reset_sessions_filter_length description s :
  length (filter (fun r => subject r = s) (reset_sessions description))
  = length (filter (fun r => subject r = s) description).
Proof.
  pose proof (reset_sessions_contiguous description s) as H.
  apply (f_equal length) in H. by rewrite !length_fmap, length_seq in H.
Qed.

Lemma reset_sessions_same_subject_length description r :
  length (filter (same_subject r) (reset_sessions description))
  = length (filter (same_subject r) description).
Proof. exact (reset_sessions_filter_length description (subject r)). Qed.

Lemma set_segment_same_subject_length g description r :
  length (filter (same_subject r) (set_segment g <$> description))
  = length (filter (same_subject r) description).
Proof.
  pose proof (filter_subject_set_segment g (subject r) description) as Hf.
  apply (f_equal length) in Hf. rewrite length_fmap in Hf. exact Hf.
Qed.

End reindex_twice_facts.

(** X20: reindexing the sessions is idempotent: a description whose
    sessions have been reindexed is left as it is by a second reindexing,
    and the reindexing does not look at the segments, so that it gives
    the same sessions before and after the split files are taken as
    one. *)
Theorem reset_sessions_idempotent (description : list Recording) :
  reset_sessions (reset_sessions description) = reset_sessions description /\
  forall g,
    reset_sessions (set_segment g <$> description)
    = set_segment g <$> reset_sessions description.
Proof.
  split.
  - induction description as [|r l IH] using rev_ind; [done|].
    rewrite reset_sessions_snoc at 1 2. rewrite reset_sessions_snoc, IH.
    f_equal. f_equal.
    change (filter (same_subject (set_session ?n r)) ?k)
      with (filter (same_subject r) k).
    by rewrite reset_sessions_same_subject_length.
  - intros g. induction description as [|r l IH] using rev_ind; [done|].
    rewrite fmap_app. change (set_segment g <$> [r]) with [set_segment g r].
    rewrite !reset_sessions_snoc, fmap_app, IH. f_equal. cbn.
    change (filter (same_subject (set_segment g r)) ?k)
      with (filter (same_subject r) k).
    by rewrite set_segment_same_subject_length.
Qed.

(** ** An age in the header *)

Section age_field_facts.

Lemma prefix_Age_app u v :
  String.prefix "Age:" (u +:+ "Age:" +:+ v) = true ->
  u = "" \/ String.prefix "Age:" u = true.
Proof.
  destruct u as [|a [|b [|c [|d u]]]]; [by left|..]; intros Hp; right;
    revert Hp; rewrite ?string_app_cons;
    change ("" +:+ "Age:" +:+ v)
      with (String "A" (String "g" (String "e" (String ":" v))));
    cbn [String.prefix];
    repeat (match goal with
            | |- context [ascii_dec ?x ?y] =>
                destruct (ascii_dec x y) as [?|?]; simplify_eq; try done
            end);
    by rewrite ?prefix_nil.
Qed.

Lemma age_pattern_no_prefix s :
  String.prefix "Age:" s = false -> Re.age_pattern s = None.
Proof. unfold Re.age_pattern. by intros ->. Qed.

(** No match starts in a text without ["Age:"]. *)
Lemma findall_age_absent s :
  Py.contains "Age:" s = false -> Re.findall_from Re.age_pattern 0 s = [].
Proof.
  induction s as [|c t IH]; [done|]. intros [Hp Ht]%contains_cons.
  cbn [Re.findall_from]. by rewrite (age_pattern_no_prefix _ Hp), IH.
Qed.

Lemma findall_from_skip p (u v : string) :
  Re.findall_from p (String.length u) (u +:+ v) = Re.findall_from p 0 v.
Proof.
  induction u as [|c u IH]; [done|]. rewrite string_app_cons. exact IH.
Qed.

Lemma take_while_digits ds post :
  Py.all_chars Py.is_digit ds = true ->
  Py.take_while Py.is_digit post = "" ->
  Py.take_while Py.is_digit (ds +:+ post) = ds.
Proof.
  intros Hds Hpost. induction ds as [|c ds IH]; [done|].
  cbn [Py.all_chars] in Hds. apply andb_true_iff in Hds as [Hc Hds].
  rewrite string_app_cons. cbn [Py.take_while]. by rewrite Hc, IH.
Qed.

(** One ["Age:"] followed by digits is found once, with its digits. *)
Lemma findall_age_once pre ds post :
  Py.contains "Age:" pre = false -> Py.contains "Age:" post = false ->
  ds <> "" -> Py.all_chars Py.is_digit ds = true ->
  Py.take_while Py.is_digit post = "" ->
  Re.findall Re.age_pattern (pre +:+ "Age:" +:+ ds +:+ post) = [ds].
Proof.
  intros Hpre Hpost Hne Hds Hstop. unfold Re.findall.
  induction pre as [|c t IH].
  - change ("" +:+ "Age:" +:+ ds +:+ post)
      with (String "A" ("ge:" +:+ ds +:+ post)).
    cbn [Re.findall_from].
    assert (Re.age_pattern (String "A" ("ge:" +:+ ds +:+ post))
            = Some (ds, (4 + String.length ds)%nat)) as ->.
    { unfold Re.age_pattern.
      change (String "A" ("ge:" +:+ ds +:+ post)) with ("Age:" +:+ ds +:+ post).
      change (Py.drop 4 ("Age:" +:+ ds +:+ post)) with (ds +:+ post).
      rewrite (take_while_digits _ _ Hds Hstop).
      change ("Age:" +:+ ds +:+ post)
        with (String "A" (String "g" (String "e" (String ":" (ds +:+ post))))).
      cbn [String.prefix]. repeat (destruct (ascii_dec _ _); [|done]).
      rewrite prefix_nil. by destruct ds. }
    f_equal.
    replace (4 + String.length ds - 1)%nat
      with (String.length ("ge:" +:+ ds)) by (rewrite string_app_length; cbn; lia).
    rewrite <- (string_app_assoc "ge:" ds post), findall_from_skip.
    by apply findall_age_absent.
  - pose proof Hpre as [Hp Ht]%contains_cons. rewrite string_app_cons.
    cbn [Re.findall_from].
    rewrite age_pattern_no_prefix; [by apply IH|].
    destruct (String.prefix "Age:" (String c (t +:+ "Age:" +:+ ds +:+ post)))
      eqn:E; [|done].
    rewrite <- string_app_cons in E.
    apply prefix_Age_app in E as [?|E]; [done|congruence].
Qed.

End age_field_facts.

(** X21: when the patient field of the header is ASCII and holds the text
    ["Age:"] once, followed by the decimal digits of a number and then by
    the end of the field or a character that is no digit, the extractor
    returns that number as the age. *)
Theorem header_age_found (fs : files) (file_path : string)
    (content : list Byte.byte) (pre post : string) (n : N) :
  fs file_path = Some content ->
  drop 8 (take 88 content)
  = String.list_byte_of_string (pre +:+ "Age:" +:+ pretty n +:+ post) ->
  Forall (fun b => (Byte.to_N b < 128)%N) (drop 8 (take 88 content)) ->
  Py.contains "Age:" pre = false -> Py.contains "Age:" post = false ->
  Py.take_while Py.is_digit post = "" ->
  exists gender,
    _parse_age_and_gender_from_edf_header fs file_path
    = Ok (Z.of_N n, gender).
Proof.
  intros Hfs Hfield Hascii Hpre Hpost Hstop.
  unfold _parse_age_and_gender_from_edf_header, _read_edf_header.
  rewrite Hfs. cbn [bind]. rewrite (decode_ascii_ok _ Hascii). cbn [bind].
  assert (length (drop 8 (take 88 content)) <= 80)%nat as Hlen
    by (rewrite length_drop, length_take; lia).
  rewrite Hfield in Hlen |- *.
  rewrite String.string_of_list_byte_of_string.
  rewrite (findall_age_once pre (pretty n) post);
    [|done|done|apply pretty_N_nonempty|apply pretty_N_digits|done].
  assert (String.length (pretty n) <= 80)%nat as Hn.
  { rewrite <- string_of_list_byte_length in Hlen.
    rewrite String.string_of_list_byte_of_string, !string_app_length in Hlen.
    lia. }
  pose proof (int_zfill_pretty_N n 0) as Hint.
  rewrite zfill_pretty_N_length, zfill_pretty_N in Hint.
  change (Py.zeros (0 - String.length (pretty n)) +:+ pretty n)
    with (pretty n) in Hint.
  rewrite Hint by (unfold Py.int_max_str_digits; lia).
  cbn [bind]. by eexists.
Qed.

Lemma header_age_found_witness :
  exists gender,
    _parse_age_and_gender_from_edf_header example_files
      "aaaaaaav_s004_t000.edf" = Ok (34, gender).
Proof.
  apply (header_age_found example_files "aaaaaaav_s004_t000.edf"
           example_header "aaaaaaav M 01-JAN-1985 aaaaaaav " "" 34);
    try reflexivity.
  apply Forall_forall. intros b Hb. apply N.ltb_lt.
  revert b Hb. apply Forall_forall. vm_compute. repeat constructor.
Defined.

(** ** The results of a benchmark *)

Section benchmark_path_facts.

Lemma parse_part_plain x : plain_component x -> parse_part x = ("", [x]).
Proof.
  intros (Hsep & Hne & Hdot & _). unfold parse_part, splitroot.
  destruct x as [|c t]; [done|].
  pose proof Hsep as [Hc _]%contains_char_cons.
  destruct (Ascii.eqb_spec c "/"); [done|].
  rewrite (split_no_sep _ _ Hsep). by rewrite filter_cons_True, filter_nil.
Qed.

Lemma path_div_plain p x :
  plain_component x ->
  path_div p x = {| pp_root := pp_root p; pp_parts := pp_parts p ++ [x] |}.
Proof. intros Hx. unfold path_div. by rewrite (parse_part_plain x Hx). Qed.

Lemma save_dir_plain output_root b :
  plain_component (bm_dataset b) -> plain_component (bm_processing b) ->
  plain_component (bm_target b) -> plain_component (bm_features b) ->
  plain_component (bm_model b) ->
  save_dir output_root b
  = {| pp_root := pp_root (Path output_root);
       pp_parts := pp_parts (Path output_root) ++
                   [bm_dataset b; bm_processing b; bm_target b;
                    bm_features b; bm_model b] |}.
Proof.
  intros H1 H2 H3 H4 H5. unfold save_dir.
  rewrite !path_div_plain by done. cbn [pp_root pp_parts].
  by rewrite <- !app_assoc.
Qed.

Lemma file_name_plain : plain_component "results.csv" /\ plain_component "ys.csv".
Proof. by split_and!. Qed.

End benchmark_path_facts.

(** X22: a benchmark whose fields are plain names is saved in the folder
    of the docstring, [output_root/dataset/processing/target/features/
    model]: when [compute_benchmark] ends well with an output root, it has
    made that directory and written the two tables the cross-validation
    returned into its files [results.csv] and [ys.csv], in this order,
    and it returns these tables. *)
Theorem compute_benchmark_saves (Frame Sample : Type)
    (run_benchmark_cv :
       Benchmark -> nat -> option Sample -> option string ->
       result (Frame * Frame))
    (mkdir : PurePath -> result unit)
    (to_csv : Frame -> PurePath -> result unit)
    (b : Benchmark) (output_root : string) (sample : option Sample)
    (trace : list (BenchEvent Frame)) (result ys : Frame) :
  plain_component (bm_dataset b) -> plain_component (bm_processing b) ->
  plain_component (bm_target b) -> plain_component (bm_features b) ->
  plain_component (bm_model b) ->
  compute_benchmark Frame Sample run_benchmark_cv mkdir to_csv b
    (Some output_root) sample = (trace, Ok (result, ys)) ->
  let root := Path output_root in
  let folder := [bm_dataset b; bm_processing b; bm_target b; bm_features b;
                 bm_model b] in
  let file name := {| pp_root := pp_root root;
                      pp_parts := pp_parts root ++ folder ++ [name] |} in
  trace = [MadeDir Frame {| pp_root := pp_root root;
                            pp_parts := pp_parts root ++ folder |};
           WroteCsv Frame (file "results.csv") result;
           WroteCsv Frame (file "ys.csv") ys] /\
  run_benchmark_cv b 10%nat sample
    (if bool_decide (bm_dataset b = "tdbrain")
     then Some "diagnosis_code" else None) = Ok (result, ys).
Proof.
  intros H1 H2 H3 H4 H5. unfold compute_benchmark.
  destruct (run_benchmark_cv _ _ _ _) as [[result' ys']|]; [|by intros [= _ ?]].
  rewrite (save_dir_plain output_root b H1 H2 H3 H4 H5).
  destruct file_name_plain as [Hr Hy]. rewrite !path_div_plain by done.
  cbn [pp_root pp_parts].
  destruct (mkdir _) as [[]|]; [|by intros [= _ ?]].
  destruct (to_csv result' _) as [[]|]; [|by intros [= _ ?]].
  destruct (to_csv ys' _) as [[]|]; [|by intros [= _ ?]].
  intros [= <- <- <-]. cbv zeta. by rewrite <- !app_assoc.
Qed.

Lemma compute_benchmark_saves_witness :
  let b := {| bm_dataset := "TUAB"; bm_processing := "preproc_minimal";
              bm_target := "age"; bm_features := "meeglet";
              bm_model := "riemann" |} in
  let dir := ["results"; "TUAB"; "preproc_minimal"; "age"; "meeglet";
              "riemann"] in
  let trace :=
    [MadeDir string {| pp_root := "/"; pp_parts := dir |};
     WroteCsv string {| pp_root := "/"; pp_parts := dir ++ ["results.csv"] |}
       "scores";
     WroteCsv string {| pp_root := "/"; pp_parts := dir ++ ["ys.csv"] |}
       "predictions"] in
  compute_benchmark string unit (fun _ _ _ _ => Ok ("scores", "predictions"))
    (fun _ => Ok tt) (fun _ _ => Ok tt) b (Some "/results/") None
  = (trace, Ok ("scores", "predictions")) /\
  trace = [MadeDir string {| pp_root := "/"; pp_parts := dir |};
           WroteCsv string
             {| pp_root := "/"; pp_parts := dir ++ ["results.csv"] |} "scores";
           WroteCsv string
             {| pp_root := "/"; pp_parts := dir ++ ["ys.csv"] |} "predictions"].
Proof.
  intros b dir trace. split; [reflexivity|].
  destruct (compute_benchmark_saves string unit
              (fun _ _ _ _ => Ok ("scores", "predictions"))
              (fun _ => Ok tt) (fun _ _ => Ok tt) b "/results/" None
              trace "scores" "predictions") as [Htrace _];
    [by split_and!..|reflexivity|].
  exact Htrace.
Defined.

(** X23: two benchmarks with plain names that differ in a field never
    write to the same file: a table written by [compute_benchmark] for one
    benchmark and a table written for another one, under the same output
    root, lie in different files, and so do the two tables of one
    benchmark. *)
Theorem compute_benchmark_files_distinct (Frame Sample : Type)
    (run_benchmark_cv :
       Benchmark -> nat -> option Sample -> option string ->
       result (Frame * Frame))
    (mkdir : PurePath -> result unit)
    (to_csv : Frame -> PurePath -> result unit)
    (b1 b2 : Benchmark) (output_root : string) (s1 s2 : option Sample)
    (file : PurePath) (t1 t2 : Frame) :
  Forall plain_component [bm_dataset b1; bm_processing b1; bm_target b1;
                          bm_features b1; bm_model b1] ->
  Forall plain_component [bm_dataset b2; bm_processing b2; bm_target b2;
                          bm_features b2; bm_model b2] ->
  WroteCsv Frame file t1
    ∈ (compute_benchmark Frame Sample run_benchmark_cv mkdir to_csv b1
         (Some output_root) s1).1 ->
  WroteCsv Frame file t2
    ∈ (compute_benchmark Frame Sample run_benchmark_cv mkdir to_csv b2
         (Some output_root) s2).1 ->
  b1 = b2.
Proof.
  intros Hb1 Hb2.
  assert (forall b s t,
    Forall plain_component [bm_dataset b; bm_processing b; bm_target b;
                            bm_features b; bm_model b] ->
    WroteCsv Frame file t
      ∈ (compute_benchmark Frame Sample run_benchmark_cv mkdir to_csv b
           (Some output_root) s).1 ->
    exists name,
      pp_parts file = pp_parts (Path output_root) ++
                      [bm_dataset b; bm_processing b; bm_target b;
                       bm_features b; bm_model b] ++ [name]) as Hfile.
  { intros b s t Hb. unfold compute_benchmark.
    apply Forall_cons in Hb as [H1 Hb]. apply Forall_cons in Hb as [H2 Hb].
    apply Forall_cons in Hb as [H3 Hb]. apply Forall_cons in Hb as [H4 Hb].
    apply Forall_cons in Hb as [H5 _].
    rewrite (save_dir_plain output_root b H1 H2 H3 H4 H5).
    destruct file_name_plain as [Hr Hy]. rewrite !path_div_plain by done.
    cbn [pp_root pp_parts].
    destruct (run_benchmark_cv _ _ _ _) as [[result ys]|];
      [|by intros ?%elem_of_nil].
    destruct (mkdir _) as [[]|]; [|by intros ?%elem_of_nil].
    destruct (to_csv result _) as [[]|]; cbn [fst].
    - destruct (to_csv ys _) as [[]|]; cbn [fst]; intros Hin;
        repeat (apply elem_of_cons in Hin as [Hin|Hin]); simplify_eq;
        try (by apply elem_of_nil in Hin); cbn [pp_parts];
        rewrite <- !app_assoc; by eexists.
    - intros Hin. repeat (apply elem_of_cons in Hin as [Hin|Hin]);
        simplify_eq; by apply elem_of_nil in Hin. }
  intros [n1 E1]%Hfile [n2 E2]%Hfile; [|done..].
  rewrite E1 in E2. apply app_inv_head in E2.
  destruct b1, b2. cbn in E2. by simplify_eq.
Qed.

Lemma compute_benchmark_files_distinct_witness :
  let b := {| bm_dataset := "TUAB"; bm_processing := "preproc_minimal";
              bm_target := "age"; bm_features := "meeglet";
              bm_model := "riemann" |} in
  let file := {| pp_root := "";
                 pp_parts := ["results"; "TUAB"; "preproc_minimal"; "age";
                              "meeglet"; "riemann"; "ys.csv"] |} in
  let run := fun (b' : Benchmark) (_ : nat) (_ : option unit)
                 (_ : option string) =>
               Ok (bm_model b', bm_target b') in
  WroteCsv string file "age"
    ∈ (compute_benchmark string unit run (fun _ => Ok tt)
         (fun _ _ => Ok tt) b (Some "results") None).1 /\
  b = b.
Proof.
  intros b file run.
  assert (WroteCsv string file "age"
            ∈ (compute_benchmark string unit run (fun _ => Ok tt)
                 (fun _ _ => Ok tt) b (Some "results") None).1) as Hin.
  { cbn. do 2 apply list_elem_of_further. apply list_elem_of_here. }
  split; [exact Hin|].
  apply (compute_benchmark_files_distinct string unit run (fun _ => Ok tt)
           (fun _ _ => Ok tt) b b "results" None None file "age" "age");
    [by repeat constructor..|exact Hin|exact Hin].
Defined.

(** ** The subjects of the processing pipelines *)

(** X24: the subjects handed to the processing pipelines are exactly the
    participants of [participants.tsv] that have a first session in the
    summary table of the conversion whose recording is not pathological,
    without the three excluded subjects: no excluded subject, no subject
    known only by a pathological first session, and no subject missing
    from either table is processed. *)
Theorem tuab_subjects_selected (participants_tsv : list string)
    (summary : list SummaryRow) (s : string) :
  s ∈ tuab_subjects participants_tsv summary <->
  (s ∉ excluded_subjects) /\ s ∈ participants_tsv /\
  exists row,
    row ∈ summary /\ row_session row = 1 /\
    si_pathological (row_info row) = false /\
    s = "sub-" +:+ participant_id (row_info row).
Proof.
  unfold tuab_subjects. rewrite list_elem_of_fmap. split.
  - intros (row & -> & Hrow).
    apply list_elem_of_filter in Hrow as [Hkept Hrow].
    apply list_elem_of_filter in Hrow as [Hnormal Hrow].
    apply list_elem_of_bind in Hrow as (row' & Hmerged & Hfirst).
    apply list_elem_of_fmap in Hmerged as (p & -> & Hp).
    apply list_elem_of_filter in Hp as [-> Hp].
    apply list_elem_of_filter in Hfirst as [Hsession Hin].
    split_and!; [done..|]. by exists row'.
  - intros (Hkept & Hp & row & Hin & Hsession & Hnormal & ->).
    exists row. split; [done|].
    apply list_elem_of_filter. split; [done|].
    apply list_elem_of_filter. split; [done|].
    apply list_elem_of_bind. exists row. split.
    + apply list_elem_of_fmap. eexists. split; [done|].
      apply list_elem_of_filter. by split.
    + apply list_elem_of_filter. by split.
Qed.

(** ** Output paths without the reindexing *)

Section path_collision_facts.

Lemma bids_path_of_triple dir r r' :
  bids_path_of dir r = bids_path_of dir r' <->
  (subject r, session r, segment r) = (subject r', session r', segment r').
Proof.
  split.
  - intros (? & ? & ?)%bids_path_of_inv. by f_equal; [f_equal|].
  - intros [= Hs Hn Hg]. unfold bids_path_of, mrn_of, session_nb_of.
    by rewrite Hs, Hn, Hg.
Qed.

(** Two ways to tell rows apart that agree give the same answer to
    whether rows collide. *)
Lemma NoDup_fmap_iff {A B C} (f : A -> B) (g : A -> C) (l : list A) :
  (forall x y, f x = f y <-> g x = g y) ->
  NoDup (f <$> l) <-> NoDup (g <$> l).
Proof.
  intros Hfg. rewrite !NoDup_alt. split; intros Hl i j z Hi Hj;
    rewrite list_lookup_fmap in Hi, Hj;
    destruct (l !! i) as [x|] eqn:Hx; try done;
    destruct (l !! j) as [y|] eqn:Hy; try done;
    cbn in Hi, Hj; simplify_eq.
  - apply (Hl i j (f x)); rewrite list_lookup_fmap, ?Hx, ?Hy; cbn;
      [done|]. f_equal. symmetry. by apply Hfg.
  - apply (Hl i j (g x)); rewrite list_lookup_fmap, ?Hx, ?Hy; cbn;
      [done|]. f_equal. symmetry. by apply Hfg.
Qed.

Lemma group_size_one_NoDup (description : list Recording) :
  (forall r, r ∈ description ->
             group_size description (subject r, session r) = 1%nat) ->
  NoDup ((fun r => (subject r, session r)) <$> description).
Proof.
  unfold group_size. induction description as [|r l IH]; [constructor|].
  intros Hone. rewrite fmap_cons. constructor.
  - intros (r' & Hkey & Hin)%list_elem_of_fmap.
    specialize (Hone r (list_elem_of_here _ _)).
    rewrite filter_cons_True in Hone by done. cbn in Hone.
    assert (r' ∈ filter (fun x => (subject x, session x)
                                  = (subject r, session r)) l) as Hf
      by (by apply list_elem_of_filter).
    destruct (filter _ l); [by apply elem_of_nil in Hf|cbn in Hone; lia].
  - apply IH. intros r' Hin.
    specialize (Hone r' (list_elem_of_further _ _ _ Hin)).
    assert (r' ∈ filter (fun x => (subject x, session x)
                                  = (subject r', session r')) l) as Hf
      by (by apply list_elem_of_filter).
    destruct (decide ((subject r, session r) = (subject r', session r'))).
    + rewrite filter_cons_True in Hone by done. cbn in Hone.
      destruct (filter _ l); [by apply elem_of_nil in Hf|cbn in Hone; lia].
    + by rewrite filter_cons_False in Hone.
Qed.

(** When the split files have been taken as one, every (subject,
    session) pair has one recording. *)
Lemma collapse_split_files_NoDup description rows :
  collapse_split_files description = Ok rows ->
  rows = set_segment (RunStr "001") <$> description /\
  NoDup ((fun r => (subject r, session r)) <$> description).
Proof.
  intros Hok. split.
  - revert Hok. unfold collapse_split_files.
    destruct (array_bool _) as [[]|]; cbn [bind]; try done. by intros [= <-].
  - apply group_size_one_NoDup. intros r Hr.
    assert (r ∈ filter (fun x => (subject x, session x)
                                 = (subject r, session r)) description) as Hf
      by (by apply list_elem_of_filter).
    destruct (decide (1 < group_size description (subject r, session r))%nat)
      as [Hgt|Hle].
    + pose proof (collapse_split_files_refuses description r Hr Hgt) as Hno.
      by rewrite Hok in Hno.
    + unfold group_size in *.
      destruct (filter _ description); [by apply elem_of_nil in Hf|].
      cbn in *. lia.
Qed.

End path_collision_facts.

(** X25: without the reindexing of the sessions, two recordings are
    written to the same path exactly when they have the same subject,
    session and segment (the later one overwrites the earlier one), so
    the output paths are pairwise distinct exactly when these triples
    are; when the split files are taken as one, the guard on the
    (subject, session) pairs makes the paths pairwise distinct. *)
Theorem output_paths_without_reindexing `{Mne} (concat_ds : list BaseDataset)
    (dir : string) (csf : bool) (rows : list Recording) :
  converted_description concat_ds false csf = Ok rows ->
  (NoDup (bids_path_of dir <$> rows) <->
   NoDup ((fun r => (subject r, session r, segment r)) <$> rows)) /\
  (csf = true -> NoDup (bids_path_of dir <$> rows)).
Proof.
  intros Hrows.
  assert (NoDup (bids_path_of dir <$> rows) <->
          NoDup ((fun r => (subject r, session r, segment r)) <$> rows))
    as Hiff by (apply NoDup_fmap_iff; intros x y; apply bids_path_of_triple).
  split; [done|]. intros ->. apply Hiff.
  unfold converted_description in Hrows.
  destruct (collapse_split_files _) as [rows'|] eqn:Hc; [|done].
  cbn [bind] in Hrows. injection Hrows as <-.
  apply collapse_split_files_NoDup in Hc as [-> Hpairs].
  rewrite <- list_fmap_compose.
  revert Hpairs. apply NoDup_fmap_iff. intros x y. cbn. split.
  - by intros [= -> ->].
  - by intros [= -> ->].
Qed.

Lemma output_paths_without_reindexing_witness :
  let first := example_recording
                 "edf/train/normal/01_tcp_ar/aaaaaaab_s003_t000.edf"
                 1 "aaaaaaab" 3 0 in
  let second := example_recording
                  "edf/eval/normal/01_tcp_ar/aaaaaaab_s003_t000.edf"
                  1 "aaaaaaab" 3 0 in
  ~ NoDup (bids_path_of "bids" <$> [description first; description second]) /\
  NoDup (bids_path_of "bids" <$> [set_segment (RunStr "001")
                                    (description first)]).
Proof.
  intros first second. split.
  - rewrite (proj1 (@output_paths_without_reindexing example_mne
                      [first; second] "bids" false _ eq_refl)).
    intros Hnodup. apply NoDup_cons in Hnodup as [Hnotin _].
    apply Hnotin, list_elem_of_here.
  - exact (proj2 (@output_paths_without_reindexing example_mne
                    [first] "bids" true _ eq_refl) eq_refl).
Defined.
